(** * fitbit-pipeline: the ingestion pipeline of [fitbit_to_influx.py]

    A shallow embedding of the Fitbit client ([FitbitAPI]), the sink wrapper
    ([InfluxDBWriter]), the per-metric normalizers and the PEM risk score
    ([FitbitDataProcessor]) and of [main], followed by the properties of the
    specification that concern them.

    Conventions of the embedding.
    - A Python value read from JSON is a [value]; [None] is [PNone].
    - A finite Python [float] is a rational ([PFloat q]); comparisons between
      [int] and [float] are exact in Python, so they are exact here.  The one
      rounding operation of the program, the true division [lf / hf], is taken
      exactly; NaN and the infinities are outside the model.
    - A Python exception is a constructor of [exn]; a computation that can
      raise returns [exn + A]; a computation that also mutates returns
      [(exn + A) * state], the state surviving the exception as it does in
      Python.
    - The remote servers are oracles indexed by the number of requests made so
      far; every effect of a run is appended to a chronological trace. *)

From Stdlib Require Import ZArith QArith Qabs List String Ascii Bool Lia.
Import ListNotations.

Set Implicit Arguments.
Set Warnings "-register-all".
Local Open Scope string_scope.
Local Open Scope list_scope.
Local Open Scope Z_scope.

(** ** Python values and the operations the program applies to them *)

Module Py.

Inductive exn : Type :=
| KeyError | IndexError | TypeError | ValueError | AttributeError
| ZeroDivisionError | OverflowError | RecursionError
| RequestException        (* requests.exceptions.RequestException and subclasses *)
| NameError
| OtherError.             (* any other subclass of Exception raised by a library *)

Inductive value : Type :=
| PNone
| PBool (b : bool)
| PInt (z : Z)
| PFloat (q : Q)
| PStr (s : string)
| PList (l : list value)
| PDict (items : list (string * value)).   (* items in insertion order *)

Definition result (A : Type) : Type := (exn + A)%type.

Definition ok {A} (a : A) : result A := inr a.
Definition raise {A} (e : exn) : result A := inl e.

Definition rbind {A B} (m : result A) (k : A -> result B) : result B :=
  match m with inl e => inl e | inr a => k a end.

(** *** strings *)

Definition ascii_lower (c : ascii) : ascii :=
  let n := nat_of_ascii c in
  if (Nat.leb 65 n && Nat.leb n 90)%bool then ascii_of_nat (n + 32) else c.

(* str.lower(), on ASCII letters *)
Fixpoint lower (s : string) : string :=
  match s with
  | EmptyString => EmptyString
  | String c r => String (ascii_lower c) (lower r)
  end.

Fixpoint startswith (p s : string) : bool :=
  match p, s with
  | EmptyString, _ => true
  | String a p', String b s' => (Ascii.eqb a b && startswith p' s')%bool
  | String _ _, EmptyString => false
  end.

(* [p in s] for two strings *)
Fixpoint substr_in (p s : string) : bool :=
  (startswith p s ||
   match s with
   | EmptyString => false
   | String _ s' => substr_in p s'
   end)%bool.

(* str.replace(a, b) for single characters *)
Fixpoint replace_char (a b : ascii) (s : string) : string :=
  match s with
  | EmptyString => EmptyString
  | String c r => String (if Ascii.eqb c a then b else c) (replace_char a b r)
  end.

(* s.split(sep)[-1] for a single-character separator *)
Fixpoint last_segment (sep : ascii) (s : string) : string :=
  match s with
  | EmptyString => EmptyString
  | String c r =>
      if substr_in (String sep EmptyString) r then last_segment sep r
      else if Ascii.eqb c sep then r
      else s
  end.

(* the blanks of str.strip(), int() and the regular expression class \s,
   among the ASCII characters *)
Definition is_space (c : ascii) : bool :=
  let n := nat_of_ascii c in
  (Nat.eqb n 32 || (Nat.leb 9 n && Nat.leb n 13) || (Nat.leb 28 n && Nat.leb n 31))%bool.

Fixpoint lstrip (s : string) : string :=
  match s with
  | String c r => if is_space c then lstrip r else s
  | EmptyString => s
  end.

Fixpoint rstrip (s : string) : string :=
  match s with
  | String c r =>
      match rstrip r with
      | EmptyString => if is_space c then EmptyString else String c EmptyString
      | r' => String c r'
      end
  | EmptyString => s
  end.

Definition strip (s : string) : string := rstrip (lstrip s).

Definition digit (c : ascii) : option Z :=
  let n := nat_of_ascii c in
  if (Nat.leb 48 n && Nat.leb n 57)%bool then Some (Z.of_nat (n - 48)) else None.

(* the digits of an int literal: single underscores between digits only *)
Fixpoint digits (acc : Z) (after_digit : bool) (s : string) : option Z :=
  match s with
  | EmptyString => if after_digit then Some acc else None
  | String c r =>
      match digit c with
      | Some d => digits (10 * acc + d) true r
      | None => if (Ascii.eqb c "_" && after_digit)%bool then digits acc false r else None
      end
  end.

Fixpoint chars (s : string) : list value :=
  match s with
  | EmptyString => []
  | String c r => PStr (String c EmptyString) :: chars r
  end.

(** *** dictionaries as ordered item lists *)

Fixpoint lookup (k : string) (items : list (string * value)) : option value :=
  match items with
  | [] => None
  | (k', v) :: r => if String.eqb k' k then Some v else lookup k r
  end.

Definition is_str (s : string) (v : value) : bool :=
  match v with PStr t => String.eqb t s | _ => false end.

(** *** truthiness, membership, subscripting, iteration *)

(* [bool(v)] *)
Definition truthy (v : value) : bool :=
  match v with
  | PNone => false
  | PBool b => b
  | PInt z => negb (z =? 0)
  | PFloat q => negb (Qeq_bool q 0)
  | PStr s => negb (String.eqb s "")
  | PList l => match l with [] => false | _ => true end
  | PDict d => match d with [] => false | _ => true end
  end.

(* ['k' in v] for a string literal k *)
Definition contains (v : value) (k : string) : result bool :=
  match v with
  | PDict d => ok (match lookup k d with Some _ => true | None => false end)
  | PList l => ok (existsb (is_str k) l)
  | PStr s => ok (substr_in k s)
  | _ => raise TypeError
  end.

(* [v['k']] for a string literal k *)
Definition getitem (v : value) (k : string) : result value :=
  match v with
  | PDict d => match lookup k d with Some x => ok x | None => raise KeyError end
  | _ => raise TypeError
  end.

(* [v[0]] *)
Definition getitem0 (v : value) : result value :=
  match v with
  | PList l => match l with x :: _ => ok x | [] => raise IndexError end
  | PStr s => match s with
              | String c _ => ok (PStr (String c EmptyString))
              | EmptyString => raise IndexError
              end
  | PDict _ => raise KeyError          (* the keys of a JSON object are strings *)
  | _ => raise TypeError
  end.

(* [v.get('k', default)] *)
Definition get (v : value) (k : string) (default : value) : result value :=
  match v with
  | PDict d => ok (match lookup k d with Some x => x | None => default end)
  | _ => raise AttributeError
  end.

(* the elements [for x in v] runs over *)
Definition iter (v : value) : result (list value) :=
  match v with
  | PList l => ok l
  | PDict d => ok (map (fun kv => PStr (fst kv)) d)
  | PStr s => ok (chars s)
  | _ => raise TypeError
  end.

(* [v.keys()] *)
Definition keys (v : value) : result (list string) :=
  match v with
  | PDict d => ok (map fst d)
  | _ => raise AttributeError
  end.

(* [len(v)] *)
Definition len (v : value) : result Z :=
  match v with
  | PList l => ok (Z.of_nat (List.length l))
  | PDict d => ok (Z.of_nat (List.length d))
  | PStr s => ok (Z.of_nat (String.length s))
  | _ => raise TypeError
  end.

(** *** numbers *)

(* the numeric value of an int, a float or a bool ([True == 1]) *)
Definition as_num (v : value) : option Q :=
  match v with
  | PBool b => Some (if b then 1%Q else 0%Q)
  | PInt z => Some (inject_Z z)
  | PFloat q => Some q
  | _ => None
  end.

Definition Qlt_bool (x y : Q) : bool := negb (Qle_bool y x).

(* [v > n] and [v < n] for an int literal n *)
Definition gt (v : value) (n : Z) : result bool :=
  match as_num v with
  | Some q => ok (Qlt_bool (inject_Z n) q)
  | None => raise TypeError
  end.

Definition lt (v : value) (n : Z) : result bool :=
  match as_num v with
  | Some q => ok (Qlt_bool q (inject_Z n))
  | None => raise TypeError
  end.

(* [v != 0]: never raises, a non-number is different from 0 *)
Definition ne0 (v : value) : bool :=
  match as_num v with
  | Some q => negb (Qeq_bool q 0)
  | None => true
  end.

(* the number of digits of a literal *)
Fixpoint digit_count (s : string) : Z :=
  match s with
  | EmptyString => 0
  | String c r => (match digit c with Some _ => 1 | None => 0 end) + digit_count r
  end.

(* sys.get_int_max_str_digits(): the longest literal int() converts *)
Definition max_str_digits : Z := 4300.

(* [int(s)] for a str s, base 10: a literal of more than 4300 digits is
   refused like one that is not a number *)
Definition int_of_str (s : string) : result Z :=
  let parsed :=
    match strip s with
    | String c r =>
        if Ascii.eqb c "-" then option_map Z.opp (digits 0 false r)
        else if Ascii.eqb c "+" then digits 0 false r
        else digits 0 false (String c r)
    | EmptyString => None
    end in
  match parsed with
  | Some z => if max_str_digits <? digit_count s then raise ValueError else ok z
  | None => raise ValueError
  end.

Definition is_float (v : value) : bool :=
  match v with PFloat _ => true | _ => false end.

(* the numbers that do not round to a float: from 2^1024 - 2^970 on, the
   middle of the largest float and 2^1024 *)
Definition float_limit : Z := 2 ^ 1024 - 2 ^ 970.

Definition too_large (q : Q) : bool := Qle_bool (inject_Z float_limit) (Qabs q).

(* [a / b], true division.  Between two ints (a bool is an int) the divisor
   is looked at first and the quotient must round to a float.  When one
   operand is a float the other is converted first, which an int too large
   for a float refuses; the quotient of two floats that leaves the range of
   the floats is an infinity, outside the model. *)
Definition truediv (a b : value) : result value :=
  match as_num a, as_num b with
  | Some x, Some y =>
      if (is_float a || is_float b)%bool then
        if ((negb (is_float a) && too_large x) || (negb (is_float b) && too_large y))%bool
        then raise OverflowError
        else if Qeq_bool y 0 then raise ZeroDivisionError
        else ok (PFloat (x / y))
      else
        if Qeq_bool y 0 then raise ZeroDivisionError
        else if too_large (x / y) then raise OverflowError
        else ok (PFloat (x / y))
  | _, _ => raise TypeError
  end.

End Py.

(** ** [datetime.strptime] for the two formats the program uses

    The parser follows the regular expressions CPython builds for the
    directives: [%Y] is four digits, [%m] is [1[0-2]|0[1-9]|[1-9]], [%d] is
    [3[0-1]|[1-2]\d|0[1-9]|[1-9]| [1-9]], [%H] is [2[0-3]|[0-1]\d|\d], [%M] is
    [[0-5]\d|\d], [%S] is [6[0-1]|[0-5]\d|\d]; a blank of the format matches
    one or more blanks; the whole string has to be consumed, and the result
    has to be a date that exists (the [datetime] constructor rejects year 0, a
    day beyond the month's length and a second above 59).  Digits are the
    ASCII digits. *)

Module Datetime.

Record datetime : Type := mk_datetime {
  year : Z; month : Z; day : Z; hour : Z; minute : Z; second : Z
}.

Definition digit := Py.digit.

Definition digit_in (lo hi : Z) (c : ascii) : option Z :=
  match digit c with
  | Some d => if ((lo <=? d) && (d <=? hi))%bool then Some d else None
  | None => None
  end.

Definition is_space := Py.is_space.

(* \d\d\d\d *)
Definition re_Y (s : string) : option (Z * string) :=
  match s with
  | String a (String b (String c (String d r))) =>
      match digit a, digit b, digit c, digit d with
      | Some a, Some b, Some c, Some d => Some (1000 * a + 100 * b + 10 * c + d, r)
      | _, _, _, _ => None
      end
  | _ => None
  end.

(* one alternative made of two character classes *)
Definition two (lo1 hi1 lo2 hi2 : Z) (s : string) : option (Z * string) :=
  match s with
  | String a (String b r) =>
      match digit_in lo1 hi1 a, digit_in lo2 hi2 b with
      | Some a, Some b => Some (10 * a + b, r)
      | _, _ => None
      end
  | _ => None
  end.

(* one alternative made of one character class *)
Definition one (lo hi : Z) (s : string) : option (Z * string) :=
  match s with
  | String a r => match digit_in lo hi a with Some a => Some (a, r) | None => None end
  | EmptyString => None
  end.

Definition orelse {A} (x y : option A) : option A :=
  match x with Some _ => x | None => y end.

Definition re_m (s : string) : option (Z * string) :=
  orelse (two 1 1 0 2 s) (orelse (two 0 0 1 9 s) (one 1 9 s)).

Definition re_d (s : string) : option (Z * string) :=
  orelse (two 3 3 0 1 s)
    (orelse (two 1 2 0 9 s)
       (orelse (two 0 0 1 9 s)
          (orelse (one 1 9 s)
             match s with
             | String c r => if Ascii.eqb c " " then one 1 9 r else None
             | EmptyString => None
             end))).

Definition re_H (s : string) : option (Z * string) :=
  orelse (two 2 2 0 3 s) (orelse (two 0 1 0 9 s) (one 0 9 s)).

Definition re_M (s : string) : option (Z * string) :=
  orelse (two 0 5 0 9 s) (one 0 9 s).

Definition re_S (s : string) : option (Z * string) :=
  orelse (two 6 6 0 1 s) (orelse (two 0 5 0 9 s) (one 0 9 s)).

Definition lit (c : ascii) (s : string) : option string :=
  match s with
  | String a r => if Ascii.eqb a c then Some r else None
  | EmptyString => None
  end.

Fixpoint skip_spaces (s : string) : string :=
  match s with
  | String c r => if is_space c then skip_spaces r else s
  | EmptyString => s
  end.

(* \s+ *)
Definition spaces1 (s : string) : option string :=
  match s with
  | String c r => if is_space c then Some (skip_spaces r) else None
  | EmptyString => None
  end.

Definition is_leap (y : Z) : bool :=
  ((y mod 4 =? 0) && (negb (y mod 100 =? 0) || (y mod 400 =? 0)))%bool.

Definition days_in_month (y m : Z) : Z :=
  if m =? 2 then (if is_leap y then 29 else 28)
  else if ((m =? 4) || (m =? 6) || (m =? 9) || (m =? 11))%bool then 30
  else 31.

(* the checks of the datetime constructor *)
Definition valid (t : datetime) : bool :=
  ((1 <=? year t) && (year t <=? 9999) &&
   (1 <=? month t) && (month t <=? 12) &&
   (1 <=? day t) && (day t <=? days_in_month (year t) (month t)) &&
   (0 <=? hour t) && (hour t <=? 23) &&
   (0 <=? minute t) && (minute t <=? 59) &&
   (0 <=? second t) && (second t <=? 59))%bool.

Definition obind {A B} (x : option A) (k : A -> option B) : option B :=
  match x with Some a => k a | None => None end.

(* the regular expression of '%Y-%m-%d': the fields and the rest *)
Definition match_ymd (s : string) : option (Z * Z * Z * string) :=
  obind (re_Y s) (fun '(y, s) =>
  obind (lit "-" s) (fun s =>
  obind (re_m s) (fun '(m, s) =>
  obind (lit "-" s) (fun s =>
  obind (re_d s) (fun '(d, s) => Some (y, m, d, s)))))).

Definition checked (t : datetime) : Py.result datetime :=
  if valid t then Py.ok t else Py.raise Py.ValueError.

(* datetime.strptime(s, '%Y-%m-%d') for a str s *)
Definition strptime_ymd (s : string) : Py.result datetime :=
  match match_ymd s with
  | Some (y, m, d, EmptyString) => checked (mk_datetime y m d 0 0 0)
  | _ => Py.raise Py.ValueError
  end.

(* datetime.strptime(s, '%Y-%m-%d %H:%M:%S') for a str s *)
Definition strptime_ymd_hms (s : string) : Py.result datetime :=
  match
    obind (match_ymd s) (fun '(y, m, d, s) =>
    obind (spaces1 s) (fun s =>
    obind (re_H s) (fun '(h, s) =>
    obind (lit ":" s) (fun s =>
    obind (re_M s) (fun '(mi, s) =>
    obind (lit ":" s) (fun s =>
    obind (re_S s) (fun '(se, s) => Some (mk_datetime y m d h mi se, s))))))))
  with
  | Some (t, EmptyString) => checked t
  | _ => Py.raise Py.ValueError
  end.

(* datetime.strptime(v, '%Y-%m-%d') for any value: a str is required *)
Definition strptime_date (v : Py.value) : Py.result datetime :=
  match v with
  | Py.PStr s => strptime_ymd s
  | _ => Py.raise Py.TypeError
  end.

(* two decimal digits, and four *)
Definition digit_char (d : Z) : ascii := ascii_of_nat (48 + Z.to_nat d).

Definition pad2 (n : Z) : string :=
  String (digit_char (n / 10 mod 10)) (String (digit_char (n mod 10)) EmptyString).

Definition pad4 (n : Z) : string :=
  String (digit_char (n / 1000 mod 10))
    (String (digit_char (n / 100 mod 10)) (pad2 n)).

(* t.strftime('%Y-%m-%d') *)
Definition strftime_ymd (t : datetime) : string :=
  (pad4 (year t) ++ "-" ++ pad2 (month t) ++ "-" ++ pad2 (day t))%string.

End Datetime.

Example strptime_ymd_ex1 :
  Datetime.strptime_ymd "2024-01-15" = inr (Datetime.mk_datetime 2024 1 15 0 0 0).
Proof. reflexivity. Qed.

Example strptime_ymd_ex2 : Datetime.strptime_ymd "2024-02-30" = inl Py.ValueError.
Proof. reflexivity. Qed.

Example strptime_ymd_ex3 : Datetime.strptime_ymd "2024-01-155" = inl Py.ValueError.
Proof. reflexivity. Qed.

Example strptime_hms_ex1 :
  Datetime.strptime_ymd_hms "2024-01-15 08:05:00"
  = inr (Datetime.mk_datetime 2024 1 15 8 5 0).
Proof. reflexivity. Qed.

Example strftime_ex1 :
  Datetime.strftime_ymd (Datetime.mk_datetime 2024 1 15 8 5 0) = "2024-01-15".
Proof. reflexivity. Qed.

(** ** Points, configuration, the outside world and the run state *)

(* influxdb_client.Point: builder calls add a field, a tag or the time *)
Record Point : Type := mk_Point {
  measurement : string;
  fields : list (string * Py.value);
  tags : list (string * string);
  time : option Datetime.datetime
}.

Definition new_Point (m : string) : Point := mk_Point m [] [] None.

Definition field (k : string) (v : Py.value) (p : Point) : Point :=
  mk_Point (measurement p) (fields p ++ [(k, v)]) (tags p) (time p).

Definition tag (k v : string) (p : Point) : Point :=
  mk_Point (measurement p) (fields p) (tags p ++ [(k, v)]) (time p).

Definition at_time (t : Datetime.datetime) (p : Point) : Point :=
  mk_Point (measurement p) (fields p) (tags p) (Some t).

(* os.environ *)
Definition environ : Type := list (string * string).

Fixpoint env_lookup (k : string) (env : environ) : option string :=
  match env with
  | [] => None
  | (k', v) :: r => if String.eqb k' k then Some v else env_lookup k r
  end.

(* os.getenv(k, default) *)
Definition getenv (env : environ) (k default : string) : string :=
  match env_lookup k env with Some v => v | None => default end.

(* os.getenv(k, 'true').lower() == 'true' *)
Definition flag (env : environ) (k : string) : bool :=
  String.eqb (Py.lower (getenv env k "true")) "true".

(* the module-level constants, evaluated when the module is imported *)
Record Config : Type := mk_Config {
  FITBIT_CLIENT_ID : string;
  FITBIT_CLIENT_SECRET : string;
  FITBIT_ACCESS_TOKEN : string;
  FITBIT_REFRESH_TOKEN : string;
  INFLUX_URL : string;
  INFLUX_TOKEN : string;
  INFLUX_ORG : string;
  INFLUX_BUCKET : string;
  HEALTH_CONDITIONS : list (string * bool)
}.

Definition load_config (env : environ) : Config := {|
  FITBIT_CLIENT_ID := getenv env "FITBIT_CLIENT_ID" "";
  FITBIT_CLIENT_SECRET := getenv env "FITBIT_CLIENT_SECRET" "";
  FITBIT_ACCESS_TOKEN := getenv env "FITBIT_ACCESS_TOKEN" "";
  FITBIT_REFRESH_TOKEN := getenv env "FITBIT_REFRESH_TOKEN" "";
  INFLUX_URL := getenv env "INFLUX_URL" "http://localhost:8086";
  INFLUX_TOKEN := getenv env "INFLUX_TOKEN" "";
  INFLUX_ORG := getenv env "INFLUX_ORG" "fitbit";
  INFLUX_BUCKET := getenv env "INFLUX_BUCKET" "fitbit";
  HEALTH_CONDITIONS :=
    [ ("long_covid", flag env "HEALTH_LONG_COVID");
      ("pots", flag env "HEALTH_POTS");
      ("small_fiber_neuropathy", flag env "HEALTH_SMALL_FIBER_NEUROPATHY");
      ("pem", flag env "HEALTH_PEM");
      ("dysautonomia", flag env "HEALTH_DYSAUTONOMIA") ]
|}.

Definition DAILY_METRICS : list string :=
  [ "activities/steps"; "activities/calories"; "activities/distance";
    "activities/floors"; "activities/elevation"; "activities/minutesSedentary";
    "activities/minutesLightlyActive"; "activities/minutesFairlyActive";
    "activities/minutesVeryActive"; "activities/active-zone-minutes";
    "activities/heart"; "body/weight"; "body/bmi"; "body/fat";
    "sleep"; "spo2"; "hrv" ].

Definition INTRADAY_METRICS : list string :=
  [ "activities/heart"; "activities/steps"; "activities/calories";
    "activities/distance"; "activities/floors"; "activities/active-zone-minutes" ].

(* HEALTH_CONDITIONS.get(k), None read as false *)
Fixpoint condition (k : string) (hc : list (string * bool)) : bool :=
  match hc with
  | [] => false
  | (k', b) :: r => if String.eqb k' k then b else condition k r
  end.

(* an HTTP response as the program reads it: [body] is what response.json()
   returns, None when the body is not JSON *)
Record Response : Type := mk_Response {
  status_code : Z;
  headers : list (string * string);
  body : option Py.value
}.

(* the outcome of requests.get / requests.post *)
Inductive http_result : Type :=
| Resp (r : Response)
| Fails.                      (* a RequestException: timeout, connection error *)

(* response.headers.get(k): the header names compare without case *)
Fixpoint header_get (k : string) (hs : list (string * string)) : option string :=
  match hs with
  | [] => None
  | (k', v) :: r =>
      if String.eqb (Py.lower k') (Py.lower k) then Some v else header_get k r
  end.

Inductive level : Type := INFO | WARNING | ERROR.

(* what a run does to the outside, in the order it does it *)
Inductive event : Type :=
| EGet (url : string) (bearer : Py.value)
    (* requests.get(url) with Authorization: Bearer <bearer> *)
| EPost (basic : string) (refresh_token : Py.value)
    (* requests.post to the token endpoint; basic is the text that is
       base64-encoded into the Authorization header *)
| ESleep (seconds : Q)
| ELog (l : level) (msg : string)
    (* the text an exception or a count contributes to a message is left out *)
| EWrite (bucket : string) (record : list Point)
| EClose
| EPrint (msg : string).

Record World : Type := mk_World {
  api_get : nat -> http_result;      (* the answer to the n-th GET, n from 0 *)
  token_post : nat -> http_result;   (* the answer to the n-th token POST *)
  influx_connect : option Py.exn;    (* what InfluxDBClient(...) raises, if it does *)
  influx_write : list Point -> option Py.exn;   (* what write_api.write raises *)
  influx_close : option Py.exn;
  clock : nat -> Datetime.datetime   (* datetime.now() after n events *)
}.

(* the FitbitAPI instance *)
Record Client : Type := mk_Client {
  client_id : string;
  client_secret : string;
  access_token : Py.value;
  refresh_token : Py.value;
  base_url : string
}.

Record state : Type := mk_state {
  self : Client;
  trace : list event
}.

Definition is_get (e : event) : bool := match e with EGet _ _ => true | _ => false end.
Definition is_post (e : event) : bool := match e with EPost _ _ => true | _ => false end.
Definition is_write (e : event) : bool := match e with EWrite _ _ => true | _ => false end.
Definition is_sleep (e : event) : bool := match e with ESleep _ => true | _ => false end.

Definition count (f : event -> bool) (tr : list event) : nat := List.length (filter f tr).

(** ** A state and exception monad *)

Definition M (S A : Type) : Type := S -> Py.result A * S.

Definition ret {S A} (a : A) : M S A := fun s => (inr a, s).

Definition bind {S A B} (m : M S A) (k : A -> M S B) : M S B :=
  fun s => match m s with
           | (inr a, s') => k a s'
           | (inl e, s') => (inl e, s')
           end.

Definition throw {S A} (e : Py.exn) : M S A := fun s => (inl e, s).

(* a pure computation that may raise *)
Definition lift {S A} (r : Py.result A) : M S A := fun s => (r, s).

(* try: body / except Exception: handler *)
Definition try_except {S A} (body : M S A) (handler : Py.exn -> M S A) : M S A :=
  fun s => match body s with
           | (inr a, s') => (inr a, s')
           | (inl e, s') => handler e s'
           end.

(* try: body / except requests.exceptions.RequestException: handler *)
Definition try_except_request {S A} (body : M S A) (handler : M S A) : M S A :=
  fun s => match body s with
           | (inl Py.RequestException, s') => handler s'
           | r => r
           end.

Declare Scope monad_scope.
Delimit Scope monad_scope with monad.
Notation "x <- m ;; k" := (bind m (fun x => k))
  (at level 61, m at next level, right associativity) : monad_scope.
Notation "m ;; k" := (bind m (fun _ => k))
  (at level 61, right associativity) : monad_scope.
Local Open Scope monad_scope.

(* for x in xs: body x *)
Fixpoint for_each {S A} (xs : list A) (body : A -> M S unit) : M S unit :=
  match xs with
  | [] => ret tt
  | x :: r => body x ;; for_each r body
  end.

Definition emit (e : event) : M state unit :=
  fun s => (inr tt, mk_state (self s) (trace s ++ [e])).

Definition log (l : level) (msg : string) : M state unit := emit (ELog l msg).

Definition get_self : M state Client := fun s => (inr (self s), s).

Definition set_access_token (v : Py.value) : M state unit :=
  fun s => (inr tt,
            mk_state (mk_Client (client_id (self s)) (client_secret (self s))
                                v (refresh_token (self s)) (base_url (self s)))
                     (trace s)).

Definition set_refresh_token (v : Py.value) : M state unit :=
  fun s => (inr tt,
            mk_state (mk_Client (client_id (self s)) (client_secret (self s))
                                (access_token (self s)) v (base_url (self s)))
                     (trace s)).

(* the longest sleep, in seconds: time.sleep counts the duration in
   nanoseconds on 64 bits *)
Definition max_sleep : Z := 9223372036.

(* time.sleep(d), for the durations the program sleeps, an int or 0.5: a
   duration beyond max_sleep seconds, in either direction, raises
   OverflowError, another negative duration raises ValueError *)
Definition sleep (d : Q) : M state unit :=
  if (Py.Qlt_bool d (inject_Z (- max_sleep)) || Py.Qlt_bool (inject_Z max_sleep) d)%bool
  then throw Py.OverflowError
  else if Qle_bool 0 d then emit (ESleep d) else throw Py.ValueError.

Arguments sleep : simpl never.

(* points.append(p) *)
Definition append (p : Point) : M (list Point) unit :=
  fun points => (inr tt, points ++ [p]).

(** ** class FitbitAPI *)

Module FitbitAPI.
Section WithWorld.

Variable w : World.

Definition new (cfg : Config) : Client := {|
  client_id := FITBIT_CLIENT_ID cfg;
  client_secret := FITBIT_CLIENT_SECRET cfg;
  access_token := Py.PStr (FITBIT_ACCESS_TOKEN cfg);
  refresh_token := Py.PStr (FITBIT_REFRESH_TOKEN cfg);
  base_url := "https://api.fitbit.com/1/user/-"
|}.

(* the validation of __init__, the attributes being set from the
   configuration as in [new] *)
Definition init : M state unit :=
  c <- get_self ;;
  if (Py.truthy (Py.PStr (client_id c)) && Py.truthy (Py.PStr (client_secret c)) &&
      Py.truthy (access_token c) && Py.truthy (refresh_token c))%bool
  then ret tt
  else log ERROR "Missing required Fitbit credentials in environment variables" ;;
       throw Py.ValueError.

Definition http_get (url : string) (bearer : Py.value) : M state Response :=
  fun s =>
    let n := count is_get (trace s) in
    match emit (EGet url bearer) s with
    | (_, s') =>
        match api_get w n with
        | Resp r => (inr r, s')
        | Fails => (inl Py.RequestException, s')
        end
    end.

Definition http_post (basic : string) (rt : Py.value) : M state Response :=
  fun s =>
    let n := count is_post (trace s) in
    match emit (EPost basic rt) s with
    | (_, s') =>
        match token_post w n with
        | Resp r => (inr r, s')
        | Fails => (inl Py.RequestException, s')
        end
    end.

(* response.json(): requests raises its JSONDecodeError, a RequestException *)
Definition json (r : Response) : Py.result Py.value :=
  match body r with
  | Some v => Py.ok v
  | None => Py.raise Py.RequestException
  end.

Definition refresh_access_token : M state bool :=
  try_except
    (c <- get_self ;;
     let auth_string := (client_id c ++ ":" ++ client_secret c)%string in
     response <- http_post auth_string (refresh_token c) ;;
     if status_code response =? 200 then
       token_data <- lift (json response) ;;
       a <- lift (Py.getitem token_data "access_token") ;;
       set_access_token a ;;
       r <- lift (Py.getitem token_data "refresh_token") ;;
       set_refresh_token r ;;
       log INFO "Token refreshed successfully" ;;
       ret true
     else
       log ERROR "Token refresh failed" ;;
       ret false)
    (fun _ => log ERROR "Error refreshing token" ;; ret false).

(* int(response.headers.get('Retry-After', 3600)) *)
Definition retry_after_of (r : Response) : Py.result Z :=
  match header_get "Retry-After" (headers r) with
  | Some v => Py.int_of_str v
  | None => Py.ok 3600
  end.

(* response.raise_for_status() *)
Definition raise_for_status (r : Response) : Py.result unit :=
  if ((400 <=? status_code r) && (status_code r <? 600))%bool
  then Py.raise Py.RequestException
  else Py.ok tt.

(* f"{base_url}/{endpoint}/date/{date}", "/{detail_level}" when given and
   not empty, ".json" *)
Definition url_of (c : Client) (endpoint date : string) (detail_level : option string)
  : string :=
  (base_url c ++ "/" ++ endpoint ++ "/date/" ++ date ++
   match detail_level with
   | Some d => if Py.truthy (Py.PStr d) then "/" ++ d else ""
   | None => ""
   end ++ ".json")%string.

(* [fuel] bounds the depth of the recursion, as the interpreter's recursion
   limit does; running out of it is a RecursionError *)
Fixpoint make_request (fuel : nat) (endpoint : string) (date : option string)
         (detail_level : option string) : M state Py.value :=
  match fuel with
  | O => throw Py.RecursionError
  | S fuel' =>
      c <- get_self ;;
      let bearer := access_token c in
      date <- match date with
              | Some d => ret d
              | None => fun s => (inr (Datetime.strftime_ymd (clock w (List.length (trace s)))), s)
              end ;;
      let url := url_of c endpoint date detail_level in
      (* after the 401 block: rate limiting, then the result *)
      let finish (response : Response) : M state Py.value :=
        if status_code response =? 429 then
          retry_after <- lift (retry_after_of response) ;;
          log WARNING "Rate limited, waiting" ;;
          sleep (inject_Z retry_after) ;;
          make_request fuel' endpoint (Some date) detail_level
        else
          lift (raise_for_status response) ;;
          lift (json response) in
      try_except_request
        (log INFO ("Making request to: " ++ endpoint) ;;
         response <- http_get url bearer ;;
         if status_code response =? 401 then
           log INFO "Access token expired, refreshing..." ;;
           refreshed <- refresh_access_token ;;
           if refreshed then
             c' <- get_self ;;
             response <- http_get url (access_token c') ;;
             finish response
           else
             log ERROR "Failed to refresh token" ;;
             ret Py.PNone
         else finish response)
        (log ERROR ("Error fetching " ++ endpoint) ;; ret Py.PNone)
  end.

End WithWorld.
End FitbitAPI.

(** ** class InfluxDBWriter *)

Module InfluxDBWriter.
Section WithWorld.

Variable w : World.
Variable cfg : Config.

Definition init : M state unit :=
  if negb (Py.truthy (Py.PStr (INFLUX_TOKEN cfg))) then
    log ERROR "INFLUX_TOKEN not set in environment variables" ;;
    throw Py.ValueError
  else
    match influx_connect w with
    | None => log INFO "Connected to InfluxDB"
    | Some e => log ERROR "Failed to connect to InfluxDB" ;; throw e
    end.

(* self.write_api.write(bucket=INFLUX_BUCKET, record=points) *)
Definition write_api_write (points : list Point) : M state unit :=
  emit (EWrite (INFLUX_BUCKET cfg) points) ;;
  match influx_write w points with
  | None => ret tt
  | Some e => throw e
  end.

Definition write_points (points : list Point) : M state unit :=
  try_except
    (match points with
     | [] => ret tt
     | _ => write_api_write points ;;
            log INFO "Wrote points to InfluxDB"
     end)
    (fun _ => log ERROR "Error writing to InfluxDB").

Definition close : M state unit :=
  emit EClose ;;
  match influx_close w with
  | None => ret tt
  | Some e => throw e
  end.

End WithWorld.
End InfluxDBWriter.

(** ** class FitbitDataProcessor *)

Module FitbitDataProcessor.
Section WithWorld.

Variable w : World.
Variable cfg : Config.
Variable fuel : nat.      (* the recursion depth available to make_request *)

Import Py.

(* for condition, enabled in HEALTH_CONDITIONS.items():
     if enabled: point = point.tag(condition, 'true') *)
Definition health_tags (p : Point) : Point :=
  fold_left (fun (p : Point) (ce : string * bool) => if snd ce then tag (fst ce) "true" p else p)
            (HEALTH_CONDITIONS cfg) p.

(* [k in data and data[k]], as a condition *)
Definition has (data : value) (k : string) : result bool :=
  rbind (contains data k) (fun c =>
  if c then rbind (getitem data k) (fun v => ok (truthy v)) else ok false).

(** *** process_daily_summary *)

Definition heart_rule (measurement : string) (timestamp : Datetime.datetime)
           (data : value) : M (list Point) unit :=
  c <- lift (has data "activities-heart") ;;
  if c then
    l <- lift (getitem data "activities-heart") ;;
    first <- lift (getitem0 l) ;;
    heart_data <- lift (getitem first "value") ;;
    r <- lift (contains heart_data "restingHeartRate") ;;
    if r then
      rhr <- lift (getitem heart_data "restingHeartRate") ;;
      append (health_tags
                (at_time timestamp (field "resting_heart_rate" rhr (new_Point measurement))))
    else ret tt
  else ret tt.

Definition sleep_body (measurement : string) (sleep_record : value)
  : M (list Point) unit :=
  is_main <- lift (get sleep_record "isMainSleep" (PBool true)) ;;
  if truthy is_main then
    d <- lift (getitem sleep_record "dateOfSleep") ;;
    sleep_time <- lift (Datetime.strptime_date d) ;;
    efficiency <- lift (get sleep_record "efficiency" (PInt 0)) ;;
    asleep <- lift (get sleep_record "minutesAsleep" (PInt 0)) ;;
    awake <- lift (get sleep_record "minutesAwake" (PInt 0)) ;;
    in_bed <- lift (get sleep_record "timeInBed" (PInt 0)) ;;
    append (health_tags
              (at_time sleep_time
                 (field "time_in_bed" in_bed
                    (field "minutes_awake" awake
                       (field "minutes_asleep" asleep
                          (field "efficiency" efficiency (new_Point measurement)))))))
  else ret tt.

Definition sleep_rule (measurement : string) (data : value) : M (list Point) unit :=
  c <- lift (has data "sleep") ;;
  if c then
    l <- lift (getitem data "sleep") ;;
    records <- lift (iter l) ;;
    for_each records (sleep_body measurement)
  else ret tt.

Definition hrv_body (measurement : string) (hrv_record : value)
  : M (list Point) unit :=
  c <- lift (has hrv_record "value") ;;
  if c then
    d <- lift (getitem hrv_record "dateTime") ;;
    hrv_time <- lift (Datetime.strptime_date d) ;;
    val <- lift (getitem hrv_record "value") ;;
    lf <- lift (get val "lf" (PInt 0)) ;;
    hf <- lift (get val "hf" (PInt 1)) ;;
    lf_hf_ratio <- (if ne0 hf then lift (truediv lf hf) else ret (PInt 0)) ;;
    daily <- lift (get val "dailyRmssd" (PInt 0)) ;;
    deep <- lift (get val "deepRmssd" (PInt 0)) ;;
    append (health_tags
              (at_time hrv_time
                 (field "lf_hf_ratio" lf_hf_ratio
                    (field "hf" hf
                       (field "lf" lf
                          (field "deep_rmssd" deep
                             (field "daily_rmssd" daily (new_Point measurement))))))))
  else ret tt.

Definition hrv_rule (measurement : string) (data : value) : M (list Point) unit :=
  c <- lift (has data "hrv") ;;
  if c then
    l <- lift (getitem data "hrv") ;;
    records <- lift (iter l) ;;
    for_each records (hrv_body measurement)
  else ret tt.

Definition spo2_body (measurement : string) (spo2_record : value)
  : M (list Point) unit :=
  c <- lift (contains spo2_record "value") ;;
  if c then
    d <- lift (getitem spo2_record "dateTime") ;;
    spo2_time <- lift (Datetime.strptime_date d) ;;
    v <- lift (getitem spo2_record "value") ;;
    avg <- lift (get v "avg" (PInt 0)) ;;
    v <- lift (getitem spo2_record "value") ;;
    mn <- lift (get v "min" (PInt 0)) ;;
    v <- lift (getitem spo2_record "value") ;;
    mx <- lift (get v "max" (PInt 0)) ;;
    append (at_time spo2_time
              (field "max" mx (field "min" mn (field "value" avg (new_Point measurement)))))
  else ret tt.

Definition spo2_rule (measurement : string) (data : value) : M (list Point) unit :=
  c <- lift (has data "spo2") ;;
  if c then
    l <- lift (getitem data "spo2") ;;
    records <- lift (iter l) ;;
    for_each records (spo2_body measurement)
  else ret tt.

Definition generic_body (measurement : string) (record : value)
  : M (list Point) unit :=
  c <- lift (rbind (contains record "dateTime") (fun a =>
             if a then contains record "value" else ok false)) ;;
  if c then
    d <- lift (getitem record "dateTime") ;;
    record_time <- lift (Datetime.strptime_date d) ;;
    v <- lift (getitem record "value") ;;
    append (at_time record_time (field "value" v (new_Point measurement)))
  else ret tt.

Definition generic_rule (metric measurement : string) (data : value)
  : M (list Point) unit :=
  let metric_key := last_segment "/" metric in
  c <- lift (has data metric_key) ;;
  if c then
    l <- lift (getitem data metric_key) ;;
    records <- lift (iter l) ;;
    for_each records (generic_body measurement)
  else ret tt.

(* the body of the try statement of process_daily_summary *)
Definition daily_rules (metric measurement : string) (timestamp : Datetime.datetime)
           (data : value) : M (list Point) unit :=
  if String.eqb metric "activities/heart" then heart_rule measurement timestamp data
  else if String.eqb metric "sleep" then sleep_rule measurement data
  else if String.eqb metric "hrv" then hrv_rule measurement data
  else if String.eqb metric "spo2" then spo2_rule measurement data
  else generic_rule metric measurement data.

(* process_daily_summary from the line after the fetch *)
Definition normalize_daily (metric date : string) (data : value)
  : M state (list Point) :=
  if negb (truthy data) then ret []
  else
    let measurement := replace_char "/" "_" metric in
    timestamp <- lift (Datetime.strptime_ymd date) ;;
    match daily_rules metric measurement timestamp data [] with
    | (inr _, points) => ret points
    | (inl _, points) => log ERROR ("Error processing " ++ metric) ;; ret points
    end.

Definition process_daily_summary (metric date : string) : M state (list Point) :=
  data <- FitbitAPI.make_request w fuel metric (Some date) None ;;
  normalize_daily metric date data.

(** *** process_intraday_data *)

(* for key in data.keys(): if 'intraday' in key.lower(): ...; break *)
Definition find_intraday_key (ks : list string) : option string :=
  find (fun key => substr_in "intraday" (lower key)) ks.

(* lines 329-339: the dataset, or None where the source returns [] *)
Definition find_dataset (data : value) : result (option value) :=
  rbind (keys data) (fun ks =>
  match find_intraday_key ks with
  | None => ok None
  | Some intraday_key =>
      rbind (getitem data intraday_key) (fun d =>
      rbind (contains d "dataset") (fun c =>
      if c then
        rbind (getitem data intraday_key) (fun d =>
        rbind (getitem d "dataset") (fun dataset => ok (Some dataset)))
      else ok None))
  end).

(* strptime(f"{date} {time_str}", '%Y-%m-%d %H:%M:%S'); what str() makes of
   a value that is not a str holds no colon after a digit, so it never
   matches the format *)
Definition intraday_timestamp (date : string) (time_str : value)
  : result Datetime.datetime :=
  match time_str with
  | PStr t => Datetime.strptime_ymd_hms (date ++ " " ++ t)
  | _ => raise ValueError
  end.

Definition intraday_body (metric measurement date : string) (entry : value)
  : M (list Point) unit :=
  c <- lift (rbind (contains entry "time") (fun a =>
             if a then contains entry "value" else ok false)) ;;
  if c then
    time_str <- lift (getitem entry "time") ;;
    timestamp <- lift (intraday_timestamp date time_str) ;;
    v <- lift (getitem entry "value") ;;
    let point := at_time timestamp (field "value" v (new_Point measurement)) in
    append (if (String.eqb metric "activities/heart" || String.eqb metric "hrv")%bool
            then health_tags point else point)
  else ret tt.

(* process_intraday_data from the line after the fetch; each branch that
   logs an ERROR is the except clause reached from that point of the try
   body, with the points appended so far *)
Definition normalize_intraday (metric date : string) (data : value)
  : M state (list Point) :=
  if negb (truthy data) then ret []
  else
    let measurement := (replace_char "/" "_" metric ++ "_intraday")%string in
    match find_dataset data with
    | inl _ => log ERROR ("Error processing intraday " ++ metric) ;; ret []
    | inr None => log WARNING ("No intraday dataset found for " ++ metric) ;; ret []
    | inr (Some dataset) =>
        match len dataset with
        | inl _ => log ERROR ("Error processing intraday " ++ metric) ;; ret []
        | inr _ =>
            log INFO ("Processing intraday points for " ++ metric) ;;
            match (entries <- lift (iter dataset) ;;
                   for_each entries (intraday_body metric measurement date)) [] with
            | (inr _, points) => ret points
            | (inl _, points) =>
                log ERROR ("Error processing intraday " ++ metric) ;; ret points
            end
        end
    end.

Definition process_intraday_data (metric date detail_level : string)
  : M state (list Point) :=
  let endpoint := (metric ++ "/intraday")%string in
  data <- FitbitAPI.make_request w fuel endpoint (Some date) (Some detail_level) ;;
  normalize_intraday metric date data.

(** *** calculate_pem_risk *)

(* [data and k in data and data[k]], as a condition *)
Definition present (data : value) (k : string) : result bool :=
  if truthy data then has data k else ok false.

(* the heart-rate block: risk_score after it *)
Definition heart_block (hr_data : value) (risk_score : Q) : result Q :=
  rbind (present hr_data "activities-heart") (fun c =>
  if c then
    rbind (getitem hr_data "activities-heart") (fun l =>
    rbind (getitem0 l) (fun first =>
    rbind (getitem first "value") (fun v =>
    rbind (get v "restingHeartRate" (PInt 0)) (fun resting_hr =>
    rbind (gt resting_hr 100) (fun b =>
    ok (if b then (risk_score + 30)%Q else risk_score))))))
  else ok risk_score).

Definition steps_block (steps_data : value) (risk_score : Q) : result Q :=
  rbind (present steps_data "activities-steps") (fun c =>
  if c then
    rbind (getitem steps_data "activities-steps") (fun l =>
    rbind (getitem0 l) (fun first =>
    rbind (get first "value" (PInt 0)) (fun steps =>
    rbind (gt steps 5000) (fun b =>
    ok (if b then (risk_score + 25)%Q else risk_score)))))
  else ok risk_score).

(* for hrv_record in hrv_data['hrv']: ... break *)
Fixpoint hrv_scan (records : list value) (risk_score : Q) : result Q :=
  match records with
  | [] => ok risk_score
  | hrv_record :: rest =>
      rbind (has hrv_record "value") (fun c =>
      if c then
        rbind (getitem hrv_record "value") (fun v =>
        rbind (get v "dailyRmssd" (PInt 0)) (fun daily_rmssd =>
        rbind (lt daily_rmssd 20) (fun b =>
        ok (if b then (risk_score + 45)%Q else risk_score))))
      else hrv_scan rest risk_score)
  end.

Definition hrv_block (hrv_data : value) (risk_score : Q) : result Q :=
  rbind (present hrv_data "hrv") (fun c =>
  if c then
    rbind (getitem hrv_data "hrv") (fun l =>
    rbind (iter l) (fun records => hrv_scan records risk_score))
  else ok risk_score).

(* min(risk_score, 100) for a float risk_score: the int 100 when it is smaller *)
Definition cap (risk_score : Q) : value :=
  if Qlt_bool 100 risk_score then PInt 100 else PFloat risk_score.

(* the body of the try statement of calculate_pem_risk *)
Definition pem_risk_try (date : string) : M state value :=
  let risk_score := 0%Q in
  hr_data <- FitbitAPI.make_request w fuel "activities/heart" (Some date) None ;;
  risk_score <- lift (heart_block hr_data risk_score) ;;
  steps_data <- FitbitAPI.make_request w fuel "activities/steps" (Some date) None ;;
  risk_score <- lift (steps_block steps_data risk_score) ;;
  hrv_data <- FitbitAPI.make_request w fuel "hrv" (Some date) None ;;
  risk_score <- lift (hrv_block hrv_data risk_score) ;;
  ret (cap risk_score).

Definition calculate_pem_risk (date : string) : M state value :=
  try_except
    (pem_risk_try date)
    (fun _ => log ERROR "Error calculating PEM risk" ;; ret (PFloat 0)).

End WithWorld.
End FitbitDataProcessor.

(** ** main *)

Section Main.

Variable w : World.
Variable cfg : Config.    (* the constants of the imported module *)
Variable env : environ.   (* os.environ after load_environment_from_file() *)
Variable fuel : nat.

Definition required_vars : list string :=
  [ "FITBIT_CLIENT_ID"; "FITBIT_CLIENT_SECRET"; "FITBIT_ACCESS_TOKEN";
    "FITBIT_REFRESH_TOKEN" ].

(* [var for var in required_vars if not os.getenv(var)] *)
Definition missing_vars : list string :=
  filter (fun var => match env_lookup var env with
                     | Some v => negb (Py.truthy (Py.PStr v))
                     | None => true
                     end) required_vars.

Definition now : M state Datetime.datetime :=
  fun s => (inr (clock w (List.length (trace s))), s).

(* datetime.now().strftime('%Y-%m-%d') *)
Definition today_is : M state string :=
  t <- now ;; ret (Datetime.strftime_ymd t).

(* str(b) for a bool *)
Definition str_bool (b : bool) : string := if b then "True" else "False".

Definition pem_enabled : bool :=
  (condition "long_covid" (HEALTH_CONDITIONS cfg) || condition "pem" (HEALTH_CONDITIONS cfg))%bool.

(* for metric in metrics:
     points = process(metric); all_points.extend(points); time.sleep(0.5) *)
Fixpoint extend_each (process : string -> M state (list Point))
         (metrics : list string) (all_points : list Point) : M state (list Point) :=
  match metrics with
  | [] => ret all_points
  | metric :: rest =>
      points <- process metric ;;
      sleep (1 # 2) ;;
      extend_each process rest (all_points ++ points)
  end.

(* all_points after the daily loop, the intraday loop and the risk point *)
Definition collect (today : string) : M state (list Point) :=
  let all_points : list Point := [] in
  log INFO "Fetching daily summary data..." ;;
  all_points <-
    extend_each (fun metric => FitbitDataProcessor.process_daily_summary w cfg fuel metric today)
                DAILY_METRICS all_points ;;
  log INFO "Fetching intraday data..." ;;
  all_points <-
    extend_each (fun metric =>
                   FitbitDataProcessor.process_intraday_data w cfg fuel metric today "1min")
                INTRADAY_METRICS all_points ;;
  if pem_enabled then
    log INFO "Calculating PEM risk score..." ;;
    pem_risk <- FitbitDataProcessor.calculate_pem_risk w fuel today ;;
    t <- now ;;
    let pem_point :=
      at_time t
        (tag "pots" (str_bool (condition "pots" (HEALTH_CONDITIONS cfg)))
           (tag "long_covid" (str_bool (condition "long_covid" (HEALTH_CONDITIONS cfg)))
              (field "risk_score" pem_risk (new_Point "pem_risk")))) in
    log INFO "PEM Risk Score" ;;
    ret (all_points ++ [pem_point])
  else ret all_points.

(* what follows write_points in the branch of a non-empty batch *)
Definition summary (today : string) : M state unit :=
  log INFO "Successfully synced data points" ;;
  emit (EPrint "Sync completed successfully!") ;;
  emit (EPrint "Data points collected") ;;
  emit (EPrint "Date") ;;
  emit (EPrint "Health conditions enabled") ;;
  if pem_enabled then
    pem_risk <- FitbitDataProcessor.calculate_pem_risk w fuel today ;;
    emit (EPrint "PEM Risk Score") ;;
    high <- lift (Py.gt pem_risk 70) ;;
    if high then emit (EPrint "HIGH PEM RISK - Consider resting today")
    else
      moderate <- lift (Py.gt pem_risk 30) ;;
      if moderate then emit (EPrint "MODERATE PEM RISK - Monitor activity levels")
      else emit (EPrint "LOW PEM RISK - Normal activity tolerance")
  else ret tt.

(* from [if all_points:] to the end of the try body *)
Definition deliver (today : string) (all_points : list Point) : M state unit :=
  match all_points with
  | _ :: _ =>
      InfluxDBWriter.write_points w cfg all_points ;;
      summary today
  | [] =>
      log WARNING "No data points collected" ;;
      emit (EPrint "No data collected. Check your Fitbit device sync and API credentials.")
  end.

(* except Exception as e: *)
Definition on_error (e : Py.exn) : M state unit :=
  log ERROR "Error in main execution" ;;
  emit (EPrint "Error") ;;
  emit (EPrint "Check the fitbit_sync.log file for detailed error information.").

Definition completed : M state unit := log INFO "Fitbit data sync completed".

(* The try body is cut after the two constructors: when one of them raises,
   influx_writer is unbound, so the close() of the finally clause raises a
   NameError that its bare except swallows, and nothing is closed. *)
Definition main : M state unit :=
  log INFO "Starting Enhanced Fitbit data sync..." ;;
  match missing_vars with
  | _ :: _ =>
      log ERROR "Missing required environment variables" ;;
      log ERROR "Please check your .env file or environment variable configuration"
  | [] =>
      fun s =>
        match (FitbitAPI.init ;; InfluxDBWriter.init w cfg) s with
        | (inl e, s1) => (on_error e ;; completed) s1
        | (inr _, s1) =>
            (try_except
               (today <- today_is ;;
                all_points <- collect today ;;
                deliver today all_points)
               on_error ;;
             try_except (InfluxDBWriter.close w) (fun _ => ret tt) ;;
             completed) s1
        end
  end.

(* the state main starts from: the client holds the configured credentials *)
Definition initial : state := mk_state (FitbitAPI.new cfg) [].

End Main.

(** * Properties *)

(** ** Traces *)

Lemma count_app f (a b : list event) : count f (a ++ b) = (count f a + count f b)%nat.
Proof. unfold count. now rewrite filter_app, length_app. Qed.

Lemma count_snoc f (a : list event) (e : event) :
  count f (a ++ [e]) = (count f a + (if f e then 1 else 0))%nat.
Proof. rewrite count_app. unfold count. simpl. now destruct (f e). Qed.

(** ** The token refresh *)

Section Refresh.

Variable w : World.

(* the state after the POST of a refresh started in [s] *)
Definition posted (s : state) : state :=
  mk_state (self s)
           (trace s ++ [EPost (client_id (self s) ++ ":" ++ client_secret (self s))
                              (refresh_token (self s))]).

(* the client with both tokens replaced *)
Definition with_tokens (c : Client) (a r : Py.value) : Client :=
  mk_Client (client_id c) (client_secret c) a r (base_url c).

(* the token endpoint's answer to the refresh started in [s] *)
Definition token_answer (s : state) : http_result :=
  token_post w (count is_post (trace s)).

(* a refresh that meets a non-200 answer fails and changes no credential *)
Lemma refresh_non_200 s r :
  token_answer s = Resp r -> status_code r <> 200 ->
  FitbitAPI.refresh_access_token w s
  = (inr false,
     mk_state (self s) (trace (posted s) ++ [ELog ERROR "Token refresh failed"])).
Proof.
  unfold token_answer. intros Ha Hs.
  unfold FitbitAPI.refresh_access_token, try_except, bind, get_self,
    FitbitAPI.http_post, emit, log. simpl. rewrite Ha.
  apply Z.eqb_neq in Hs. rewrite Hs. reflexivity.
Qed.

(* a refresh whose POST raises fails and changes no credential *)
Lemma refresh_transport_error s :
  token_answer s = Fails ->
  FitbitAPI.refresh_access_token w s
  = (inr false,
     mk_state (self s) (trace (posted s) ++ [ELog ERROR "Error refreshing token"])).
Proof.
  unfold token_answer. intros Ha.
  unfold FitbitAPI.refresh_access_token, try_except, bind, get_self,
    FitbitAPI.http_post, emit, log. simpl. now rewrite Ha.
Qed.

(* a 200 answer carrying both tokens replaces both *)
Lemma refresh_success s r token_data a rt :
  token_answer s = Resp r -> status_code r = 200 ->
  body r = Some token_data ->
  Py.getitem token_data "access_token" = inr a ->
  Py.getitem token_data "refresh_token" = inr rt ->
  FitbitAPI.refresh_access_token w s
  = (inr true,
     mk_state (with_tokens (self s) a rt)
              (trace (posted s) ++ [ELog INFO "Token refreshed successfully"])).
Proof.
  unfold token_answer. intros Ha Hs Hb Hat Hrt.
  unfold FitbitAPI.refresh_access_token, try_except, bind, get_self,
    FitbitAPI.http_post, emit, log, lift, FitbitAPI.json. simpl.
  rewrite Ha, Hs, Hb. simpl. rewrite Hat. simpl. rewrite Hrt. reflexivity.
Qed.

(* a 200 answer with an access token and no refresh token: the refresh
   fails after the access token has been replaced *)
Lemma refresh_partial s r token_data a e :
  token_answer s = Resp r -> status_code r = 200 ->
  body r = Some token_data ->
  Py.getitem token_data "access_token" = inr a ->
  Py.getitem token_data "refresh_token" = inl e ->
  FitbitAPI.refresh_access_token w s
  = (inr false,
     mk_state (with_tokens (self s) a (refresh_token (self s)))
              (trace (posted s) ++ [ELog ERROR "Error refreshing token"])).
Proof.
  unfold token_answer. intros Ha Hs Hb Hat Hrt.
  unfold FitbitAPI.refresh_access_token, try_except, bind, get_self,
    FitbitAPI.http_post, emit, log, lift, FitbitAPI.json. simpl.
  rewrite Ha, Hs, Hb. simpl. rewrite Hat. simpl. rewrite Hrt. reflexivity.
Qed.

(* what every refresh does: it returns a boolean, makes one POST and no
   GET, writes nothing to the sink, and keeps the client's identity *)
Lemma refresh_shape s :
  exists (b : bool) (c : Client) (l : event),
    FitbitAPI.refresh_access_token w s
    = (inr b, mk_state c (trace (posted s) ++ [l])) /\
    (exists lv msg, l = ELog lv msg) /\
    client_id c = client_id (self s) /\
    client_secret c = client_secret (self s) /\
    base_url c = base_url (self s) /\
    (b = true -> exists r token_data,
         token_answer s = Resp r /\ status_code r = 200 /\
         body r = Some token_data /\
         Py.getitem token_data "access_token" = inr (access_token c) /\
         Py.getitem token_data "refresh_token" = inr (refresh_token c)).
Proof.
  unfold token_answer.
  unfold FitbitAPI.refresh_access_token, try_except, bind, get_self,
    FitbitAPI.http_post, emit, log, lift, FitbitAPI.json, posted. simpl.
  destruct (token_post w (count is_post (trace s))) as [r|] eqn:Ha.
  2:{ exists false, (self s). eexists. split; [reflexivity|].
      repeat split; eauto; discriminate. }
  destruct (status_code r =? 200) eqn:Hs; simpl.
  2:{ exists false, (self s). eexists. split; [reflexivity|].
      repeat split; eauto; discriminate. }
  apply Z.eqb_eq in Hs.
  destruct (body r) as [td|] eqn:Hb; simpl.
  2:{ exists false, (self s). eexists. split; [reflexivity|].
      repeat split; eauto; discriminate. }
  destruct (Py.getitem td "access_token") as [e|a] eqn:Hat; simpl.
  { exists false, (self s). eexists. split; [reflexivity|].
    repeat split; eauto; discriminate. }
  destruct (Py.getitem td "refresh_token") as [e|rt] eqn:Hrt; simpl.
  { exists false. eexists. eexists. split; [reflexivity|].
    repeat split; eauto; discriminate. }
  exists true. eexists. eexists. split; [reflexivity|].
  repeat split; eauto. intros _. exists r, td. simpl. auto.
Qed.

End Refresh.



(* int() raises nothing but ValueError on a str *)
Lemma int_of_str_raises v e : Py.int_of_str v = inl e -> e = Py.ValueError.
Proof.
  unfold Py.int_of_str.
  match goal with |- context [match ?x with Some _ => _ | None => _ end] =>
    destruct x end; [destruct (_ <? _)|]; intros H; inversion H; reflexivity.
Qed.

Lemma retry_after_raises r e : FitbitAPI.retry_after_of r = inl e -> e = Py.ValueError.
Proof.
  unfold FitbitAPI.retry_after_of. destruct (header_get "Retry-After" (headers r)).
  - apply int_of_str_raises.
  - discriminate.
Qed.

(* what time.sleep raises for a wait it refuses *)
Definition refused_wait (d : Z) : Py.exn :=
  if ((d <? - max_sleep) || (max_sleep <? d))%bool then Py.OverflowError else Py.ValueError.

Lemma Qle_bool_inject a b : Qle_bool (inject_Z a) (inject_Z b) = (a <=? b).
Proof.
  destruct (a <=? b) eqn:E.
  - apply Z.leb_le in E. apply Qle_bool_iff. unfold Qle. simpl. lia.
  - apply Z.leb_gt in E. destruct (Qle_bool _ _) eqn:Q; [|reflexivity].
    exfalso. apply Qle_bool_iff in Q. unfold Qle in Q. simpl in Q. lia.
Qed.

Lemma Qlt_bool_inject a b : Py.Qlt_bool (inject_Z a) (inject_Z b) = (a <? b).
Proof. unfold Py.Qlt_bool. rewrite Qle_bool_inject, Z.ltb_antisym. reflexivity. Qed.

Lemma sleep_refused d s :
  ~ 0 <= d <= max_sleep -> sleep (inject_Z d) s = (inl (refused_wait d), s).
Proof.
  intros H. unfold sleep, refused_wait.
  change 0%Q with (inject_Z 0). rewrite !Qlt_bool_inject, Qle_bool_inject.
  destruct ((d <? - max_sleep) || (max_sleep <? d))%bool eqn:E; [reflexivity|].
  apply orb_false_iff in E. destruct E as [Ea Eb]. apply Z.ltb_ge in Ea, Eb.
  destruct (0 <=? d) eqn:E0; [|reflexivity].
  apply Z.leb_le in E0. exfalso. apply H. lia.
Qed.

Section Fetch.

Variable w : World.

(* the date a fetch started in [s] uses *)
Definition date_of (date : option string) (s : state) : string :=
  match date with
  | Some d => d
  | None => Datetime.strftime_ymd (clock w (List.length (trace s)))
  end.

(* the answer to the next GET after [s] *)
Definition next_answer (s : state) : http_result :=
  api_get w (count is_get (trace s)).

Definition is_status (code : Z) (h : http_result) : bool :=
  match h with Resp r => status_code r =? code | Fails => false end.

(* what a fetch returns for an answer that is neither 401 nor 429: the JSON
   body, or None where a RequestException was raised *)
Definition answer_value (h : http_result) : option Py.value :=
  match h with
  | Fails => None
  | Resp r =>
      match FitbitAPI.raise_for_status r with
      | inl _ => None
      | inr _ => body r
      end
  end.


Definition started (ep : string) (date : option string) (dl : option string)
           (s : state) : list event :=
  [ ELog INFO ("Making request to: " ++ ep);
    EGet (FitbitAPI.url_of (self s) ep (date_of date s) dl) (access_token (self s)) ].

Definition add (s : state) (evs : list event) : state :=
  mk_state (self s) (trace s ++ evs).

Ltac run :=
  unfold bind, try_except_request, get_self, ret, lift, log, emit, throw,
    FitbitAPI.http_get, add, started, next_answer in *; simpl.


(* the fetch ends on an answer that is neither 401 nor 429 *)
Definition ended (ep : string) (h : http_result) (s : state) : Py.result Py.value * state :=
  match answer_value h with
  | Some v => (inr v, s)
  | None => (inr Py.PNone, add s [ELog ERROR ("Error fetching " ++ ep)])
  end.

Lemma fetch_plain fuel ep date dl s :
  is_status 401 (next_answer s) = false ->
  is_status 429 (next_answer s) = false ->
  FitbitAPI.make_request w (S fuel) ep date dl s
  = ended ep (next_answer s) (add s (started ep date dl s)).
Proof.
  intros H1 H9. cbn [FitbitAPI.make_request]. unfold ended, answer_value. run.
  destruct date; simpl.
  all: rewrite ?count_snoc; simpl; rewrite ?Nat.add_0_r.
  all: destruct (api_get w (count is_get (trace s))) as [r|]; simpl in *;
    [rewrite H1, H9; simpl|rewrite <- !app_assoc; reflexivity].
  all: destruct (FitbitAPI.raise_for_status r) as [e|[]] eqn:Hr; simpl.
  all: try (unfold FitbitAPI.raise_for_status in Hr;
            destruct ((400 <=? status_code r) && (status_code r <? 600))%bool;
            inversion Hr; subst; simpl; rewrite <- !app_assoc; reflexivity).
  all: unfold FitbitAPI.json; destruct (body r); simpl;
    rewrite <- !app_assoc; reflexivity.
Qed.

(* the state in which a fetch started in [s] calls the refresh *)
Definition expired (ep : string) (date dl : option string) (s : state) : state :=
  add s (started ep date dl s ++ [ELog INFO "Access token expired, refreshing..."]).

Definition retried (ep : string) (date dl : option string) (s s2 : state) : state :=
  add s2 [EGet (FitbitAPI.url_of (self s) ep (date_of date s) dl) (access_token (self s2))].

Lemma fetch_401_refresh_failed fuel ep date dl s s2 :
  is_status 401 (next_answer s) = true ->
  FitbitAPI.refresh_access_token w (expired ep date dl s) = (inr false, s2) ->
  FitbitAPI.make_request w (S fuel) ep date dl s
  = (inr Py.PNone, add s2 [ELog ERROR "Failed to refresh token"]).
Proof.
  intros H1 Hr. cbn [FitbitAPI.make_request]. unfold expired in Hr. run.
  destruct date; simpl in *.
  all: rewrite ?count_snoc; simpl; rewrite ?Nat.add_0_r.
  all: destruct (api_get w (count is_get (trace s))) as [r|]; simpl in *;
    [rewrite H1; simpl|discriminate].
  all: rewrite <- !app_assoc in *; simpl in *; rewrite Hr; reflexivity.
Qed.

Lemma fetch_401_retry fuel ep date dl s s2 :
  is_status 401 (next_answer s) = true ->
  FitbitAPI.refresh_access_token w (expired ep date dl s) = (inr true, s2) ->
  is_status 429 (next_answer s2) = false ->
  FitbitAPI.make_request w (S fuel) ep date dl s
  = ended ep (next_answer s2) (retried ep date dl s s2).
Proof.
  intros H1 Hr H9. cbn [FitbitAPI.make_request].
  unfold expired, retried, ended, answer_value in *. run.
  destruct date; simpl in *.
  all: rewrite ?count_snoc; simpl; rewrite ?Nat.add_0_r.
  all: destruct (api_get w (count is_get (trace s))) as [r|]; simpl in *;
    [rewrite H1; simpl|discriminate].
  all: rewrite <- !app_assoc in *; simpl in *; rewrite Hr; simpl.
  all: destruct (api_get w (count is_get (trace s2))) as [r2|]; simpl in *;
    [rewrite H9; simpl|rewrite <- ?app_assoc; reflexivity].
  all: destruct (FitbitAPI.raise_for_status r2) as [e|[]] eqn:Hrs; simpl.
  all: try (unfold FitbitAPI.raise_for_status in Hrs;
            destruct ((400 <=? status_code r2) && (status_code r2 <? 600))%bool;
            inversion Hrs; subst; simpl; rewrite <- ?app_assoc; reflexivity).
  all: unfold FitbitAPI.json; destruct (body r2); simpl;
    rewrite <- ?app_assoc; reflexivity.
Qed.


(** *** a wait that cannot be read or slept *)

Lemma fetch_wait_unread fuel ep date dl s r e :
  next_answer s = Resp r -> status_code r = 429 ->
  FitbitAPI.retry_after_of r = inl e ->
  FitbitAPI.make_request w (S fuel) ep date dl s
  = (inl Py.ValueError, add s (started ep date dl s)).
Proof.
  intros Ha Hs Hd. pose proof (retry_after_raises _ Hd) as ->.
  cbn [FitbitAPI.make_request]. run.
  destruct date; simpl.
  all: rewrite ?count_snoc; simpl; rewrite ?Nat.add_0_r.
  all: rewrite Ha; simpl; rewrite Hs; simpl; rewrite Hd; simpl.
  all: rewrite <- ?app_assoc; reflexivity.
Qed.

Lemma refused_wait_escapes d : refused_wait d <> Py.RequestException.
Proof. unfold refused_wait. destruct (_ || _)%bool; discriminate. Qed.

Lemma fetch_wait_refused fuel ep date dl s r d :
  next_answer s = Resp r -> status_code r = 429 ->
  FitbitAPI.retry_after_of r = inr d -> ~ 0 <= d <= max_sleep ->
  FitbitAPI.make_request w (S fuel) ep date dl s
  = (inl (refused_wait d),
     add s (started ep date dl s ++ [ELog WARNING "Rate limited, waiting"])).
Proof.
  intros Ha Hs Hd Hno. pose proof (refused_wait_escapes d) as Hne.
  cbn [FitbitAPI.make_request]. run.
  destruct date; simpl.
  all: rewrite ?count_snoc; simpl; rewrite ?Nat.add_0_r.
  all: rewrite Ha; simpl; rewrite Hs; simpl; rewrite Hd; simpl.
  all: rewrite (sleep_refused _ Hno); simpl.
  all: rewrite <- ?app_assoc; simpl.
  all: destruct (refused_wait d); try reflexivity; congruence.
Qed.

(** *** repeated rate limiting *)



End Fetch.

(** ** Loops that append at most one Point per record *)

Section Loop.

Variable body : Py.value -> M (list Point) unit.
Variable selected : Py.value -> bool.
Variable emitted_for : Py.value -> Point -> Prop.

(* one iteration: a record that is not selected is skipped or raises; a
   selected record appends its Point or raises; a raise appends nothing *)
Definition iteration : Prop :=
  forall r points,
    (exists e, body r points = (inl e, points)) \/
    (selected r = false /\ body r points = (inr tt, points)) \/
    (selected r = true /\
     exists p, emitted_for r p /\ body r points = (inr tt, points ++ [p])).

Hypothesis Hbody : iteration.

(* the Points of a loop are those of a prefix of the selected records *)
Lemma loop_prefix rs : forall points,
  exists res new k,
    for_each rs body points = (res, points ++ new) /\
    Forall2 emitted_for (firstn k (filter selected rs)) new.
Proof.
  induction rs as [|r rs IH]; intros points.
  - exists (inr tt), [], 0%nat. simpl. rewrite app_nil_r. split; [reflexivity|constructor].
  - simpl. unfold bind.
    destruct (Hbody r points) as [[e He]|[[Hs He]|[Hs (p & Hp & He)]]]; rewrite He.
    + exists (inl e), [], 0%nat. rewrite app_nil_r. split; [reflexivity|constructor].
    + destruct (IH points) as (res & new & k & Hr & Hf).
      exists res, new, k. rewrite Hs. auto.
    + destruct (IH (points ++ [p])) as (res & new & k & Hr & Hf).
      exists res, (p :: new), (S k). rewrite Hs, Hr, <- app_assoc. simpl.
      split; [reflexivity|constructor; assumption].
Qed.

(* when no record raises, every selected record gets its Point *)
Lemma loop_all rs : forall points,
  (forall r, In r rs -> forall pts e, body r pts <> (inl e, pts)) ->
  exists new,
    for_each rs body points = (inr tt, points ++ new) /\
    Forall2 emitted_for (filter selected rs) new.
Proof.
  induction rs as [|r rs IH]; intros points Hok.
  - exists []. simpl. rewrite app_nil_r. split; [reflexivity|constructor].
  - simpl. unfold bind.
    destruct (Hbody r points) as [[e He]|[[Hs He]|[Hs (p & Hp & He)]]].
    + exfalso. exact (Hok r (or_introl eq_refl) points e He).
    + rewrite He. destruct (IH points) as (new & Hr & Hf).
      { intros r' Hin. apply Hok. now right. }
      exists new. rewrite Hs. auto.
    + rewrite He. destruct (IH (points ++ [p])) as (new & Hr & Hf).
      { intros r' Hin. apply Hok. now right. }
      exists (p :: new). rewrite Hs, Hr, <- app_assoc. simpl.
      split; [reflexivity|constructor; assumption].
Qed.

End Loop.

(** ** The records a loop reaches *)

(* the records before the first one that stops the loop *)
Fixpoint before_first {A} (stop : A -> bool) (rs : list A) : list A :=
  match rs with
  | [] => []
  | r :: rest => if stop r then [] else r :: before_first stop rest
  end.

Definition failed {A} (res : Py.result A) : bool :=
  match res with inl _ => true | inr _ => false end.

Section UntilRaise.

Variable body : Py.value -> M (list Point) unit.

(* the body raises on the record *)
Definition raises_on (r : Py.value) : bool := failed (fst (body r [])).

(* the Points the body appends for the record *)
Definition appended (r : Py.value) : list Point := snd (body r []).

(* the body only appends to the list it is given, and what it does with a
   record does not depend on that list *)
Definition append_only : Prop :=
  forall r points, body r points = (fst (body r []), points ++ appended r).

(* a record on which the body raises leaves no Point *)
Definition bare_raise : Prop :=
  forall r, raises_on r = true -> appended r = [].

Hypothesis Happ : append_only.
Hypothesis Hbare : bare_raise.

(* the loop stops at the first record on which the body raises, and keeps
   what the records before it appended *)
Lemma loop_until_raise rs : forall points,
  exists res,
    for_each rs body points
    = (res, points ++ flat_map appended (before_first raises_on rs)) /\
    failed res = existsb raises_on rs.
Proof.
  induction rs as [|r rs IH]; intros points.
  - exists (inr tt). cbn. now rewrite app_nil_r.
  - cbn [for_each before_first existsb]. unfold bind. rewrite (Happ r points).
    destruct (raises_on r) eqn:Hr.
    + rewrite (Hbare _ Hr). unfold raises_on in Hr.
      destruct (fst (body r [])) as [e|u]; [|discriminate].
      exists (inl e). cbn. now rewrite !app_nil_r.
    + unfold raises_on in Hr. destruct (fst (body r [])) as [e|u]; [discriminate|].
      destruct (IH (points ++ appended r)) as (res & Hrun & Hres).
      exists res. rewrite Hrun. cbn [flat_map orb]. rewrite app_assoc. auto.
Qed.

Variable selected : Py.value -> bool.
Variable emitted_for : Py.value -> Point -> Prop.

Hypothesis Hbody : iteration body selected emitted_for.

Lemma appended_emitted r :
  raises_on r = false ->
  Forall2 emitted_for (if selected r then [r] else []) (appended r).
Proof.
  unfold raises_on, appended.
  destruct (Hbody r []) as [[e He]|[[Hs He]|[Hs (p & Hp & He)]]]; rewrite He, ?Hs;
    cbn [fst snd failed app]; intros H; try discriminate; repeat constructor.
  exact Hp.
Qed.

(* the Points of the records the loop reaches *)
Lemma reached_emitted rs :
  Forall2 emitted_for (filter selected (before_first raises_on rs))
          (flat_map appended (before_first raises_on rs)).
Proof.
  induction rs as [|r rs IH]; [constructor|].
  cbn [before_first]. destruct (raises_on r) eqn:Hr; [constructor|].
  cbn [filter flat_map]. pose proof (appended_emitted _ Hr) as H.
  destruct (selected r).
  - inversion H as [|? p ? l Hp Hn]; subst. inversion Hn; subst. cbn. now constructor.
  - inversion H. exact IH.
Qed.

(* a record whose iteration does not raise, whatever the list *)
Lemma never_raises r :
  (forall pts e, body r pts <> (inl e, pts)) -> raises_on r = false.
Proof.
  intros H. unfold raises_on.
  destruct (Hbody r []) as [[e He]|[[Hs He]|[Hs (p & Hp & He)]]].
  - destruct (H [] e He).
  - now rewrite He.
  - now rewrite He.
Qed.

End UntilRaise.

(* when no record stops the loop it reaches them all *)
Lemma before_first_all A (stop : A -> bool) rs :
  existsb stop rs = false -> before_first stop rs = rs.
Proof.
  induction rs as [|r rs IH]; [reflexivity|]. cbn. destruct (stop r); [discriminate|].
  intros H. now rewrite (IH H).
Qed.

Lemma before_first_ext A (f g : A -> bool) rs :
  (forall r, f r = g r) -> before_first f rs = before_first g rs.
Proof.
  intros H. induction rs as [|r rs IH]; [reflexivity|]. cbn. now rewrite (H r), IH.
Qed.

Lemma existsb_ext A (f g : A -> bool) rs :
  (forall r, f r = g r) -> existsb f rs = existsb g rs.
Proof.
  intros H. induction rs as [|r rs IH]; [reflexivity|]. cbn. now rewrite (H r), IH.
Qed.

Lemma existsb_none A (f : A -> bool) rs :
  (forall r, In r rs -> f r = false) -> existsb f rs = false.
Proof.
  induction rs as [|r rs IH]; intros H; [reflexivity|]. cbn.
  rewrite (H r (or_introl eq_refl)). apply IH. intros x Hx. apply H. now right.
Qed.

Ltac append_only_tac :=
  cbv beta iota;
  repeat match goal with
         | |- context [match ?x with _ => _ end] =>
             match type of x with
             | prod _ _ => fail 1
             | _ => destruct x; cbv beta iota
             end
         end;
  cbn [fst snd]; rewrite ?app_nil_r; reflexivity.

Ltac bare_raise_tac :=
  cbv beta iota;
  repeat match goal with
         | |- context [match ?x with _ => _ end] =>
             match type of x with
             | prod _ _ => fail 1
             | _ => destruct x; cbv beta iota
             end
         end;
  cbn [fst snd failed]; intros H; solve [reflexivity | discriminate H].

Lemma sleep_append_only cfg m : append_only (FitbitDataProcessor.sleep_body cfg m).
Proof.
  intros r points. unfold appended, FitbitDataProcessor.sleep_body, bind, lift, ret, append.
  append_only_tac.
Qed.

Lemma generic_append_only m : append_only (FitbitDataProcessor.generic_body m).
Proof.
  intros r points. unfold appended, FitbitDataProcessor.generic_body, bind, lift, ret, append.
  append_only_tac.
Qed.

Lemma spo2_append_only m : append_only (FitbitDataProcessor.spo2_body m).
Proof.
  intros r points. unfold appended, FitbitDataProcessor.spo2_body, bind, lift, ret, append.
  append_only_tac.
Qed.

Lemma hrv_append_only cfg m : append_only (FitbitDataProcessor.hrv_body cfg m).
Proof.
  intros r points. unfold appended, FitbitDataProcessor.hrv_body, bind, lift, ret, append.
  append_only_tac.
Qed.

Lemma intraday_append_only cfg metric m date :
  append_only (FitbitDataProcessor.intraday_body cfg metric m date).
Proof.
  intros r points. unfold appended, FitbitDataProcessor.intraday_body, bind, lift, ret, append.
  append_only_tac.
Qed.

Lemma sleep_bare_raise cfg m : bare_raise (FitbitDataProcessor.sleep_body cfg m).
Proof.
  intros r. unfold raises_on, appended, FitbitDataProcessor.sleep_body, bind, lift,
    ret, append.
  bare_raise_tac.
Qed.

Lemma generic_bare_raise m : bare_raise (FitbitDataProcessor.generic_body m).
Proof.
  intros r. unfold raises_on, appended, FitbitDataProcessor.generic_body, bind, lift,
    ret, append.
  bare_raise_tac.
Qed.

Lemma spo2_bare_raise m : bare_raise (FitbitDataProcessor.spo2_body m).
Proof.
  intros r. unfold raises_on, appended, FitbitDataProcessor.spo2_body, bind, lift,
    ret, append.
  bare_raise_tac.
Qed.

Lemma hrv_bare_raise cfg m : bare_raise (FitbitDataProcessor.hrv_body cfg m).
Proof.
  intros r. unfold raises_on, appended, FitbitDataProcessor.hrv_body, bind, lift,
    ret, append.
  bare_raise_tac.
Qed.

Lemma intraday_bare_raise cfg metric m date :
  bare_raise (FitbitDataProcessor.intraday_body cfg metric m date).
Proof.
  intros r. unfold raises_on, appended, FitbitDataProcessor.intraday_body, bind,
    lift, ret, append.
  bare_raise_tac.
Qed.

(** ** Sleep sessions *)

Section Sleep.

Variable cfg : Config.
Variable measurement : string.

Import Py.

(* isMainSleep is true (truthy) or absent *)
Definition main_sleep (r : value) : bool :=
  match r with
  | PDict items =>
      match lookup "isMainSleep" items with
      | Some v => truthy v
      | None => true
      end
  | _ => false
  end.

(* the session's own date *)
Definition date_at (k : string) (items : list (string * value))
  : result Datetime.datetime :=
  match lookup k items with
  | Some d => Datetime.strptime_date d
  | None => raise KeyError
  end.

Definition or_zero (k : string) (items : list (string * value)) : value :=
  match lookup k items with Some v => v | None => PInt 0 end.

(* the Point of a session: four fields, 0 for a missing one, the session's
   date, the enabled health tags *)
Definition sleep_point (items : list (string * value)) (t : Datetime.datetime) : Point :=
  FitbitDataProcessor.health_tags cfg
    (mk_Point measurement
       [ ("efficiency", or_zero "efficiency" items);
         ("minutes_asleep", or_zero "minutesAsleep" items);
         ("minutes_awake", or_zero "minutesAwake" items);
         ("time_in_bed", or_zero "timeInBed" items) ]
       [] (Some t)).

Definition sleep_emitted (r : value) (p : Point) : Prop :=
  exists items t,
    r = PDict items /\ date_at "dateOfSleep" items = inr t /\ p = sleep_point items t.

Lemma sleep_body_session items points :
  FitbitDataProcessor.sleep_body cfg measurement (PDict items) points
  = if main_sleep (PDict items) then
      match date_at "dateOfSleep" items with
      | inr t => (inr tt, points ++ [sleep_point items t])
      | inl e => (inl e, points)
      end
    else (inr tt, points).
Proof.
  unfold FitbitDataProcessor.sleep_body, bind, lift, ret, append, main_sleep,
    date_at, sleep_point, or_zero. simpl.
  destruct (lookup "isMainSleep" items) as [v|]; simpl.
  - destruct (truthy v); [|reflexivity].
    destruct (lookup "dateOfSleep" items) as [d|]; simpl; [|reflexivity].
    destruct (Datetime.strptime_date d); reflexivity.
  - destruct (lookup "dateOfSleep" items) as [d|]; simpl; [|reflexivity].
    destruct (Datetime.strptime_date d); reflexivity.
Qed.

Lemma sleep_body_not_a_session r points :
  (forall items, r <> PDict items) ->
  FitbitDataProcessor.sleep_body cfg measurement r points = (inl AttributeError, points).
Proof.
  intros H. destruct r; try reflexivity. now destruct (H items).
Qed.

Lemma sleep_iteration :
  iteration (FitbitDataProcessor.sleep_body cfg measurement) main_sleep sleep_emitted.
Proof.
  intros r points.
  destruct r as [| | | | | |items];
    try (left; exists AttributeError; reflexivity).
  rewrite sleep_body_session.
  destruct (main_sleep (PDict items)) eqn:Hm; [|right; left; auto].
  destruct (date_at "dateOfSleep" items) as [e|t] eqn:Hd.
  - left. now exists e.
  - right. right. split; [reflexivity|].
    exists (sleep_point items t). split; [|reflexivity].
    now exists items, t.
Qed.

End Sleep.

(** ** The generic rule *)

Section Generic.

Variable cfg : Config.
Variable measurement : string.

Import Py.

Definition has_key (k : string) (items : list (string * value)) : bool :=
  match lookup k items with Some _ => true | None => false end.

(* the record holds both a date key and a value key *)
Definition dated_value (r : value) : bool :=
  match r with
  | PDict items => (has_key "dateTime" items && has_key "value" items)%bool
  | _ => false
  end.

Definition generic_emitted (r : value) (p : Point) : Prop :=
  exists items t v,
    r = PDict items /\ date_at "dateTime" items = inr t /\
    lookup "value" items = Some v /\
    p = mk_Point measurement [("value", v)] [] (Some t).

Lemma generic_body_record items points :
  FitbitDataProcessor.generic_body measurement (PDict items) points
  = if dated_value (PDict items) then
      match date_at "dateTime" items, lookup "value" items with
      | inr t, Some v => (inr tt, points ++ [mk_Point measurement [("value", v)] [] (Some t)])
      | inl e, _ => (inl e, points)
      | inr _, None => (inl KeyError, points)
      end
    else (inr tt, points).
Proof.
  unfold FitbitDataProcessor.generic_body, bind, lift, ret, append, dated_value,
    has_key, date_at. simpl.
  destruct (lookup "dateTime" items) as [d|]; simpl; [|reflexivity].
  destruct (lookup "value" items) as [v|]; simpl; [|reflexivity].
  destruct (Datetime.strptime_date d); reflexivity.
Qed.

Lemma generic_iteration :
  iteration (FitbitDataProcessor.generic_body measurement) dated_value generic_emitted.
Proof.
  intros r points.
  destruct r as [| |z|q|s|l|items].
  1-4: left; exists TypeError; reflexivity.
  - (* a str record: membership is the substring test, subscripting fails *)
    unfold FitbitDataProcessor.generic_body, bind, lift, ret. simpl.
    destruct (substr_in "dateTime" s); simpl.
    + destruct (substr_in "value" s); simpl.
      * left. exists TypeError. reflexivity.
      * right. left. auto.
    + right. left. auto.
  - unfold FitbitDataProcessor.generic_body, bind, lift, ret. simpl.
    destruct (existsb (is_str "dateTime") l); simpl.
    + destruct (existsb (is_str "value") l); simpl.
      * left. exists TypeError. reflexivity.
      * right. left. auto.
    + right. left. auto.
  - rewrite generic_body_record.
    destruct (dated_value (PDict items)) eqn:Hm; [|right; left; auto].
    destruct (date_at "dateTime" items) as [e|t] eqn:Hd.
    + left. now exists e.
    + destruct (lookup "value" items) as [v|] eqn:Hv.
      * right. right. split; [reflexivity|].
        eexists. split; [|reflexivity]. now exists items, t, v.
      * left. now exists KeyError.
Qed.

(* a metric name that no specialized rule matches *)
Definition unspecialized (metric : string) : Prop :=
  metric <> "activities/heart" /\ metric <> "sleep" /\ metric <> "hrv" /\ metric <> "spo2".

Lemma daily_rules_generic metric t data :
  unspecialized metric ->
  FitbitDataProcessor.daily_rules cfg metric measurement t data
  = FitbitDataProcessor.generic_rule metric measurement data.
Proof.
  intros (H1 & H2 & H3 & H4). unfold FitbitDataProcessor.daily_rules.
  apply String.eqb_neq in H1, H2, H3, H4. now rewrite H1, H2, H3, H4.
Qed.

End Generic.

(** ** A rule that loops over the list under a key of the payload *)

Lemma has_list d k l :
  Py.lookup k d = Some (Py.PList l) ->
  FitbitDataProcessor.has (Py.PDict d) k
  = inr (match l with [] => false | _ => true end).
Proof.
  intros H. unfold FitbitDataProcessor.has. simpl. rewrite H. simpl. rewrite ?H.
  now destruct l.
Qed.

Lemma sleep_rule_sessions cfg measurement d sessions :
  Py.lookup "sleep" d = Some (Py.PList sessions) ->
  FitbitDataProcessor.sleep_rule cfg measurement (Py.PDict d) []
  = for_each sessions (FitbitDataProcessor.sleep_body cfg measurement) [].
Proof.
  intros H. unfold FitbitDataProcessor.sleep_rule, bind, lift.
  rewrite (has_list _ _ H). simpl. rewrite H.
  destruct sessions; reflexivity.
Qed.

Lemma generic_rule_records metric measurement d records :
  Py.lookup (Py.last_segment "/" metric) d = Some (Py.PList records) ->
  FitbitDataProcessor.generic_rule metric measurement (Py.PDict d) []
  = for_each records (FitbitDataProcessor.generic_body measurement) [].
Proof.
  intros H. unfold FitbitDataProcessor.generic_rule, bind, lift.
  rewrite (has_list _ _ H). simpl. rewrite H.
  destruct records; reflexivity.
Qed.

(** ** process_daily_summary and process_intraday_data after the fetch *)

(* what the try statement of process_daily_summary leaves: the points
   appended before an error, and the error *)
Lemma normalize_daily_run cfg metric date t data s :
  Datetime.strptime_ymd date = inr t ->
  FitbitDataProcessor.normalize_daily cfg metric date data s
  = if negb (Py.truthy data) then (inr [], s)
    else
      match FitbitDataProcessor.daily_rules cfg metric (Py.replace_char "/" "_" metric) t data []
      with
      | (inr _, points) => (inr points, s)
      | (inl _, points) =>
          (inr points,
           mk_state (self s) (trace s ++ [ELog ERROR ("Error processing " ++ metric)]))
      end.
Proof.
  intros Ht. unfold FitbitDataProcessor.normalize_daily.
  destruct (negb (Py.truthy data)); [reflexivity|].
  unfold bind, lift. rewrite Ht.
  destruct (FitbitDataProcessor.daily_rules cfg metric _ t data []) as [[e|u] points];
    reflexivity.
Qed.

Lemma normalize_intraday_returns cfg metric date data s :
  exists points logged,
    FitbitDataProcessor.normalize_intraday cfg metric date data s
    = (inr points, mk_state (self s) (trace s ++ logged)).
Proof.
  unfold FitbitDataProcessor.normalize_intraday.
  destruct (negb (Py.truthy data)).
  { exists [], []. unfold ret. rewrite app_nil_r. now destruct s. }
  destruct (FitbitDataProcessor.find_dataset data) as [e|[dataset|]].
  - eexists. eexists. reflexivity.
  - destruct (Py.len dataset) as [e|n].
    + eexists. eexists. reflexivity.
    + unfold bind, log, emit. simpl.
      match goal with |- context [match ?x with _ => _ end] =>
        destruct x as [[e|u] points] end.
      * eexists. eexists. simpl. rewrite <- app_assoc. reflexivity.
      * eexists. eexists. reflexivity.
  - eexists. eexists. reflexivity.
Qed.

Lemma add_nil s : add s [] = s.
Proof. destruct s. unfold add. simpl. now rewrite app_nil_r. Qed.

Lemma lookup_truthy k d v : Py.lookup k d = Some v -> Py.truthy (Py.PDict d) = true.
Proof. destruct d; [discriminate|reflexivity]. Qed.

(** ** The records on which a rule raises *)

(* a session that stops the sleep rule: one that is not an object, or a main
   session whose dateOfSleep is missing or does not parse *)
Definition sleep_raises (r : Py.value) : bool :=
  match r with
  | Py.PDict items => (main_sleep r && failed (date_at "dateOfSleep" items))%bool
  | _ => true
  end.

(* a record that stops the generic rule: an object with both keys whose
   dateTime does not parse; a string or a list in which both names are found,
   which cannot be subscripted by a name; any other value, in which no name
   can be looked for *)
Definition generic_raises (r : Py.value) : bool :=
  match r with
  | Py.PDict items => (dated_value r && failed (date_at "dateTime" items))%bool
  | Py.PStr s => (Py.substr_in "dateTime" s && Py.substr_in "value" s)%bool
  | Py.PList l => (existsb (Py.is_str "dateTime") l && existsb (Py.is_str "value") l)%bool
  | _ => true
  end.

Lemma sleep_raises_on cfg m r :
  raises_on (FitbitDataProcessor.sleep_body cfg m) r = sleep_raises r.
Proof.
  unfold raises_on. destruct r as [| | | | | |items]; try reflexivity.
  rewrite sleep_body_session. unfold sleep_raises.
  destruct (main_sleep (Py.PDict items)); [|reflexivity].
  now destruct (date_at "dateOfSleep" items).
Qed.

Lemma generic_raises_on m r :
  raises_on (FitbitDataProcessor.generic_body m) r = generic_raises r.
Proof.
  unfold raises_on. destruct r as [| | | |s|l|items]; try reflexivity.
  - unfold FitbitDataProcessor.generic_body, bind, lift, ret. cbn.
    destruct (Py.substr_in "dateTime" s); cbn; [|reflexivity].
    now destruct (Py.substr_in "value" s).
  - unfold FitbitDataProcessor.generic_body, bind, lift, ret. cbn.
    destruct (existsb (Py.is_str "dateTime") l); cbn; [|reflexivity].
    now destruct (existsb (Py.is_str "value") l).
  - rewrite generic_body_record. unfold generic_raises.
    destruct (dated_value (Py.PDict items)) eqn:Hd; [|reflexivity].
    destruct (date_at "dateTime" items); [reflexivity|].
    unfold dated_value, has_key in Hd.
    destruct (Py.lookup "value" items); [reflexivity|].
    now rewrite andb_false_r in Hd.
Qed.

(** ** The rules of process_daily_summary that loop over records *)

(* the key the rule of a metric reads its records under, and the body of its
   loop; every metric but the heart rate has such a rule *)
Definition daily_key (metric : string) : string :=
  if String.eqb metric "sleep" then "sleep"
  else if String.eqb metric "hrv" then "hrv"
  else if String.eqb metric "spo2" then "spo2"
  else Py.last_segment "/" metric.

Definition daily_body (cfg : Config) (metric measurement : string)
  : Py.value -> M (list Point) unit :=
  if String.eqb metric "sleep" then FitbitDataProcessor.sleep_body cfg measurement
  else if String.eqb metric "hrv" then FitbitDataProcessor.hrv_body cfg measurement
  else if String.eqb metric "spo2" then FitbitDataProcessor.spo2_body measurement
  else FitbitDataProcessor.generic_body measurement.

Lemma daily_body_append_only cfg metric m : append_only (daily_body cfg metric m).
Proof.
  unfold daily_body.
  destruct (String.eqb metric "sleep"); [apply sleep_append_only|].
  destruct (String.eqb metric "hrv"); [apply hrv_append_only|].
  destruct (String.eqb metric "spo2"); [apply spo2_append_only|apply generic_append_only].
Qed.

Lemma daily_body_bare_raise cfg metric m : bare_raise (daily_body cfg metric m).
Proof.
  unfold daily_body.
  destruct (String.eqb metric "sleep"); [apply sleep_bare_raise|].
  destruct (String.eqb metric "hrv"); [apply hrv_bare_raise|].
  destruct (String.eqb metric "spo2"); [apply spo2_bare_raise|apply generic_bare_raise].
Qed.

Lemma daily_rules_loop cfg metric m t d records :
  metric <> "activities/heart"%string ->
  Py.lookup (daily_key metric) d = Some (Py.PList records) ->
  FitbitDataProcessor.daily_rules cfg metric m t (Py.PDict d) []
  = for_each records (daily_body cfg metric m) [].
Proof.
  intros Hh Hl. apply String.eqb_neq in Hh.
  unfold FitbitDataProcessor.daily_rules, daily_key, daily_body in *. rewrite Hh.
  destruct (String.eqb metric "sleep").
  { unfold FitbitDataProcessor.sleep_rule, bind, lift.
    rewrite (has_list _ _ Hl). cbn [Py.getitem Py.iter Py.ok]. rewrite Hl.
    destruct records; reflexivity. }
  destruct (String.eqb metric "hrv").
  { unfold FitbitDataProcessor.hrv_rule, bind, lift.
    rewrite (has_list _ _ Hl). cbn [Py.getitem Py.iter Py.ok]. rewrite Hl.
    destruct records; reflexivity. }
  destruct (String.eqb metric "spo2").
  { unfold FitbitDataProcessor.spo2_rule, bind, lift.
    rewrite (has_list _ _ Hl). cbn [Py.getitem Py.iter Py.ok]. rewrite Hl.
    destruct records; reflexivity. }
  unfold FitbitDataProcessor.generic_rule, bind, lift. cbv zeta.
  rewrite (has_list _ _ Hl). cbn [Py.getitem Py.iter Py.ok]. rewrite Hl.
  destruct records; reflexivity.
Qed.

(* what the try statement makes of a loop: the Points of the records before
   the first one that raises, and the error logged when there is one *)
Lemma normalize_daily_loop cfg metric date t d records s :
  Datetime.strptime_ymd date = inr t ->
  metric <> "activities/heart"%string ->
  Py.lookup (daily_key metric) d = Some (Py.PList records) ->
  let body := daily_body cfg metric (Py.replace_char "/" "_" metric) in
  FitbitDataProcessor.normalize_daily cfg metric date (Py.PDict d) s
  = (inr (flat_map (appended body) (before_first (raises_on body) records)),
     if existsb (raises_on body) records
     then add s [ELog ERROR ("Error processing " ++ metric)]
     else s).
Proof.
  intros Ht Hh Hl body.
  rewrite (normalize_daily_run cfg metric date (Py.PDict d) s Ht).
  rewrite (lookup_truthy _ _ Hl). cbn [negb].
  rewrite (daily_rules_loop cfg _ t d Hh Hl). fold body.
  destruct (loop_until_raise
              (daily_body_append_only cfg metric (Py.replace_char "/" "_" metric))
              (daily_body_bare_raise cfg metric (Py.replace_char "/" "_" metric)) records [])
    as (res & Hrun & Hres).
  fold body in Hrun, Hres. rewrite Hrun. cbn [app]. rewrite <- Hres.
  destruct res; reflexivity.
Qed.

Lemma daily_generic cfg metric m :
  unspecialized metric ->
  daily_key metric = Py.last_segment "/" metric /\
  daily_body cfg metric m = FitbitDataProcessor.generic_body m.
Proof.
  intros (_ & H2 & H3 & H4). unfold daily_key, daily_body.
  apply String.eqb_neq in H2, H3, H4. now rewrite H2, H3, H4.
Qed.

(* the heart-rate rule appends its one Point last: when it raises it leaves
   nothing *)
Lemma heart_rule_bare cfg m t data :
  failed (fst (FitbitDataProcessor.heart_rule cfg m t data [])) = true ->
  snd (FitbitDataProcessor.heart_rule cfg m t data []) = [].
Proof.
  unfold FitbitDataProcessor.heart_rule, bind, lift, ret, append.
  bare_raise_tac.
Qed.

(** ** The loop of process_intraday_data *)

(* the key the dataset is looked under: the first key of the payload whose
   lower-case form contains "intraday" *)
Lemma find_dataset_found d k inner dataset :
  FitbitDataProcessor.find_intraday_key (map fst d) = Some k ->
  Py.lookup k d = Some inner ->
  Py.getitem inner "dataset" = inr dataset ->
  Py.contains inner "dataset" = inr true ->
  FitbitDataProcessor.find_dataset (Py.PDict d) = inr (Some dataset).
Proof.
  intros Hk Hl Hd Hc. unfold FitbitDataProcessor.find_dataset. simpl.
  rewrite Hk. simpl. rewrite Hl. simpl. rewrite Hc. simpl. rewrite Hd. reflexivity.
Qed.

Lemma normalize_intraday_loop cfg metric date d k inner entries s :
  FitbitDataProcessor.find_intraday_key (map fst d) = Some k ->
  Py.lookup k d = Some (Py.PDict inner) ->
  Py.lookup "dataset" inner = Some (Py.PList entries) ->
  let body := FitbitDataProcessor.intraday_body cfg metric
                (Py.replace_char "/" "_" metric ++ "_intraday") date in
  FitbitDataProcessor.normalize_intraday cfg metric date (Py.PDict d) s
  = (inr (flat_map (appended body) (before_first (raises_on body) entries)),
     add s (ELog INFO ("Processing intraday points for " ++ metric)
            :: if existsb (raises_on body) entries
               then [ELog ERROR ("Error processing intraday " ++ metric)]
               else [])).
Proof.
  intros Hk Hl Hd body.
  unfold FitbitDataProcessor.normalize_intraday.
  rewrite (lookup_truthy _ _ Hl). cbn [negb].
  rewrite (@find_dataset_found d k (Py.PDict inner) (Py.PList entries) Hk Hl).
  2:{ simpl. now rewrite Hd. }
  2:{ simpl. now rewrite Hd. }
  cbn [Py.len Py.iter]. fold body.
  unfold bind, log, emit, lift, ret, Py.ok, add. cbn beta iota.
  destruct (loop_until_raise
              (intraday_append_only cfg metric
                 (Py.replace_char "/" "_" metric ++ "_intraday") date)
              (intraday_bare_raise cfg metric
                 (Py.replace_char "/" "_" metric ++ "_intraday") date) entries [])
    as (res & Hrun & Hres).
  fold body in Hrun, Hres. rewrite Hrun. cbn [app]. rewrite <- Hres.
  destruct res; cbn [self trace failed]; rewrite <- ?app_assoc; reflexivity.
Qed.

(* an error met before the loop leaves an empty result *)
Lemma normalize_intraday_no_dataset cfg metric date data s e :
  Py.truthy data = true ->
  FitbitDataProcessor.find_dataset data = inl e ->
  FitbitDataProcessor.normalize_intraday cfg metric date data s
  = (inr [], add s [ELog ERROR ("Error processing intraday " ++ metric)]).
Proof.
  intros Ht He. unfold FitbitDataProcessor.normalize_intraday.
  rewrite Ht, He. reflexivity.
Qed.

(** ** Health tags *)

Lemma health_tags_fold hc : forall p,
  let q := fold_left (fun (p : Point) (ce : string * bool) =>
                        if snd ce then tag (fst ce) "true" p else p) hc p in
  measurement q = measurement p /\ fields q = fields p /\ time q = time p /\
  tags q = tags p ++ map (fun ce => (fst ce, "true")) (filter snd hc).
Proof.
  induction hc as [|[c b] hc IH]; intros p; simpl.
  - now rewrite app_nil_r.
  - destruct (IH (if b then tag c "true" p else p)) as (Hm & Hf & Ht & Hg).
    simpl in *. rewrite Hm, Hf, Ht, Hg. destruct b; simpl; auto.
    now rewrite <- app_assoc.
Qed.

Lemma health_tags_fields cfg p :
  fields (FitbitDataProcessor.health_tags cfg p) = fields p.
Proof. apply (health_tags_fold (HEALTH_CONDITIONS cfg) p). Qed.

Lemma health_tags_tags cfg p :
  tags (FitbitDataProcessor.health_tags cfg p)
  = tags p ++ map (fun ce => (fst ce, "true")) (filter snd (HEALTH_CONDITIONS cfg)).
Proof. apply (health_tags_fold (HEALTH_CONDITIONS cfg) p). Qed.

(** ** HRV records *)

Section Hrv.

Variable cfg : Config.
Variable measurement : string.

Import Py.

(* the hf the rule works with: 1 when the key is absent *)
Definition hf_of (block : list (string * value)) : value :=
  match lookup "hf" block with Some v => v | None => PInt 1 end.

Definition hrv_point (block : list (string * value)) (ratio : value)
           (t : Datetime.datetime) : Point :=
  FitbitDataProcessor.health_tags cfg
    (mk_Point measurement
       [ ("daily_rmssd", or_zero "dailyRmssd" block);
         ("deep_rmssd", or_zero "deepRmssd" block);
         ("lf", or_zero "lf" block);
         ("hf", hf_of block);
         ("lf_hf_ratio", ratio) ]
       [] (Some t)).

(* a record with a non-empty value block and a date that parses *)
Lemma hrv_body_record items block t points :
  lookup "value" items = Some (PDict block) -> block <> [] ->
  date_at "dateTime" items = inr t ->
  FitbitDataProcessor.hrv_body cfg measurement (PDict items) points
  = if ne0 (hf_of block) then
      match truediv (or_zero "lf" block) (hf_of block) with
      | inr ratio => (inr tt, points ++ [hrv_point block ratio t])
      | inl e => (inl e, points)
      end
    else (inr tt, points ++ [hrv_point block (PInt 0) t]).
Proof.
  intros Hv Hne Hd. unfold date_at in Hd.
  unfold FitbitDataProcessor.hrv_body, FitbitDataProcessor.has, bind, lift, ret,
    append, hrv_point, hf_of, or_zero. simpl.
  assert (Htr : match block with [] => false | _ :: _ => true end = true)
    by (destruct block; congruence).
  rewrite Hv. simpl. rewrite ?Hv. simpl. rewrite Htr. simpl.
  destruct (lookup "dateTime" items) as [d|]; [|discriminate]. simpl.
  rewrite Hd. simpl.
  set (hf := match lookup "hf" block with Some v => v | None => PInt 1 end).
  destruct (ne0 hf); simpl; [|reflexivity].
  destruct (truediv _ hf); reflexivity.
Qed.

(* the exceptions of the operations of the loop bodies *)
Lemma contains_raises v k e : contains v k = inl e -> e = TypeError.
Proof. destruct v; simpl; intros H; inversion H; reflexivity. Qed.

Lemma getitem_raises v k e : getitem v k = inl e -> e = TypeError \/ e = KeyError.
Proof.
  destruct v; simpl; intros H; try (inversion H; auto; fail).
  destruct (lookup k items); inversion H; auto.
Qed.

Lemma get_raises v k x e : get v k x = inl e -> e = AttributeError.
Proof. destruct v; simpl; intros H; inversion H; reflexivity. Qed.

Lemma strptime_date_raises v e :
  Datetime.strptime_date v = inl e -> e = TypeError \/ e = ValueError.
Proof.
  destruct v; simpl; intros H; try (inversion H; auto; fail).
  unfold Datetime.strptime_ymd, Datetime.checked in H.
  destruct (Datetime.match_ymd s) as [[[[y m] d] [|c r]]|];
    try (inversion H; auto; fail).
  destruct (Datetime.valid _); inversion H; auto.
Qed.

(* the guard: a division is attempted only by a divisor different from 0 *)
Lemma guarded_division lf hf :
  ne0 hf = true -> truediv lf hf <> inl ZeroDivisionError.
Proof.
  unfold ne0, truediv. destruct (as_num lf) as [x|]; destruct (as_num hf) as [y|];
    try discriminate.
  intros H. apply negb_true_iff in H. rewrite H.
  destruct (is_float lf || is_float hf)%bool.
  - destruct (_ || _)%bool; discriminate.
  - destruct (too_large (x / y)); discriminate.
Qed.

Lemma hrv_body_never_divides_by_zero r points :
  fst (FitbitDataProcessor.hrv_body cfg measurement r points) <> inl ZeroDivisionError.
Proof.
  unfold FitbitDataProcessor.hrv_body, FitbitDataProcessor.has, bind, lift, ret, append.
  destruct (contains r "value") as [e|c] eqn:Hc; simpl.
  { apply contains_raises in Hc. subst. discriminate. }
  destruct c; simpl; [|discriminate].
  destruct (getitem r "value") as [e|val] eqn:Hv; simpl.
  { apply getitem_raises in Hv. destruct Hv; subst; discriminate. }
  destruct (truthy val); simpl; [|discriminate].
  destruct (getitem r "dateTime") as [e|d] eqn:Hd; simpl.
  { apply getitem_raises in Hd. destruct Hd; subst; discriminate. }
  destruct (Datetime.strptime_date d) as [e|t] eqn:Ht; simpl.
  { apply strptime_date_raises in Ht. destruct Ht; subst; discriminate. }
  destruct (get val "lf" (PInt 0)) as [e|lf] eqn:Hlf; simpl.
  { apply get_raises in Hlf. subst. discriminate. }
  destruct (get val "hf" (PInt 1)) as [e|hf] eqn:Hhf; simpl.
  { apply get_raises in Hhf. subst. discriminate. }
  destruct (ne0 hf) eqn:Hn; simpl.
  - destruct (truediv lf hf) as [e|ratio] eqn:Hdiv; simpl.
    { intros H. inversion H. subst. now apply (guarded_division lf hf Hn). }
    destruct (get val "dailyRmssd" (PInt 0)) as [e|x] eqn:H1; simpl.
    { apply get_raises in H1. subst. discriminate. }
    destruct (get val "deepRmssd" (PInt 0)) as [e|y] eqn:H2; simpl.
    { apply get_raises in H2. subst. discriminate. }
    discriminate.
  - destruct (get val "dailyRmssd" (PInt 0)) as [e|x] eqn:H1; simpl.
    { apply get_raises in H1. subst. discriminate. }
    destruct (get val "deepRmssd" (PInt 0)) as [e|y] eqn:H2; simpl.
    { apply get_raises in H2. subst. discriminate. }
    discriminate.
Qed.

End Hrv.

(** ** The PEM risk score *)

Section PemRisk.

Import Py.

(* the additive rule of the specification: three fixed weights, the sum
   capped at 100; [rmssd] is None when no HRV record has a value block *)
Definition additive_rule (resting_hr steps : Q) (rmssd : option Q) : Q :=
  let score :=
    ((if Qlt_bool 100 resting_hr then 30 else 0) +
     (if Qlt_bool 5000 steps then 25 else 0) +
     (match rmssd with
      | Some d => if Qlt_bool d 20 then 45 else 0
      | None => 0
      end))%Q in
  if Qlt_bool 100 score then 100%Q else score.

(* the payload's first record holds a value block whose resting heart rate,
   0 when the key is missing, is [q] *)
Definition resting_hr_in (hr_data : value) (q : Q) : Prop :=
  exists d first rest block,
    hr_data = PDict d /\
    lookup "activities-heart" d = Some (PList (PDict first :: rest)) /\
    lookup "value" first = Some (PDict block) /\
    as_num (or_zero "restingHeartRate" block) = Some q.

(* the payload's first record holds the step count [q], 0 when missing *)
Definition steps_in (steps_data : value) (q : Q) : Prop :=
  exists d first rest,
    steps_data = PDict d /\
    lookup "activities-steps" d = Some (PList (PDict first :: rest)) /\
    as_num (or_zero "value" first) = Some q.

(* a record without a value block, or with an empty one *)
Definition no_value_block (items : list (string * value)) : Prop :=
  match lookup "value" items with
  | Some v => truthy v = false
  | None => True
  end.

(* the daily RMSSD of the first record that has a value block *)
Inductive first_rmssd : list value -> option Q -> Prop :=
| first_rmssd_none : first_rmssd [] None
| first_rmssd_skip items rest x :
    no_value_block items -> first_rmssd rest x ->
    first_rmssd (PDict items :: rest) x
| first_rmssd_found items block rest q :
    lookup "value" items = Some (PDict block) -> block <> [] ->
    as_num (or_zero "dailyRmssd" block) = Some q ->
    first_rmssd (PDict items :: rest) (Some q).

Definition rmssd_in (hrv_data : value) (x : option Q) : Prop :=
  exists d records,
    hrv_data = PDict d /\
    lookup "hrv" d = Some (PList records) /\
    first_rmssd records x.

Lemma heart_block_reads hr_data q risk :
  resting_hr_in hr_data q ->
  FitbitDataProcessor.heart_block hr_data risk
  = inr (if Qlt_bool 100 q then (risk + 30)%Q else risk).
Proof.
  intros (d & first & rest & block & -> & Hl & Hv & Hq).
  unfold FitbitDataProcessor.heart_block, FitbitDataProcessor.present.
  assert (Ht : truthy (PDict d) = true) by (destruct d; [discriminate|reflexivity]).
  rewrite Ht, (has_list _ _ Hl). simpl. rewrite Hl. simpl. rewrite Hv. simpl.
  unfold gt. unfold or_zero in Hq. rewrite Hq. reflexivity.
Qed.

Lemma steps_block_reads steps_data q risk :
  steps_in steps_data q ->
  FitbitDataProcessor.steps_block steps_data risk
  = inr (if Qlt_bool 5000 q then (risk + 25)%Q else risk).
Proof.
  intros (d & first & rest & -> & Hl & Hq).
  unfold FitbitDataProcessor.steps_block, FitbitDataProcessor.present.
  assert (Ht : truthy (PDict d) = true) by (destruct d; [discriminate|reflexivity]).
  rewrite Ht, (has_list _ _ Hl). simpl. rewrite Hl. simpl.
  unfold gt. unfold or_zero in Hq. rewrite Hq. reflexivity.
Qed.

Lemma hrv_scan_reads records x risk :
  first_rmssd records x ->
  FitbitDataProcessor.hrv_scan records risk
  = inr (match x with
         | Some q => if Qlt_bool q 20 then (risk + 45)%Q else risk
         | None => risk
         end).
Proof.
  induction 1 as [|items rest x Hn _ IH|items block rest q Hv Hne Hq].
  - reflexivity.
  - simpl. unfold FitbitDataProcessor.has. simpl. unfold no_value_block in Hn.
    destruct (lookup "value" items) as [v|]; simpl.
    + rewrite Hn. simpl. exact IH.
    + exact IH.
  - simpl. unfold FitbitDataProcessor.has. simpl. rewrite Hv. simpl.
    assert (Htr : match block with [] => false | _ :: _ => true end = true)
      by (destruct block; congruence).
    rewrite Htr. simpl. unfold lt. unfold or_zero in Hq. rewrite Hq. reflexivity.
Qed.

Lemma hrv_block_reads hrv_data x risk :
  rmssd_in hrv_data x ->
  FitbitDataProcessor.hrv_block hrv_data risk
  = inr (match x with
         | Some q => if Qlt_bool q 20 then (risk + 45)%Q else risk
         | None => risk
         end).
Proof.
  intros (d & records & -> & Hl & Hf).
  unfold FitbitDataProcessor.hrv_block, FitbitDataProcessor.present.
  assert (Ht : truthy (PDict d) = true) by (destruct d; [discriminate|reflexivity]).
  rewrite Ht, (has_list _ _ Hl).
  destruct records as [|r records].
  - inversion Hf. reflexivity.
  - unfold rbind at 1. cbn [getitem]. rewrite Hl. unfold rbind, ok, iter.
    now apply hrv_scan_reads.
Qed.

(* the three blocks in sequence compute the additive rule *)
Lemma blocks_add q1 q2 x :
  FitbitDataProcessor.cap
    (match x with
     | Some q => if Qlt_bool q 20
                 then ((if Qlt_bool 5000 q2
                        then ((if Qlt_bool 100 q1 then 0 + 30 else 0) + 25)
                        else (if Qlt_bool 100 q1 then 0 + 30 else 0)) + 45)%Q
                 else (if Qlt_bool 5000 q2
                       then ((if Qlt_bool 100 q1 then 0 + 30 else 0) + 25)
                       else (if Qlt_bool 100 q1 then 0 + 30 else 0))%Q
     | None => (if Qlt_bool 5000 q2
                then ((if Qlt_bool 100 q1 then 0 + 30 else 0) + 25)
                else (if Qlt_bool 100 q1 then 0 + 30 else 0))%Q
     end)
  = PFloat (additive_rule q1 q2 x).
Proof.
  unfold additive_rule.
  destruct x as [q|]; [destruct (Qlt_bool q 20)|];
    destruct (Qlt_bool 5000 q2); destruct (Qlt_bool 100 q1); reflexivity.
Qed.

Variable w : World.
Variable fuel : nat.

Lemma pem_risk_try_rule date s hr_data steps_data hrv_data s1 s2 s3 q1 q2 x :
  FitbitAPI.make_request w fuel "activities/heart" (Some date) None s = (inr hr_data, s1) ->
  FitbitAPI.make_request w fuel "activities/steps" (Some date) None s1 = (inr steps_data, s2) ->
  FitbitAPI.make_request w fuel "hrv" (Some date) None s2 = (inr hrv_data, s3) ->
  resting_hr_in hr_data q1 -> steps_in steps_data q2 -> rmssd_in hrv_data x ->
  FitbitDataProcessor.pem_risk_try w fuel date s
  = (inr (PFloat (additive_rule q1 q2 x)), s3).
Proof.
  intros F1 F2 F3 H1 H2 H3.
  unfold FitbitDataProcessor.pem_risk_try, bind, lift, ret.
  rewrite F1, (heart_block_reads _ H1), F2, (steps_block_reads _ H2), F3,
    (hrv_block_reads _ H3).
  rewrite <- blocks_add. reflexivity.
Qed.

(* calculate_pem_risk returns what its try body returns, and 0.0 where the
   body raises *)
Lemma calculate_pem_risk_run date s :
  FitbitDataProcessor.calculate_pem_risk w fuel date s
  = match FitbitDataProcessor.pem_risk_try w fuel date s with
    | (inr v, s') => (inr v, s')
    | (inl _, s') =>
        (inr (PFloat 0),
         mk_state (self s') (trace s' ++ [ELog ERROR "Error calculating PEM risk"]))
    end.
Proof.
  unfold FitbitDataProcessor.calculate_pem_risk, try_except.
  destruct (FitbitDataProcessor.pem_risk_try w fuel date s) as [[e|v] s']; reflexivity.
Qed.

End PemRisk.

(** ** What reaches the sink *)

(* the writes of a run, in order *)
Definition writes (s : state) : list event := filter is_write (trace s).

(* a computation that writes nothing to the sink *)
Definition quiet {A} (m : M state A) : Prop :=
  forall s, writes (snd (m s)) = writes s.

Lemma quiet_ret A (a : A) : quiet (ret a).
Proof. intros s. reflexivity. Qed.

Lemma quiet_throw A e : quiet (@throw state A e).
Proof. intros s. reflexivity. Qed.

Lemma quiet_lift A (r : Py.result A) : quiet (lift r).
Proof. intros s. reflexivity. Qed.

Lemma quiet_bind A B (m : M state A) (k : A -> M state B) :
  quiet m -> (forall a, quiet (k a)) -> quiet (bind m k).
Proof.
  intros Hm Hk s. unfold bind. specialize (Hm s).
  destruct (m s) as [[e|a] s1]; simpl in *; [assumption|].
  now rewrite Hk.
Qed.

Lemma quiet_try_except A (m : M state A) h :
  quiet m -> (forall e, quiet (h e)) -> quiet (try_except m h).
Proof.
  intros Hm Hh s. unfold try_except. specialize (Hm s).
  destruct (m s) as [[e|a] s1]; simpl in *; [|assumption].
  now rewrite Hh.
Qed.

Lemma quiet_try_except_request A (m h : M state A) :
  quiet m -> quiet h -> quiet (try_except_request m h).
Proof.
  intros Hm Hh s. unfold try_except_request. specialize (Hm s).
  destruct (m s) as [[e|a] s1]; simpl in *; [|assumption].
  destruct e; simpl; try assumption. now rewrite Hh.
Qed.

Lemma quiet_emit e : is_write e = false -> quiet (emit e).
Proof.
  intros He s. unfold writes, emit. simpl. rewrite filter_app. simpl.
  rewrite He. apply app_nil_r.
Qed.

Lemma quiet_log l msg : quiet (log l msg).
Proof. now apply quiet_emit. Qed.

Lemma quiet_sleep d : quiet (sleep d).
Proof.
  unfold sleep. destruct (_ || _)%bool; [apply quiet_throw|].
  destruct (Qle_bool 0 d); [now apply quiet_emit|apply quiet_throw].
Qed.

Lemma quiet_state A (f : state -> A) : quiet (fun s => (inr (f s), s)).
Proof. intros s. reflexivity. Qed.

Lemma quiet_set_access_token v : quiet (set_access_token v).
Proof. intros s. reflexivity. Qed.

Lemma quiet_set_refresh_token v : quiet (set_refresh_token v).
Proof. intros s. reflexivity. Qed.

Lemma quiet_http_get w url b : quiet (FitbitAPI.http_get w url b).
Proof.
  intros s. unfold FitbitAPI.http_get. simpl.
  destruct (api_get w _); simpl; unfold writes; simpl; rewrite filter_app; simpl;
    apply app_nil_r.
Qed.

Lemma quiet_http_post w a b : quiet (FitbitAPI.http_post w a b).
Proof.
  intros s. unfold FitbitAPI.http_post. simpl.
  destruct (token_post w _); simpl; unfold writes; simpl; rewrite filter_app; simpl;
    apply app_nil_r.
Qed.

Ltac quiet_step :=
  first
    [ apply quiet_ret | apply quiet_throw | apply quiet_lift | apply quiet_log
    | apply quiet_sleep | apply quiet_set_access_token | apply quiet_set_refresh_token
    | apply quiet_http_get | apply quiet_http_post
    | apply (@quiet_state Client self)
    | apply quiet_emit; reflexivity
    | apply quiet_bind; [|intros ?]
    | apply quiet_try_except; [|intros ?]
    | apply quiet_try_except_request
    | match goal with
      | |- quiet (if ?b then _ else _) => destruct b
      | |- quiet (match ?x with _ => _ end) => destruct x
      end ].

Ltac quiet_auto := repeat quiet_step.

Lemma quiet_refresh w : quiet (FitbitAPI.refresh_access_token w).
Proof. unfold FitbitAPI.refresh_access_token. quiet_auto. Qed.

Lemma quiet_make_request w fuel : forall ep date dl,
  quiet (FitbitAPI.make_request w fuel ep date dl).
Proof.
  induction fuel as [|fuel IH]; intros ep date dl; cbn [FitbitAPI.make_request].
  - apply quiet_throw.
  - apply quiet_bind; [apply (@quiet_state Client self)|intros c].
    apply quiet_bind.
    { destruct date; [apply quiet_ret|].
      apply (@quiet_state string
               (fun s => Datetime.strftime_ymd (clock w (List.length (trace s))))). }
    intros d.
    apply quiet_try_except_request; [|quiet_auto].
    apply quiet_bind; [apply quiet_log|intros _].
    apply quiet_bind; [apply quiet_http_get|intros r].
    assert (Hfin : forall response : Response,
      quiet (if status_code response =? 429
             then
               bind (lift (FitbitAPI.retry_after_of response)) (fun retry_after =>
               bind (log WARNING "Rate limited, waiting") (fun _ =>
               bind (sleep (inject_Z retry_after)) (fun _ =>
               FitbitAPI.make_request w fuel ep (Some d) dl)))
             else
               bind (lift (FitbitAPI.raise_for_status response)) (fun _ =>
               lift (FitbitAPI.json response)))).
    { intros response. destruct (status_code response =? 429).
      - repeat (apply quiet_bind; [quiet_auto|intros ?]). apply IH.
      - quiet_auto. }
    destruct (status_code r =? 401); [|apply Hfin].
    apply quiet_bind; [apply quiet_log|intros _].
    apply quiet_bind; [apply quiet_refresh|intros b].
    destruct b; [|quiet_auto].
    apply quiet_bind; [apply (@quiet_state Client self)|intros c'].
    apply quiet_bind; [apply quiet_http_get|intros r2].
    apply Hfin.
Qed.

Lemma quiet_normalize_daily cfg metric date data :
  quiet (FitbitDataProcessor.normalize_daily cfg metric date data).
Proof. unfold FitbitDataProcessor.normalize_daily. quiet_auto. Qed.

Lemma quiet_normalize_intraday cfg metric date data :
  quiet (FitbitDataProcessor.normalize_intraday cfg metric date data).
Proof. unfold FitbitDataProcessor.normalize_intraday. quiet_auto. Qed.

Lemma quiet_process_daily_summary w cfg fuel metric date :
  quiet (FitbitDataProcessor.process_daily_summary w cfg fuel metric date).
Proof.
  apply quiet_bind; [apply quiet_make_request|intros data].
  apply quiet_normalize_daily.
Qed.

Lemma quiet_process_intraday_data w cfg fuel metric date dl :
  quiet (FitbitDataProcessor.process_intraday_data w cfg fuel metric date dl).
Proof.
  apply quiet_bind; [apply quiet_make_request|intros data].
  apply quiet_normalize_intraday.
Qed.

Lemma quiet_calculate_pem_risk w fuel date :
  quiet (FitbitDataProcessor.calculate_pem_risk w fuel date).
Proof.
  unfold FitbitDataProcessor.calculate_pem_risk, FitbitDataProcessor.pem_risk_try.
  apply quiet_try_except; [|intros e; quiet_auto].
  repeat (apply quiet_bind; [first [apply quiet_make_request|apply quiet_lift]|intros ?]).
  apply quiet_ret.
Qed.

Lemma quiet_extend_each process metrics : forall all_points,
  (forall metric, quiet (process metric)) ->
  quiet (extend_each process metrics all_points).
Proof.
  induction metrics as [|m metrics IH]; intros all_points Hp; simpl.
  - apply quiet_ret.
  - apply quiet_bind; [apply Hp|intros points].
    apply quiet_bind; [apply quiet_sleep|intros _]. now apply IH.
Qed.

Lemma quiet_collect w cfg fuel today : quiet (collect w cfg fuel today).
Proof.
  unfold collect.
  apply quiet_bind; [apply quiet_log|intros _].
  apply quiet_bind.
  { apply quiet_extend_each. intros m. apply quiet_process_daily_summary. }
  intros p1.
  apply quiet_bind; [apply quiet_log|intros _].
  apply quiet_bind.
  { apply quiet_extend_each. intros m. apply quiet_process_intraday_data. }
  intros p2.
  destruct (pem_enabled cfg); [|apply quiet_ret].
  apply quiet_bind; [apply quiet_log|intros _].
  apply quiet_bind; [apply quiet_calculate_pem_risk|intros r].
  apply quiet_bind; [apply (@quiet_state _ (fun s => clock w (List.length (trace s))))|intros t].
  quiet_auto.
Qed.

Lemma quiet_summary w cfg fuel today : quiet (summary w cfg fuel today).
Proof.
  unfold summary.
  repeat (apply quiet_bind; [first [apply quiet_log|apply quiet_emit; reflexivity]|intros _]).
  destruct (pem_enabled cfg); [|apply quiet_ret].
  apply quiet_bind; [apply quiet_calculate_pem_risk|intros r].
  quiet_auto.
Qed.

(** ** The run *)

Section Run.

Variable w : World.
Variable cfg : Config.
Variable env : environ.
Variable fuel : nat.

(* what the sink logs after a write *)
Definition write_logged (points : list Point) : event :=
  match influx_write w points with
  | None => ELog INFO "Wrote points to InfluxDB"
  | Some _ => ELog ERROR "Error writing to InfluxDB"
  end.

(* write_points on a non-empty batch: one write, one log line, no exception *)
Lemma write_points_run points s :
  points <> [] ->
  InfluxDBWriter.write_points w cfg points s
  = (inr tt, add s [EWrite (INFLUX_BUCKET cfg) points; write_logged points]).
Proof.
  intros Hne. destruct points as [|p points]; [congruence|].
  unfold InfluxDBWriter.write_points, InfluxDBWriter.write_api_write, try_except,
    bind, emit, log, add, write_logged. simpl.
  destruct (influx_write w (p :: points)); unfold emit; simpl;
    rewrite <- app_assoc; reflexivity.
Qed.

Lemma write_points_empty s :
  InfluxDBWriter.write_points w cfg [] s = (inr tt, s).
Proof. reflexivity. Qed.

(* after the write the run goes on with the summary, whatever the sink did *)
Lemma deliver_run today points s :
  points <> [] ->
  deliver w cfg fuel today points s
  = summary w cfg fuel today
      (add s [EWrite (INFLUX_BUCKET cfg) points; write_logged points]).
Proof.
  intros Hne. unfold deliver. destruct points as [|p points]; [congruence|].
  unfold bind at 1. now rewrite write_points_run.
Qed.

Definition written (points : list Point) : list event :=
  match points with
  | [] => []
  | _ :: _ => [EWrite (INFLUX_BUCKET cfg) points]
  end.

Lemma deliver_writes today points s :
  writes (snd (deliver w cfg fuel today points s)) = writes s ++ written points.
Proof.
  destruct points as [|p points].
  - simpl. rewrite app_nil_r.
    assert (H : quiet (deliver w cfg fuel today [])) by (unfold deliver; quiet_auto).
    apply H.
  - rewrite deliver_run by discriminate.
    rewrite (quiet_summary w cfg fuel today). unfold writes, add. simpl.
    rewrite filter_app. simpl. unfold write_logged.
    destruct (influx_write w (p :: points)); reflexivity.
Qed.

Lemma quiet_on_error e : quiet (on_error e).
Proof. unfold on_error. quiet_auto. Qed.

Lemma quiet_close : quiet (try_except (InfluxDBWriter.close w) (fun _ => ret tt)).
Proof. unfold InfluxDBWriter.close. quiet_auto. Qed.

Lemma quiet_startup : quiet (FitbitAPI.init ;; InfluxDBWriter.init w cfg).
Proof. unfold FitbitAPI.init, InfluxDBWriter.init. quiet_auto. Qed.

Lemma quiet_today : quiet (today_is w).
Proof.
  unfold today_is. apply quiet_bind; [|intros; apply quiet_ret].
  apply (@quiet_state _ (fun s => clock w (List.length (trace s)))).
Qed.

(* the handlers of main return *)
Lemma on_error_returns e s : exists s', on_error e s = (inr tt, s').
Proof. eexists. reflexivity. Qed.

Lemma close_returns s :
  exists s', try_except (InfluxDBWriter.close w) (fun _ => ret tt) s = (inr tt, s').
Proof.
  unfold InfluxDBWriter.close, try_except, bind, emit, ret, throw. simpl.
  destruct (influx_close w); eexists; reflexivity.
Qed.

(* the state main's work starts from, once the configuration is accepted *)
Definition started_run (s : state) : state :=
  add s [ELog INFO "Starting Enhanced Fitbit data sync..."].

Definition startup : M state unit := FitbitAPI.init ;; InfluxDBWriter.init w cfg.

(* the try body of main after the constructors *)
Definition pipeline : M state unit :=
  today <- today_is w ;;
  all_points <- collect w cfg fuel today ;;
  deliver w cfg fuel today all_points.

(* a run that passes the validation ends with the completion line *)
Lemma main_completes s :
  missing_vars env = [] ->
  exists s', main w cfg env fuel s
             = (inr tt, add s' [ELog INFO "Fitbit data sync completed"]).
Proof.
  intros Hm. unfold main. rewrite Hm. unfold bind at 1. unfold log at 1, emit at 1.
  cbn beta iota.
  destruct ((FitbitAPI.init ;; InfluxDBWriter.init w cfg) _) as [[e|u] s1].
  - unfold bind, completed, log, emit. simpl. eexists (mk_state _ _). reflexivity.
  - unfold bind at 1.
    match goal with |- context [try_except ?b on_error s1] =>
      destruct (try_except b on_error s1) as [[e|u'] s2] eqn:Ht end.
    + exfalso. unfold try_except in Ht.
      match type of Ht with context [match ?x with _ => _ end] =>
        destruct x as [[e'|v'] s3] end; [|discriminate].
      destruct (on_error_returns e' s3) as [s4 H4]. rewrite H4 in Ht. discriminate.
    + unfold bind at 1. destruct (close_returns s2) as [s3 H3]. rewrite H3.
      unfold completed, log, emit. destruct u'. exists s3. reflexivity.
Qed.

(* what follows a computation writes nothing: the writes are its own *)
Lemma writes_then_quiet A B (m : M state A) (k : A -> M state B) s :
  (forall a, quiet (k a)) ->
  writes (snd (bind m k s)) = writes (snd (m s)).
Proof.
  intros Hk. unfold bind. destruct (m s) as [[e|a] s1]; simpl; [reflexivity|apply Hk].
Qed.

Lemma writes_try_quiet A (m : M state A) h s :
  (forall e, quiet (h e)) ->
  writes (snd (try_except m h s)) = writes (snd (m s)).
Proof.
  intros Hh. unfold try_except. destruct (m s) as [[e|a] s1]; simpl; [apply Hh|reflexivity].
Qed.

(* the writes of the pipeline are those of its delivery *)
Lemma pipeline_writes s :
  exists ws, writes (snd (pipeline s)) = writes s ++ ws /\ (List.length ws <= 1)%nat /\
    forall today points s2,
      today_is w s = (inr today, s) ->
      collect w cfg fuel today s = (inr points, s2) ->
      ws = written points.
Proof.
  unfold pipeline. unfold bind at 1.
  assert (Ht : today_is w s = (inr (Datetime.strftime_ymd (clock w (List.length (trace s)))), s))
    by reflexivity.
  rewrite Ht. set (today := Datetime.strftime_ymd _) in *.
  unfold bind at 1.
  pose proof (quiet_collect w cfg fuel today s) as Hc.
  destruct (collect w cfg fuel today s) as [[e|points] s2] eqn:Ec; simpl in Hc.
  - exists []. rewrite app_nil_r. simpl. repeat split; [congruence|lia|].
    intros today' points' s2' H1 H2. inversion H1; subst. rewrite Ec in H2. discriminate.
  - exists (written points). rewrite deliver_writes, Hc. repeat split.
    + destruct points; simpl; lia.
    + intros today' points' s2' H1 H2. inversion H1; subst.
      rewrite Ec in H2. now inversion H2.
Qed.

(* main from the state after its first log line, the configuration accepted *)
Lemma main_unfold s :
  missing_vars env = [] ->
  main w cfg env fuel s
  = match startup (started_run s) with
    | (inl e, s1) => (on_error e ;; completed) s1
    | (inr _, s1) =>
        (try_except pipeline on_error ;;
         try_except (InfluxDBWriter.close w) (fun _ => ret tt) ;; completed) s1
    end.
Proof. intros Hm. unfold main. rewrite Hm. reflexivity. Qed.

Lemma quiet_finally :
  quiet (try_except (InfluxDBWriter.close w) (fun _ => ret tt) ;; completed).
Proof. unfold InfluxDBWriter.close, completed. quiet_auto. Qed.

Lemma started_run_writes s : writes (started_run s) = writes s.
Proof. unfold writes, started_run, add. simpl. rewrite filter_app. apply app_nil_r. Qed.

(* no run writes to the sink twice; a run whose fetch phase returns a batch
   writes that batch, once, when it is not empty *)
Lemma main_writes s :
  exists ws, writes (snd (main w cfg env fuel s)) = writes s ++ ws /\
             (List.length ws <= 1)%nat /\
    forall s1 today points s2,
      missing_vars env = [] ->
      startup (started_run s) = (inr tt, s1) ->
      today_is w s1 = (inr today, s1) ->
      collect w cfg fuel today s1 = (inr points, s2) ->
      ws = written points.
Proof.
  destruct (missing_vars env) as [|v vs] eqn:Hm.
  2:{ exists []. rewrite app_nil_r. repeat split; [|simpl; lia|discriminate].
      unfold main. rewrite Hm.
      assert (Hq : quiet (log INFO "Starting Enhanced Fitbit data sync..." ;;
                          log ERROR "Missing required environment variables" ;;
                          log ERROR "Please check your .env file or environment variable configuration"))
        by quiet_auto.
      apply Hq. }
  rewrite (main_unfold s Hm).
  pose proof (quiet_startup (started_run s)) as Hs. fold startup in Hs.
  rewrite started_run_writes in Hs.
  destruct (startup (started_run s)) as [[e|u] s1]; simpl in Hs.
  - exists []. rewrite app_nil_r. repeat split; [|simpl; lia|discriminate].
    assert (Hq : quiet (on_error e ;; completed)) by (unfold on_error, completed; quiet_auto).
    rewrite Hq. exact Hs.
  - destruct (pipeline_writes s1) as (ws & Hw & Hl & Hws).
    exists ws. repeat split; [|exact Hl|].
    + rewrite writes_then_quiet by (intros; apply quiet_finally).
      rewrite writes_try_quiet by (intros; apply quiet_on_error).
      rewrite Hw, Hs. reflexivity.
    + intros s1' today points s2 _ H1 H2 H3. inversion H1; subst. eauto.
Qed.

End Run.

(** * The claims of the specification *)

(** ** Scripted worlds for the concrete runs *)

Definition sample_env : environ :=
  [ ("FITBIT_CLIENT_ID", "id"); ("FITBIT_CLIENT_SECRET", "secret");
    ("FITBIT_ACCESS_TOKEN", "A1"); ("FITBIT_REFRESH_TOKEN", "R1");
    ("INFLUX_TOKEN", "token") ].

Definition sample_cfg : Config := load_config sample_env.

(* the n-th answer of a script, a connection failure once it is exhausted *)
Definition answers (script : list http_result) : nat -> http_result :=
  fun n => nth n script Fails.

Definition scripted (gets posts : list http_result) : World :=
  mk_World (answers gets) (answers posts) None (fun _ => None) None
           (fun _ => Datetime.mk_datetime 2024 1 15 10 0 0).

Definition ok_json (v : Py.value) : http_result := Resp (mk_Response 200 [] (Some v)).

Definition status_only (code : Z) : http_result := Resp (mk_Response code [] None).

Definition too_many_requests (retry_after : string) : http_result :=
  Resp (mk_Response 429 [("Retry-After", retry_after)] None).

Definition new_tokens (a r : string) : http_result :=
  ok_json (Py.PDict [("access_token", Py.PStr a); ("refresh_token", Py.PStr r)]).

Definition sample_data : Py.value := Py.PDict [("sleep", Py.PList [])].

Definition sample_state : state := initial sample_cfg.

(** ** C1: the 401 path *)

(** C1, as amended.  A fetch whose first answer is 401 calls the refresh once
    (one POST, after one GET).  When the refresh fails the fetch returns None
    without another request.  When it succeeds the request is sent once more
    with the new access token; if the answer to that request is not a 429 the
    fetch ends there, having made two GETs and one POST, and the client holds
    the access and refresh tokens of the token endpoint's answer. *)
Theorem C1_unauthorized_refresh_and_retry w fuel ep date dl s :
  is_status 401 (next_answer w s) = true ->
  exists refreshed s2,
    FitbitAPI.refresh_access_token w (expired w ep date dl s) = (inr refreshed, s2) /\
    count is_get (trace s2) = S (count is_get (trace s)) /\
    count is_post (trace s2) = S (count is_post (trace s)) /\
    (refreshed = false ->
     FitbitAPI.make_request w (S fuel) ep date dl s
     = (inr Py.PNone, add s2 [ELog ERROR "Failed to refresh token"])) /\
    (refreshed = true -> is_status 429 (next_answer w s2) = false ->
     exists result s',
       FitbitAPI.make_request w (S fuel) ep date dl s = (result, s') /\
       (result, s') = ended ep (next_answer w s2) (retried w ep date dl s s2) /\
       count is_get (trace s') = (count is_get (trace s) + 2)%nat /\
       count is_post (trace s') = (count is_post (trace s) + 1)%nat /\
       exists r token_data,
         token_answer w (expired w ep date dl s) = Resp r /\
         body r = Some token_data /\
         Py.getitem token_data "access_token" = inr (access_token (self s')) /\
         Py.getitem token_data "refresh_token" = inr (refresh_token (self s'))).
Proof.
  intros H1.
  destruct (refresh_shape w (expired w ep date dl s))
    as (b & c & l & Hr & (lv & msg & ->) & _ & _ & _ & Htok).
  set (s2 := {| self := c; trace := _ |}) in *.
  assert (Hg : count is_get (trace s2) = S (count is_get (trace s))).
  { unfold s2, posted, expired, add, started. simpl.
    rewrite !count_app. unfold count at 2 3 4. simpl. lia. }
  assert (Hp : count is_post (trace s2) = S (count is_post (trace s))).
  { unfold s2, posted, expired, add, started. simpl.
    rewrite !count_app. unfold count at 2 3 4. simpl. lia. }
  exists b, s2. repeat split; try assumption.
  - intros ->. now apply fetch_401_refresh_failed.
  - intros -> H9.
    rewrite (fetch_401_retry w fuel ep date dl s H1 Hr H9).
    destruct (ended ep (next_answer w s2) (retried w ep date dl s s2))
      as [result s'] eqn:He.
    exists result, s'. split; [reflexivity|]. split; [reflexivity|].
    assert (Hs' : self s' = c /\
                  count is_get (trace s') = S (count is_get (trace s2)) /\
                  count is_post (trace s') = count is_post (trace s2)).
    { unfold ended in He.
      destruct (answer_value (next_answer w s2)); inversion He; subst; simpl;
        rewrite ?count_app; unfold count at 2 4; simpl; repeat split; try lia.
      all: unfold count; simpl; lia. }
    destruct Hs' as (Hc & Hg' & Hp').
    repeat split; try lia.
    destruct (Htok eq_refl) as (r & td & Ha & _ & Hb & Hat & Hrt).
    exists r, td. rewrite Hc. auto.
Qed.

Definition C1_world : World :=
  scripted [status_only 401; ok_json sample_data] [new_tokens "A2" "R2"].

Lemma C1_unauthorized_refresh_and_retry_witness :
  is_status 401 (next_answer C1_world sample_state) = true /\
  exists refreshed s2,
    FitbitAPI.refresh_access_token C1_world
      (expired C1_world "sleep" (Some "2024-01-15") None sample_state)
    = (inr refreshed, s2) /\
    count is_post (trace s2) = 1%nat.
Proof.
  split; [reflexivity|].
  destruct (C1_unauthorized_refresh_and_retry C1_world 0 "sleep" (Some "2024-01-15")
              None sample_state eq_refl)
    as (refreshed & s2 & Hr & _ & Hp & _).
  exists refreshed, s2. split; [exact Hr|exact Hp].
Defined.

Definition C1_counter_world : World :=
  scripted [status_only 401; too_many_requests "1"; status_only 401; ok_json sample_data]
           [new_tokens "A2" "R2"; new_tokens "A3" "R3"].

(** C1, the claim as stated fails: the first answer is a 401 and the refresh
    succeeds, but the retried request is answered 429, so the fetch waits and
    starts over; here it makes four requests and two refresh calls. *)
Lemma C1_counterexample :
  let run := FitbitAPI.make_request C1_counter_world 2 "sleep" (Some "2024-01-15") None
               sample_state in
  is_status 401 (next_answer C1_counter_world sample_state) = true /\
  fst (FitbitAPI.refresh_access_token C1_counter_world
         (expired C1_counter_world "sleep" (Some "2024-01-15") None sample_state))
  = inr true /\
  fst run = inr sample_data /\
  count is_get (trace (snd run)) = 4%nat /\
  count is_post (trace (snd run)) = 2%nat.
Proof. vm_compute. repeat split. Qed.

(** ** C2: the 429 path *)



Lemma digit_char d :
  0 <= d < 10 -> Py.digit (ascii_of_nat (48 + Z.to_nat d)) = Some d.
Proof.
  intros H.
  assert (E : d = 0 \/ d = 1 \/ d = 2 \/ d = 3 \/ d = 4 \/ d = 5 \/ d = 6 \/ d = 7 \/
              d = 8 \/ d = 9) by lia.
  repeat (destruct E as [->|E]; [reflexivity|]). subst d. reflexivity.
Qed.





Lemma pow10_positive k : 0 <= k -> 0 < 10 ^ k.
Proof. intros H. apply Z.pow_pos_nonneg; lia. Qed.










(** ** C3: the token refresh *)

(** C3, where the code departs from the claim.  A 200 answer of the token
    endpoint that carries an access token and no refresh token makes the
    refresh fail, yet the stored access token has already been replaced: the
    credentials are not left as they were, and only one of the two tokens is
    new. *)
Theorem C3_failed_refresh_replaces_access_token w s r token_data a e :
  token_answer w s = Resp r -> status_code r = 200 ->
  body r = Some token_data ->
  Py.getitem token_data "access_token" = inr a ->
  Py.getitem token_data "refresh_token" = inl e ->
  exists s',
    FitbitAPI.refresh_access_token w s = (inr false, s') /\
    access_token (self s') = a /\
    refresh_token (self s') = refresh_token (self s).
Proof.
  intros Ha Hs Hb Hat Hrt. eexists. split.
  - exact (refresh_partial w s Ha Hs Hb Hat Hrt).
  - split; reflexivity.
Qed.

Definition C3_world : World :=
  scripted [] [ok_json (Py.PDict [("access_token", Py.PStr "A2")])].

Lemma C3_failed_refresh_replaces_access_token_witness :
  token_answer C3_world sample_state
  = ok_json (Py.PDict [("access_token", Py.PStr "A2")]) /\
  exists s',
    FitbitAPI.refresh_access_token C3_world sample_state = (inr false, s') /\
    access_token (self s') = Py.PStr "A2" /\
    refresh_token (self s') = Py.PStr "R1".
Proof.
  split; [reflexivity|].
  exact (C3_failed_refresh_replaces_access_token C3_world sample_state
           (r := mk_Response 200 [] (Some (Py.PDict [("access_token", Py.PStr "A2")])))
           eq_refl eq_refl eq_refl eq_refl eq_refl).
Defined.

(** ** C4: the PEM risk score *)

Definition heart_payload (resting_hr : Z) : Py.value :=
  Py.PDict [("activities-heart",
             Py.PList [Py.PDict [("dateTime", Py.PStr "2024-01-15");
                                 ("value", Py.PDict [("restingHeartRate", Py.PInt resting_hr)])]])].

Definition steps_payload (steps : Z) : Py.value :=
  Py.PDict [("activities-steps",
             Py.PList [Py.PDict [("dateTime", Py.PStr "2024-01-15");
                                 ("value", Py.PInt steps)]])].

Definition hrv_payload (daily_rmssd : Z) : Py.value :=
  Py.PDict [("hrv",
             Py.PList [Py.PDict [("dateTime", Py.PStr "2024-01-15");
                                 ("value", Py.PDict [("dailyRmssd", Py.PInt daily_rmssd)])]])].

(** C4.  When the three fetches of calculate_pem_risk return a heart-rate
    payload, a steps payload and an HRV payload, the score is the additive
    rule of the specification applied to the first record's resting heart
    rate, the first record's step count and the daily RMSSD of the first HRV
    record that has a value block: +30 above 100, +25 above 5000, +45 below
    20, capped at 100.  Resting heart rate 110, 6000 steps and RMSSD 15 give
    100; 80, 1000 and 40 give 0.  When the body of the calculation raises, the
    result is 0.0. *)
Theorem C4_pem_risk_is_the_additive_rule :
  (forall w fuel date s hr_data steps_data hrv_data s1 s2 s3 q1 q2 x,
     FitbitAPI.make_request w fuel "activities/heart" (Some date) None s = (inr hr_data, s1) ->
     FitbitAPI.make_request w fuel "activities/steps" (Some date) None s1 = (inr steps_data, s2) ->
     FitbitAPI.make_request w fuel "hrv" (Some date) None s2 = (inr hrv_data, s3) ->
     resting_hr_in hr_data q1 -> steps_in steps_data q2 -> rmssd_in hrv_data x ->
     FitbitDataProcessor.calculate_pem_risk w fuel date s
     = (inr (Py.PFloat (additive_rule q1 q2 x)), s3)) /\
  (forall w fuel date s hr_data steps_data hrv_data s1 s2 s3,
     FitbitAPI.make_request w fuel "activities/heart" (Some date) None s = (inr hr_data, s1) ->
     FitbitAPI.make_request w fuel "activities/steps" (Some date) None s1 = (inr steps_data, s2) ->
     FitbitAPI.make_request w fuel "hrv" (Some date) None s2 = (inr hrv_data, s3) ->
     (resting_hr_in hr_data 110 -> steps_in steps_data 6000 ->
      rmssd_in hrv_data (Some 15%Q) ->
      FitbitDataProcessor.calculate_pem_risk w fuel date s = (inr (Py.PFloat 100), s3)) /\
     (resting_hr_in hr_data 80 -> steps_in steps_data 1000 ->
      rmssd_in hrv_data (Some 40%Q) ->
      FitbitDataProcessor.calculate_pem_risk w fuel date s = (inr (Py.PFloat 0), s3))) /\
  (forall w fuel date s e s',
     FitbitDataProcessor.pem_risk_try w fuel date s = (inl e, s') ->
     FitbitDataProcessor.calculate_pem_risk w fuel date s
     = (inr (Py.PFloat 0), add s' [ELog ERROR "Error calculating PEM risk"])).
Proof.
  split; [|split].
  - intros w fuel date s hr st hv s1 s2 s3 q1 q2 x F1 F2 F3 H1 H2 H3.
    rewrite calculate_pem_risk_run.
    now rewrite (pem_risk_try_rule w fuel date s F1 F2 F3 H1 H2 H3).
  - intros w fuel date s hr st hv s1 s2 s3 F1 F2 F3. split; intros H1 H2 H3.
    + rewrite calculate_pem_risk_run.
      now rewrite (pem_risk_try_rule w fuel date s F1 F2 F3 H1 H2 H3).
    + rewrite calculate_pem_risk_run.
      now rewrite (pem_risk_try_rule w fuel date s F1 F2 F3 H1 H2 H3).
  - intros w fuel date s e s' H. rewrite calculate_pem_risk_run. now rewrite H.
Qed.

Definition C4_world : World :=
  scripted [ok_json (heart_payload 110); ok_json (steps_payload 6000);
            ok_json (hrv_payload 15)] [].

Lemma C4_pem_risk_is_the_additive_rule_witness :
  resting_hr_in (heart_payload 110) 110 /\
  steps_in (steps_payload 6000) 6000 /\
  rmssd_in (hrv_payload 15) (Some 15%Q) /\
  fst (FitbitDataProcessor.calculate_pem_risk C4_world 1 "2024-01-15" sample_state)
  = inr (Py.PFloat 100).
Proof.
  assert (H1 : resting_hr_in (heart_payload 110) 110).
  { unfold resting_hr_in, heart_payload. do 4 eexists.
    split; [reflexivity|]. split; [reflexivity|]. split; reflexivity. }
  assert (H2 : steps_in (steps_payload 6000) 6000).
  { unfold steps_in, steps_payload. do 3 eexists.
    split; [reflexivity|]. split; reflexivity. }
  assert (H3 : rmssd_in (hrv_payload 15) (Some 15%Q)).
  { unfold rmssd_in, hrv_payload. do 2 eexists.
    split; [reflexivity|]. split; [reflexivity|].
    eapply first_rmssd_found; [reflexivity|discriminate|reflexivity]. }
  split; [exact H1|]. split; [exact H2|]. split; [exact H3|].
  rewrite (proj1 C4_pem_risk_is_the_additive_rule C4_world 1%nat "2024-01-15"
             sample_state _ _ _ _ _ _ _ _ _ eq_refl eq_refl eq_refl H1 H2 H3).
  reflexivity.
Defined.

(* a step count that arrives as a string makes the comparison raise: the
   calculation then ends in its except clause, with 0.0 *)
Example steps_as_text_raise risk :
  FitbitDataProcessor.steps_block
    (Py.PDict [("activities-steps", Py.PList [Py.PDict [("value", Py.PStr "6000")]])]) risk
  = inl Py.TypeError.
Proof. reflexivity. Qed.

(** ** C5: the HRV ratio *)

Lemma too_large_over_one x : Py.too_large (x / 1) = Py.too_large x.
Proof.
  unfold Py.too_large.
  assert (E : (Qabs (x / 1) == Qabs x)%Q).
  { apply Qabs_wd. unfold Qdiv. change (/ 1)%Q with 1%Q. apply Qmult_1_r. }
  destruct (Qle_bool (inject_Z Py.float_limit) (Qabs x)) eqn:H.
  - apply Qle_bool_iff. apply Qle_bool_iff in H. now rewrite E.
  - destruct (Qle_bool (inject_Z Py.float_limit) (Qabs (x / 1))) eqn:H'; [|reflexivity].
    apply Qle_bool_iff in H'. rewrite E in H'. apply Qle_bool_iff in H'. congruence.
Qed.

(* lf / 1: the quotient when lf is a float or an int that rounds to a float,
   an OverflowError for a larger int *)
Lemma truediv_by_one lf x :
  Py.as_num lf = Some x ->
  Py.truediv lf (Py.PInt 1)
  = if (negb (Py.is_float lf) && Py.too_large x)%bool
    then inl Py.OverflowError else inr (Py.PFloat (x / 1)).
Proof.
  intros Hx. unfold Py.truediv. rewrite Hx. cbn [Py.as_num Py.is_float].
  rewrite orb_false_r. destruct (Py.is_float lf); cbn [negb andb orb].
  - reflexivity.
  - change (Qeq_bool (inject_Z 1) 0) with false. cbv iota.
    change (inject_Z 1) with 1%Q. rewrite too_large_over_one.
    now destruct (Py.too_large x).
Qed.

(** C5.  For an HRV record with a value block and a date that parses: when hf
    is 0 the record's Point carries lf_hf_ratio = 0 and nothing is divided;
    when hf is absent the rule works with hf = 1 and divides lf by it: the
    ratio is lf / 1 when lf is a float or an int that rounds to a float, and
    an int lf from 2^1024 - 2^970 on, in either sign, makes the division
    raise an OverflowError, which is no division by zero, and the record gets
    no Point.  For every record whatsoever, the rule never raises a
    ZeroDivisionError. *)
Theorem C5_hrv_ratio_is_guarded cfg measurement :
  (forall items block t points hf q,
     Py.lookup "value" items = Some (Py.PDict block) ->
     date_at "dateTime" items = inr t ->
     Py.lookup "hf" block = Some hf -> Py.as_num hf = Some q -> (q == 0)%Q ->
     FitbitDataProcessor.hrv_body cfg measurement (Py.PDict items) points
     = (inr tt, points ++ [hrv_point cfg measurement block (Py.PInt 0) t]) /\
     Py.lookup "lf_hf_ratio" (fields (hrv_point cfg measurement block (Py.PInt 0) t))
     = Some (Py.PInt 0)) /\
  (forall items block t points,
     Py.lookup "value" items = Some (Py.PDict block) -> block <> [] ->
     date_at "dateTime" items = inr t ->
     Py.lookup "hf" block = None ->
     Py.lookup "hf" (fields (hrv_point cfg measurement block Py.PNone t)) = Some (Py.PInt 1) /\
     FitbitDataProcessor.hrv_body cfg measurement (Py.PDict items) points
     = match Py.truediv (or_zero "lf" block) (Py.PInt 1) with
       | inr ratio => (inr tt, points ++ [hrv_point cfg measurement block ratio t])
       | inl e => (inl e, points)
       end /\
     forall x, Py.as_num (or_zero "lf" block) = Some x ->
       (Py.is_float (or_zero "lf" block) = true \/ Py.too_large x = false ->
        FitbitDataProcessor.hrv_body cfg measurement (Py.PDict items) points
        = (inr tt, points ++ [hrv_point cfg measurement block (Py.PFloat (x / 1)) t])) /\
       (Py.is_float (or_zero "lf" block) = false -> Py.too_large x = true ->
        FitbitDataProcessor.hrv_body cfg measurement (Py.PDict items) points
        = (inl Py.OverflowError, points))) /\
  (forall z, Py.too_large (inject_Z z) = true <-> Py.float_limit <= Z.abs z) /\
  (forall r points,
     fst (FitbitDataProcessor.hrv_body cfg measurement r points)
     <> inl Py.ZeroDivisionError).
Proof.
  split; [|split; [|split]].
  - intros items block t points hf q Hv Hd Hhf Hq H0.
    assert (Hne : block <> []) by (intros ->; discriminate).
    rewrite (hrv_body_record cfg measurement items points Hv Hne Hd).
    unfold hf_of. rewrite Hhf. unfold Py.ne0. rewrite Hq.
    apply Qeq_bool_iff in H0. rewrite H0. simpl. split; [reflexivity|].
    unfold hrv_point. rewrite health_tags_fields. reflexivity.
  - intros items block t points Hv Hne Hd Hhf.
    assert (Hrun : FitbitDataProcessor.hrv_body cfg measurement (Py.PDict items) points
                   = match Py.truediv (or_zero "lf" block) (Py.PInt 1) with
                     | inr ratio => (inr tt, points ++ [hrv_point cfg measurement block ratio t])
                     | inl e => (inl e, points)
                     end).
    { rewrite (hrv_body_record cfg measurement items points Hv Hne Hd).
      unfold hf_of. rewrite Hhf. reflexivity. }
    split; [|split; [exact Hrun|]].
    + unfold hrv_point. rewrite health_tags_fields. simpl. unfold hf_of.
      now rewrite Hhf.
    + intros x Hx. rewrite Hrun, (truediv_by_one _ Hx). split.
      * intros [Hf|Hs]; [rewrite Hf|rewrite Hs, andb_false_r]; reflexivity.
      * intros Hf Hl. rewrite Hf, Hl. reflexivity.
  - intros z. unfold Py.too_large. rewrite Qle_bool_iff.
    change (Qabs (inject_Z z)) with (inject_Z (Z.abs z)). rewrite <- Zle_Qle. tauto.
  - intros r points. apply hrv_body_never_divides_by_zero.
Qed.

Lemma C5_hrv_ratio_is_guarded_witness :
  let items := [("dateTime", Py.PStr "2024-01-15");
                ("value", Py.PDict [("lf", Py.PInt 5); ("hf", Py.PInt 0)])] in
  Py.lookup "hf" [("lf", Py.PInt 5); ("hf", Py.PInt 0)] = Some (Py.PInt 0) /\
  FitbitDataProcessor.hrv_body sample_cfg "hrv" (Py.PDict items) []
  = (inr tt, [hrv_point sample_cfg "hrv" [("lf", Py.PInt 5); ("hf", Py.PInt 0)] (Py.PInt 0)
                        (Datetime.mk_datetime 2024 1 15 0 0 0)]).
Proof.
  split; [reflexivity|].
  exact (proj1 (proj1 (C5_hrv_ratio_is_guarded sample_cfg "hrv")
           [("dateTime", Py.PStr "2024-01-15");
            ("value", Py.PDict [("lf", Py.PInt 5); ("hf", Py.PInt 0)])]
           [("lf", Py.PInt 5); ("hf", Py.PInt 0)]
           (Datetime.mk_datetime 2024 1 15 0 0 0) [] (Py.PInt 0) 0%Q
           eq_refl eq_refl eq_refl eq_refl (Qeq_refl 0))).
Defined.

(** ** C6: sleep sessions *)

(** C6, as amended.  For a sleep payload and a request date that parses,
    normalization returns, in order, one Point for each session whose
    isMainSleep is true (truthy) or absent, among the sessions before the
    first one that makes the rule raise: a session that is not an object, or
    a main session whose dateOfSleep is missing or does not parse.  The
    sessions from that one on get no Point, the Points of the sessions before
    it are kept, and the error is logged exactly when there is such a
    session.  No Point ever comes from a session marked false.  When every
    session is an object and every main session has a date that parses, there
    is exactly one Point per main session and none for the others. *)
Theorem C6_sleep_points_are_main_sessions cfg date t d sessions s :
  Datetime.strptime_ymd date = inr t ->
  Py.lookup "sleep" d = Some (Py.PList sessions) ->
  exists points,
    FitbitDataProcessor.normalize_daily cfg "sleep" date (Py.PDict d) s
    = (inr points,
       if existsb sleep_raises sessions
       then add s [ELog ERROR "Error processing sleep"] else s) /\
    Forall2 (sleep_emitted cfg "sleep")
            (filter main_sleep (before_first sleep_raises sessions)) points /\
    ((forall r, In r sessions ->
        exists items, r = Py.PDict items /\
          (main_sleep r = true -> exists t', date_at "dateOfSleep" items = inr t')) ->
     Forall2 (sleep_emitted cfg "sleep") (filter main_sleep sessions) points).
Proof.
  intros Ht Hl.
  assert (Hh : "sleep"%string <> "activities/heart"%string) by discriminate.
  pose proof (@normalize_daily_loop cfg "sleep" date t d sessions s Ht Hh Hl) as Hrun.
  cbv zeta in Hrun.
  change (daily_body cfg "sleep" (Py.replace_char "/" "_" "sleep"))
    with (FitbitDataProcessor.sleep_body cfg "sleep") in Hrun.
  rewrite (before_first_ext _ _ sessions (sleep_raises_on cfg "sleep")) in Hrun.
  rewrite (existsb_ext _ _ sessions (sleep_raises_on cfg "sleep")) in Hrun.
  assert (Hreach : Forall2 (sleep_emitted cfg "sleep")
                     (filter main_sleep (before_first sleep_raises sessions))
                     (flat_map (appended (FitbitDataProcessor.sleep_body cfg "sleep"))
                        (before_first sleep_raises sessions))).
  { rewrite <- (before_first_ext _ _ sessions (sleep_raises_on cfg "sleep")).
    apply reached_emitted. apply sleep_iteration. }
  eexists. split; [exact Hrun|]. split; [exact Hreach|].
  intros Hok.
  assert (Hnone : existsb sleep_raises sessions = false).
  { apply existsb_none. intros r Hin. destruct (Hok r Hin) as (items & -> & Hd).
    unfold sleep_raises. destruct (main_sleep (Py.PDict items)); [|reflexivity].
    destruct (Hd eq_refl) as (t' & Ht'). now rewrite Ht'. }
  rewrite (before_first_all _ _ Hnone) in *. exact Hreach.
Qed.

(* a main session, a main session without a date, then another main session *)
Definition C6_sessions : list Py.value :=
  [ Py.PDict [("dateOfSleep", Py.PStr "2024-01-15"); ("efficiency", Py.PInt 90)];
    Py.PDict [("isMainSleep", Py.PBool true)];
    Py.PDict [("dateOfSleep", Py.PStr "2024-01-14")] ].

Lemma C6_sleep_points_are_main_sessions_witness :
  Datetime.strptime_ymd "2024-01-15" = inr (Datetime.mk_datetime 2024 1 15 0 0 0) /\
  before_first sleep_raises C6_sessions
  = [Py.PDict [("dateOfSleep", Py.PStr "2024-01-15"); ("efficiency", Py.PInt 90)]] /\
  exists points,
    FitbitDataProcessor.normalize_daily sample_cfg "sleep" "2024-01-15"
      (Py.PDict [("sleep", Py.PList C6_sessions)]) sample_state
    = (inr points, add sample_state [ELog ERROR "Error processing sleep"]) /\
    Forall2 (sleep_emitted sample_cfg "sleep")
      [Py.PDict [("dateOfSleep", Py.PStr "2024-01-15"); ("efficiency", Py.PInt 90)]]
      points.
Proof.
  split; [reflexivity|]. split; [reflexivity|].
  destruct (C6_sleep_points_are_main_sessions sample_cfg "2024-01-15"
              [("sleep", Py.PList C6_sessions)] sample_state eq_refl eq_refl)
    as (points & Hrun & Hpre & _).
  exists points. split; [exact Hrun|exact Hpre].
Defined.

(** C6, the claim as stated fails: a session whose isMainSleep is true and
    that has no dateOfSleep gets no Point. *)
Lemma C6_counterexample :
  let session := Py.PDict [("isMainSleep", Py.PBool true); ("efficiency", Py.PInt 90)] in
  main_sleep session = true /\
  fst (FitbitDataProcessor.normalize_daily sample_cfg "sleep" "2024-01-15"
         (Py.PDict [("sleep", Py.PList [session])]) sample_state)
  = inr [].
Proof. vm_compute. split; reflexivity. Qed.

(** ** C7: the generic rule *)

(** C7, as amended.  For a metric name that no specialized rule matches, a
    payload that holds a list under the metric's trailing path segment and a
    request date that parses, normalization returns, in order, one Point for
    each record holding both a dateTime and a value key, among the records
    before the first one that makes the rule raise: an object with both keys
    whose dateTime does not parse, a string or a list in which both names
    are found, or a value that is no object, string or list.  The records
    from that one on get no Point, the Points of the records before it are
    kept, and the error is logged exactly when there is such a record.  Each
    Point carries the single field value and the record's own date, and no
    record gives more than one.  When every record is an object and every
    dateTime next to a value parses, there is exactly one Point per record
    holding both keys and none for the others. *)
Theorem C7_generic_points_are_dated_values cfg metric date t d records s :
  unspecialized metric ->
  Datetime.strptime_ymd date = inr t ->
  Py.lookup (Py.last_segment "/" metric) d = Some (Py.PList records) ->
  exists points,
    FitbitDataProcessor.normalize_daily cfg metric date (Py.PDict d) s
    = (inr points,
       if existsb generic_raises records
       then add s [ELog ERROR ("Error processing " ++ metric)] else s) /\
    Forall2 (generic_emitted (Py.replace_char "/" "_" metric))
            (filter dated_value (before_first generic_raises records)) points /\
    ((forall r, In r records ->
        exists items, r = Py.PDict items /\
          (dated_value r = true -> exists t', date_at "dateTime" items = inr t')) ->
     Forall2 (generic_emitted (Py.replace_char "/" "_" metric))
             (filter dated_value records) points).
Proof.
  intros Hu Ht Hl.
  set (m := Py.replace_char "/" "_" metric).
  destruct (daily_generic cfg m Hu) as [Hkey Hbody].
  assert (Hh : metric <> "activities/heart"%string) by apply Hu.
  rewrite <- Hkey in Hl.
  pose proof (@normalize_daily_loop cfg metric date t d records s Ht Hh Hl) as Hrun.
  cbv zeta in Hrun. fold m in Hrun. rewrite Hbody in Hrun.
  rewrite (before_first_ext _ _ records (generic_raises_on m)) in Hrun.
  rewrite (existsb_ext _ _ records (generic_raises_on m)) in Hrun.
  assert (Hreach : Forall2 (generic_emitted m)
                     (filter dated_value (before_first generic_raises records))
                     (flat_map (appended (FitbitDataProcessor.generic_body m))
                        (before_first generic_raises records))).
  { rewrite <- (before_first_ext _ _ records (generic_raises_on m)).
    apply reached_emitted. apply generic_iteration. }
  eexists. split; [exact Hrun|]. split; [exact Hreach|].
  intros Hok.
  assert (Hnone : existsb generic_raises records = false).
  { apply existsb_none. intros r Hin. destruct (Hok r Hin) as (items & -> & Hd).
    unfold generic_raises. destruct (dated_value (Py.PDict items)); [|reflexivity].
    destruct (Hd eq_refl) as (t' & Ht'). now rewrite Ht'. }
  rewrite (before_first_all _ _ Hnone) in *. exact Hreach.
Qed.

(* a dated value, a dated value whose date does not parse, a dated value *)
Definition C7_records : list Py.value :=
  [ Py.PDict [("dateTime", Py.PStr "2024-01-15"); ("value", Py.PStr "71.5")];
    Py.PDict [("dateTime", Py.PStr "15/01/2024"); ("value", Py.PStr "71.4")];
    Py.PDict [("dateTime", Py.PStr "2024-01-13"); ("value", Py.PStr "71.3")] ].

Lemma C7_unspecialized_weight : unspecialized "body/weight".
Proof. repeat split; discriminate. Qed.

Lemma C7_generic_points_are_dated_values_witness :
  unspecialized "body/weight" /\
  Datetime.strptime_ymd "2024-01-15" = inr (Datetime.mk_datetime 2024 1 15 0 0 0) /\
  before_first generic_raises C7_records
  = [Py.PDict [("dateTime", Py.PStr "2024-01-15"); ("value", Py.PStr "71.5")]] /\
  exists points,
    FitbitDataProcessor.normalize_daily sample_cfg "body/weight" "2024-01-15"
      (Py.PDict [("weight", Py.PList C7_records)]) sample_state
    = (inr points, add sample_state [ELog ERROR "Error processing body/weight"]) /\
    Forall2 (generic_emitted "body_weight")
      [Py.PDict [("dateTime", Py.PStr "2024-01-15"); ("value", Py.PStr "71.5")]]
      points.
Proof.
  split; [exact C7_unspecialized_weight|]. split; [reflexivity|]. split; [reflexivity|].
  destruct (C7_generic_points_are_dated_values sample_cfg
              (metric := "body/weight") "2024-01-15"
              [("weight", Py.PList C7_records)] sample_state
              C7_unspecialized_weight eq_refl eq_refl)
    as (points & Hrun & Hpre & _).
  exists points. split; [exact Hrun|exact Hpre].
Defined.

(** C7, the claim as stated fails: a record that holds both a dateTime and a
    value gets no Point when its dateTime does not parse. *)
Lemma C7_counterexample :
  let record := Py.PDict [("dateTime", Py.PStr "15/01/2024"); ("value", Py.PStr "71.5")] in
  dated_value record = true /\
  fst (FitbitDataProcessor.normalize_daily sample_cfg "body/weight" "2024-01-15"
         (Py.PDict [("weight", Py.PList [record])]) sample_state)
  = inr [].
Proof. vm_compute. split; reflexivity. Qed.

(** ** C8: errors inside normalization *)

(** C8, as amended.  For every metric, every payload and a request date that
    parses, the daily normalization returns: an error raised by a rule is
    caught and logged, exactly when a rule raised, and the result is the list
    of the Points appended before the error.  For a rule that loops over the
    records of the payload (every metric but the heart rate), the result is
    what the records before the first one on which the body of the loop
    raises have appended, in order: that record and the ones after it leave
    nothing, and the error is logged exactly when there is such a record; the
    body only appends to the list, and appends nothing when it raises.  The
    heart-rate rule leaves an empty result when it raises.  The intraday
    normalization returns for every metric, date and payload, with the Points
    of the entries of the dataset before the first one on which the body
    raises, and the error logged exactly when there is one; an error met
    while the dataset is looked for is logged and leaves an empty result. *)
Theorem C8_normalization_returns_points_so_far :
  (forall cfg metric date t data s,
     Datetime.strptime_ymd date = inr t ->
     exists points logged,
       FitbitDataProcessor.normalize_daily cfg metric date data s
       = (inr points, add s logged) /\
       (Py.truthy data = false -> points = [] /\ logged = []) /\
       (Py.truthy data = true ->
        let run := FitbitDataProcessor.daily_rules cfg metric
                     (Py.replace_char "/" "_" metric) t data [] in
        points = snd run /\
        logged = match fst run with
                 | inr _ => []
                 | inl _ => [ELog ERROR ("Error processing " ++ metric)]
                 end)) /\
  (forall cfg metric date t d records s,
     Datetime.strptime_ymd date = inr t ->
     metric <> "activities/heart"%string ->
     Py.lookup (daily_key metric) d = Some (Py.PList records) ->
     let body := daily_body cfg metric (Py.replace_char "/" "_" metric) in
     FitbitDataProcessor.normalize_daily cfg metric date (Py.PDict d) s
     = (inr (flat_map (appended body) (before_first (raises_on body) records)),
        if existsb (raises_on body) records
        then add s [ELog ERROR ("Error processing " ++ metric)]
        else s)) /\
  (forall cfg metric measurement,
     append_only (daily_body cfg metric measurement) /\
     bare_raise (daily_body cfg metric measurement)) /\
  (forall cfg date t data s,
     Datetime.strptime_ymd date = inr t ->
     Py.truthy data = true ->
     failed (fst (FitbitDataProcessor.heart_rule cfg "activities_heart" t data [])) = true ->
     FitbitDataProcessor.normalize_daily cfg "activities/heart" date data s
     = (inr [], add s [ELog ERROR "Error processing activities/heart"])) /\
  (forall cfg metric date data s,
     exists points logged,
       FitbitDataProcessor.normalize_intraday cfg metric date data s
       = (inr points, add s logged)) /\
  (forall cfg metric date d k inner entries s,
     FitbitDataProcessor.find_intraday_key (map fst d) = Some k ->
     Py.lookup k d = Some (Py.PDict inner) ->
     Py.lookup "dataset" inner = Some (Py.PList entries) ->
     let body := FitbitDataProcessor.intraday_body cfg metric
                   (Py.replace_char "/" "_" metric ++ "_intraday") date in
     (append_only body /\ bare_raise body) /\
     FitbitDataProcessor.normalize_intraday cfg metric date (Py.PDict d) s
     = (inr (flat_map (appended body) (before_first (raises_on body) entries)),
        add s (ELog INFO ("Processing intraday points for " ++ metric)
               :: if existsb (raises_on body) entries
                  then [ELog ERROR ("Error processing intraday " ++ metric)]
                  else []))) /\
  (forall cfg metric date data s e,
     Py.truthy data = true ->
     FitbitDataProcessor.find_dataset data = inl e ->
     FitbitDataProcessor.normalize_intraday cfg metric date data s
     = (inr [], add s [ELog ERROR ("Error processing intraday " ++ metric)])).
Proof.
  split; [|split; [|split; [|split; [|split; [|split]]]]].
  - intros cfg metric date t data s Ht.
    rewrite (normalize_daily_run cfg metric date data s Ht).
    destruct (Py.truthy data); cbn [negb].
    + destruct (FitbitDataProcessor.daily_rules cfg metric _ t data []) as [[e|u] points].
      * exists points, [ELog ERROR ("Error processing " ++ metric)].
        split; [reflexivity|]. split; [discriminate|]. intros _. split; reflexivity.
      * exists points, []. rewrite add_nil.
        split; [reflexivity|]. split; [discriminate|]. intros _. split; reflexivity.
    + exists [], []. rewrite add_nil.
      split; [reflexivity|]. split; [auto|discriminate].
  - intros cfg metric date t d records s Ht Hh Hl.
    exact (@normalize_daily_loop cfg metric date t d records s Ht Hh Hl).
  - intros cfg metric measurement.
    split; [apply daily_body_append_only|apply daily_body_bare_raise].
  - intros cfg date t data s Ht Htr Hf.
    rewrite (normalize_daily_run cfg "activities/heart" date data s Ht), Htr. cbn [negb].
    change (FitbitDataProcessor.daily_rules cfg "activities/heart"
              (Py.replace_char "/" "_" "activities/heart") t data [])
      with (FitbitDataProcessor.heart_rule cfg "activities_heart" t data []).
    pose proof (heart_rule_bare cfg "activities_heart" t data Hf) as Hb.
    destruct (FitbitDataProcessor.heart_rule cfg "activities_heart" t data [])
      as [[e|u] points]; [|discriminate].
    cbn [snd] in Hb. subst points. reflexivity.
  - intros cfg metric date data s. apply normalize_intraday_returns.
  - intros cfg metric date d k inner entries s Hk Hl Hd. split.
    + split; [apply intraday_append_only|apply intraday_bare_raise].
    + exact (@normalize_intraday_loop cfg metric date d k inner entries s Hk Hl Hd).
  - intros cfg metric date data s e Ht He.
    exact (@normalize_intraday_no_dataset cfg metric date data s e Ht He).
Qed.

Definition C8_payload : Py.value :=
  Py.PDict [("sleep",
             Py.PList [ Py.PDict [("dateOfSleep", Py.PStr "2024-01-15")];
                        Py.PDict [("isMainSleep", Py.PBool true)] ])].

Lemma C8_normalization_returns_points_so_far_witness :
  Datetime.strptime_ymd "2024-01-15" = inr (Datetime.mk_datetime 2024 1 15 0 0 0) /\
  exists points logged,
    FitbitDataProcessor.normalize_daily sample_cfg "sleep" "2024-01-15" C8_payload sample_state
    = (inr points, add sample_state logged).
Proof.
  split; [reflexivity|].
  destruct (proj1 C8_normalization_returns_points_so_far sample_cfg "sleep" "2024-01-15"
              (Datetime.mk_datetime 2024 1 15 0 0 0) C8_payload sample_state eq_refl)
    as (points & logged & Hrun & _).
  exists points, logged. exact Hrun.
Defined.

(** C8, the claim as stated fails: the second session of the payload makes
    the sleep rule raise a KeyError, which is caught and logged, and the
    result is not empty: it holds the Point of the first session. *)
Lemma C8_counterexample :
  fst (FitbitDataProcessor.daily_rules sample_cfg "sleep" "sleep"
         (Datetime.mk_datetime 2024 1 15 0 0 0) C8_payload [])
  = inl Py.KeyError /\
  let run := FitbitDataProcessor.normalize_daily sample_cfg "sleep" "2024-01-15"
               C8_payload sample_state in
  fst run
  = inr [ sleep_point sample_cfg "sleep" [("dateOfSleep", Py.PStr "2024-01-15")]
                      (Datetime.mk_datetime 2024 1 15 0 0 0) ] /\
  trace (snd run) = [ELog ERROR "Error processing sleep"].
Proof. vm_compute. repeat split. Qed.

(** ** C9: the defaults of the health-condition flags *)

Definition health_variables : list string :=
  [ "HEALTH_LONG_COVID"; "HEALTH_POTS"; "HEALTH_SMALL_FIBER_NEUROPATHY";
    "HEALTH_PEM"; "HEALTH_DYSAUTONOMIA" ].

Definition all_tags : list (string * string) :=
  [ ("long_covid", "true"); ("pots", "true"); ("small_fiber_neuropathy", "true");
    ("pem", "true"); ("dysautonomia", "true") ].

(* the word true, each of its four letters in either case *)
Definition true_in_any_case (v : string) : Prop :=
  exists a b c d,
    v = String a (String b (String c (String d ""))) /\
    (a = "t" \/ a = "T")%char /\ (b = "r" \/ b = "R")%char /\
    (c = "u" \/ c = "U")%char /\ (d = "e" \/ d = "E")%char.

Lemma lower_letter c :
  (Py.ascii_lower c = "t" -> c = "t" \/ c = "T")%char /\
  (Py.ascii_lower c = "r" -> c = "r" \/ c = "R")%char /\
  (Py.ascii_lower c = "u" -> c = "u" \/ c = "U")%char /\
  (Py.ascii_lower c = "e" -> c = "e" \/ c = "E")%char.
Proof.
  destruct c as [[] [] [] [] [] [] [] []]; vm_compute;
    repeat split; intros H; solve [discriminate H | auto].
Qed.

Lemma lower_true v : Py.lower v = "true"%string <-> true_in_any_case v.
Proof.
  split.
  - destruct v as [|a [|b [|c [|d [|x v]]]]]; cbn [Py.lower]; intros H; try discriminate H.
    injection H as Ha Hb Hc Hd.
    exists a, b, c, d. split; [reflexivity|].
    repeat split;
      [apply (lower_letter a)|apply (lower_letter b)|apply (lower_letter c)
      |apply (lower_letter d)]; assumption.
  - intros (a & b & c & d & -> & [-> | ->] & [-> | ->] & [-> | ->] & [-> | ->]);
      reflexivity.
Qed.

(** C9, as amended.  A health-condition flag whose environment entry is
    absent is enabled: the default is 'true'.  A flag whose entry is set is
    enabled exactly when the value is the word true with each letter in
    either case, so only an entry with another value disables it.  The five
    conditions of the configuration are these flags, in order.  With none of
    the five entries set, all five flags are enabled and every Point that
    takes the health tags takes all five. *)
Theorem C9_absent_flag_is_enabled :
  (forall env k, env_lookup k env = None -> flag env k = true) /\
  (forall env k v, env_lookup k env = Some v ->
     (flag env k = true <-> true_in_any_case v)) /\
  (forall env,
     map fst (HEALTH_CONDITIONS (load_config env))
     = ["long_covid"; "pots"; "small_fiber_neuropathy"; "pem"; "dysautonomia"]%string /\
     map snd (HEALTH_CONDITIONS (load_config env)) = map (flag env) health_variables) /\
  (forall env,
     (forall k, In k health_variables -> env_lookup k env = None) ->
     (forall k, In k health_variables -> flag env k = true) /\
     map snd (HEALTH_CONDITIONS (load_config env)) = [true; true; true; true; true] /\
     forall p, tags (FitbitDataProcessor.health_tags (load_config env) p) = tags p ++ all_tags).
Proof.
  split; [|split; [|split]].
  - intros env k H. unfold flag, getenv. now rewrite H.
  - intros env k v H. unfold flag, getenv. rewrite H, String.eqb_eq. apply lower_true.
  - intros env. split; reflexivity.
  - intros env H.
    assert (Hf : forall k, In k health_variables -> flag env k = true).
    { intros k Hk. unfold flag, getenv. now rewrite (H k Hk). }
    assert (Hc : HEALTH_CONDITIONS (load_config env)
                 = [ ("long_covid", true); ("pots", true); ("small_fiber_neuropathy", true);
                     ("pem", true); ("dysautonomia", true) ]).
    { unfold load_config. simpl.
      rewrite !Hf by (simpl; tauto). reflexivity. }
    split; [exact Hf|]. split.
    + now rewrite Hc.
    + intros p. rewrite health_tags_tags, Hc. reflexivity.
Qed.

Lemma C9_absent_flag_is_enabled_witness :
  (forall k, In k health_variables -> env_lookup k [] = None) /\
  map snd (HEALTH_CONDITIONS (load_config [])) = [true; true; true; true; true].
Proof.
  assert (H : forall k, In k health_variables -> env_lookup k [] = None)
    by (intros k _; reflexivity).
  split; [exact H|].
  exact (proj1 (proj2 (proj2 (proj2 (proj2 C9_absent_flag_is_enabled)) [] H))).
Defined.

(** C9, the claim as stated fails: with an empty configuration the
    heart-rate Point carries the five health-condition tags. *)
Lemma C9_counterexample :
  fst (FitbitDataProcessor.normalize_daily (load_config []) "activities/heart" "2024-01-15"
         (heart_payload 62) sample_state)
  = inr [ mk_Point "activities_heart" [("resting_heart_rate", Py.PInt 62)] all_tags
                   (Some (Datetime.mk_datetime 2024 1 15 0 0 0)) ].
Proof. vm_compute. reflexivity. Qed.

(** ** C10: the hand-over to the sink *)

(** C10, as amended.  A run whose configuration passes the validation ends
    normally with its completion line, whatever the sink does, and writes to
    the sink at most once.  When its fetch phase returns a batch, the run
    writes that whole batch once if it is not empty, and does not write at
    all if it is empty.  A write that raises is logged as an error and the
    run goes on with the same summary as after a write that succeeded: nothing
    is fetched again because of the failure and nothing is undone. *)
Theorem C10_one_write_then_completion w cfg env fuel s :
  missing_vars env = [] ->
  (exists s', main w cfg env fuel s
              = (inr tt, add s' [ELog INFO "Fitbit data sync completed"])) /\
  (exists ws,
     writes (snd (main w cfg env fuel s)) = writes s ++ ws /\
     (List.length ws <= 1)%nat /\
     forall s1 today points s2,
       startup w cfg (started_run s) = (inr tt, s1) ->
       today_is w s1 = (inr today, s1) ->
       collect w cfg fuel today s1 = (inr points, s2) ->
       ws = written cfg points) /\
  (forall today points s0,
     points <> [] ->
     deliver w cfg fuel today points s0
     = summary w cfg fuel today
         (add s0 [EWrite (INFLUX_BUCKET cfg) points; write_logged w points]) /\
     (forall e, influx_write w points = Some e ->
                write_logged w points = ELog ERROR "Error writing to InfluxDB")).
Proof.
  intros Hm. split; [|split].
  - now apply main_completes.
  - destruct (main_writes w cfg env fuel s) as (ws & Hw & Hl & Hws).
    exists ws. repeat split; try assumption.
    intros s1 today points s2 H1 H2 H3. exact (Hws s1 today points s2 Hm H1 H2 H3).
  - intros today points s0 Hne. split.
    + now apply deliver_run.
    + intros e He. unfold write_logged. now rewrite He.
Qed.

(* one sleep session to fetch, and a sink that refuses the write *)
Definition C10_world : World :=
  mk_World
    (fun n => if Nat.eqb n 14
              then ok_json (Py.PDict [("sleep",
                     Py.PList [Py.PDict [("dateOfSleep", Py.PStr "2024-01-15")]])])
              else Fails)
    (fun _ => Fails) None (fun _ => Some Py.OtherError) None
    (fun _ => Datetime.mk_datetime 2024 1 15 10 0 0).

Definition C10_env : environ :=
  sample_env ++ [("HEALTH_LONG_COVID", "false"); ("HEALTH_PEM", "false")].

Lemma C10_one_write_then_completion_witness :
  missing_vars C10_env = [] /\
  (exists s', main C10_world (load_config C10_env) C10_env 1 (initial (load_config C10_env))
              = (inr tt, add s' [ELog INFO "Fitbit data sync completed"])) /\
  writes (snd (main C10_world (load_config C10_env) C10_env 1 (initial (load_config C10_env))))
  = [ EWrite "fitbit"
        [ mk_Point "sleep"
            [("efficiency", Py.PInt 0); ("minutes_asleep", Py.PInt 0);
             ("minutes_awake", Py.PInt 0); ("time_in_bed", Py.PInt 0)]
            [("pots", "true"); ("small_fiber_neuropathy", "true"); ("dysautonomia", "true")]
            (Some (Datetime.mk_datetime 2024 1 15 0 0 0)) ] ].
Proof.
  split; [reflexivity|]. split.
  - exact (proj1 (@C10_one_write_then_completion C10_world (load_config C10_env) C10_env 1
                    (initial (load_config C10_env)) eq_refl)).
  - vm_compute. reflexivity.
Defined.

(* every request fails and no risk point is asked for: the batch is empty *)
Definition C10_counter_world : World := scripted [] [].

(** C10, the claim as stated fails: a run that collects no Point hands
    nothing to the sink; it makes no write at all, and completes. *)
Lemma C10_counterexample :
  let run := main C10_counter_world (load_config C10_env) C10_env 1
               (initial (load_config C10_env)) in
  missing_vars C10_env = [] /\
  fst run = inr tt /\
  count is_write (trace (snd run)) = 0%nat /\
  last (trace (snd run)) EClose = ELog INFO "Fitbit data sync completed".
Proof. vm_compute. repeat split. Qed.

(** * Further properties of the pipeline *)

(** ** The exceptions of a fetch *)





Definition malformed_wait_world : World :=
  scripted [too_many_requests "Wed, 21 Oct 2026 07:28:00 GMT"] [].






(** A 429 whose wait cannot be slept makes the fetch raise after its one
    request: nothing is slept and the request is not repeated.  A Retry-After
    that int() rejects (a date, a number with a fraction, more than 4300
    digits) gives a ValueError before the warning is logged; an integer wait
    that is negative gives a ValueError from time.sleep, and one beyond
    9223372036 seconds in either direction an OverflowError, both after the
    warning. *)
Theorem fetch_raises_on_unusable_wait w fuel ep date dl s r :
  next_answer w s = Resp r -> status_code r = 429 ->
  (forall d, FitbitAPI.retry_after_of r = inr d -> ~ 0 <= d <= max_sleep) ->
  exists e logged,
    FitbitAPI.make_request w (S fuel) ep date dl s
    = (inl e, add s (started w ep date dl s ++ logged)) /\
    (e, logged)
    = match FitbitAPI.retry_after_of r with
      | inl _ => (Py.ValueError, [])
      | inr d =>
          (if ((d <? - max_sleep) || (max_sleep <? d))%bool
           then Py.OverflowError else Py.ValueError,
           [ELog WARNING "Rate limited, waiting"])
      end /\
    count is_get (trace (add s (started w ep date dl s ++ logged)))
    = S (count is_get (trace s)) /\
    count is_sleep (trace (add s (started w ep date dl s ++ logged)))
    = count is_sleep (trace s).
Proof.
  intros Ha Hs Hd.
  destruct (FitbitAPI.retry_after_of r) as [e|d] eqn:Er.
  - exists Py.ValueError, []. rewrite app_nil_r.
    split; [exact (fetch_wait_unread w fuel ep date dl s Ha Hs Er)|].
    split; [reflexivity|].
    unfold add, started. cbn [trace]. rewrite !count_app. unfold count. simpl. lia.
  - exists (refused_wait d), [ELog WARNING "Rate limited, waiting"].
    split; [exact (fetch_wait_refused w fuel ep date dl s Ha Hs Er (Hd d eq_refl))|].
    split; [reflexivity|].
    unfold add, started. cbn [trace]. rewrite !count_app. unfold count. simpl. lia.
Qed.

Lemma fetch_raises_on_unusable_wait_witness :
  next_answer malformed_wait_world sample_state
  = too_many_requests "Wed, 21 Oct 2026 07:28:00 GMT" /\
  exists e logged,
    FitbitAPI.make_request malformed_wait_world 1 "sleep" None None sample_state
    = (inl e, add sample_state
                  (started malformed_wait_world "sleep" None None sample_state ++ logged)) /\
    (e, logged) = (Py.ValueError, []).
Proof.
  split; [reflexivity|].
  destruct (@fetch_raises_on_unusable_wait malformed_wait_world 0 "sleep" None None
              sample_state _ eq_refl eq_refl) as (e & logged & Hrun & He & _).
  { intros d H. discriminate. }
  exists e, logged. split; [exact Hrun|exact He].
Defined.

(** ** What a token refresh does *)

(* the token endpoint answers 200 with a JSON object that holds an access
   token *)
Definition offers_access_token (h : http_result) : Prop :=
  exists r token_data a,
    h = Resp r /\ status_code r = 200 /\ body r = Some token_data /\
    Py.getitem token_data "access_token" = inr a.

(** A refresh never raises.  It answers False and leaves the client exactly
    as it was whenever the token endpoint does not answer 200 with a JSON
    object holding an access token: a transport error, another status, a
    body that is not JSON, or no access_token key. *)
Theorem refresh_failure_keeps_credentials w s :
  ~ offers_access_token (token_answer w s) ->
  exists s',
    FitbitAPI.refresh_access_token w s = (inr false, s') /\
    self s' = self s /\
    count is_post (trace s') = S (count is_post (trace s)).
Proof.
  intros Hno. unfold token_answer, offers_access_token in Hno.
  assert (Hp : forall l, count is_post (trace (posted s) ++ [ELog ERROR l])
                         = S (count is_post (trace s))).
  { intros l. unfold posted. simpl. rewrite !count_app. unfold count at 2 3. simpl. lia. }
  unfold FitbitAPI.refresh_access_token, try_except, bind, get_self,
    FitbitAPI.http_post, emit, log, lift, FitbitAPI.json. simpl.
  destruct (token_post w (count is_post (trace s))) as [r|] eqn:Ha.
  2:{ eexists. split; [reflexivity|]. split; [reflexivity|]. apply Hp. }
  destruct (status_code r =? 200) eqn:Hs; simpl.
  2:{ eexists. split; [reflexivity|]. split; [reflexivity|]. apply Hp. }
  apply Z.eqb_eq in Hs.
  destruct (body r) as [td|] eqn:Hb; simpl.
  2:{ eexists. split; [reflexivity|]. split; [reflexivity|]. apply Hp. }
  destruct (Py.getitem td "access_token") as [e|a] eqn:Hat; simpl.
  { eexists. split; [reflexivity|]. split; [reflexivity|]. apply Hp. }
  exfalso. apply Hno. exists r, td, a. auto.
Qed.

Definition forbidden_world : World := scripted [] [status_only 400].

Lemma refresh_failure_keeps_credentials_witness :
  token_answer forbidden_world sample_state = status_only 400 /\
  exists s',
    FitbitAPI.refresh_access_token forbidden_world sample_state = (inr false, s') /\
    self s' = self sample_state.
Proof.
  split; [reflexivity|].
  destruct (@refresh_failure_keeps_credentials forbidden_world sample_state)
    as (s' & Hrun & Hself & _).
  { intros (r & td & a & Hr & Hs & _). inversion Hr. subst r. discriminate. }
  exists s'. split; [exact Hrun|exact Hself].
Defined.

(** A refresh answers True exactly when the token endpoint answers 200 with
    a JSON object holding both tokens; the client then holds that pair, and
    its id, secret and base URL are unchanged.  In every case the refresh
    makes one POST and no GET. *)
Theorem refresh_succeeds_exactly_on_a_token_pair w s :
  exists refreshed s',
    FitbitAPI.refresh_access_token w s = (inr refreshed, s') /\
    count is_post (trace s') = S (count is_post (trace s)) /\
    count is_get (trace s') = count is_get (trace s) /\
    client_id (self s') = client_id (self s) /\
    client_secret (self s') = client_secret (self s) /\
    base_url (self s') = base_url (self s) /\
    (refreshed = true <->
     exists r token_data a rt,
       token_answer w s = Resp r /\ status_code r = 200 /\ body r = Some token_data /\
       Py.getitem token_data "access_token" = inr a /\
       Py.getitem token_data "refresh_token" = inr rt /\
       access_token (self s') = a /\ refresh_token (self s') = rt).
Proof.
  destruct (refresh_shape w s) as (b & c & l & Hr & (lv & msg & ->) & Hi & Hs & Hu & Htok).
  exists b. eexists. split; [exact Hr|].
  split.
  { unfold posted. simpl. rewrite !count_app. unfold count at 2 3. simpl. lia. }
  split.
  { unfold posted. simpl. rewrite !count_app. unfold count at 2 3. simpl. lia. }
  simpl. repeat (split; [assumption|]).
  split.
  - intros ->. destruct (Htok eq_refl) as (r & td & H1 & H2 & H3 & H4 & H5).
    exists r, td, (access_token c), (refresh_token c). auto 10.
  - intros (r & td & a & rt & H1 & H2 & H3 & H4 & H5 & _).
    rewrite (refresh_success w s H1 H2 H3 H4 H5) in Hr. now inversion Hr.
Qed.

(** ** The specialized rules *)

(* the Points of a rule of process_daily_summary that loops: one for each
   selected record before the first record that raises *)
Lemma daily_loop_points cfg metric date t d records s raises selected emitted :
  Datetime.strptime_ymd date = inr t ->
  metric <> "activities/heart"%string ->
  Py.lookup (daily_key metric) d = Some (Py.PList records) ->
  (forall r, raises_on (daily_body cfg metric (Py.replace_char "/" "_" metric)) r = raises r) ->
  iteration (daily_body cfg metric (Py.replace_char "/" "_" metric)) selected emitted ->
  exists points,
    FitbitDataProcessor.normalize_daily cfg metric date (Py.PDict d) s
    = (inr points,
       if existsb raises records
       then add s [ELog ERROR ("Error processing " ++ metric)] else s) /\
    Forall2 emitted (filter selected (before_first raises records)) points /\
    ((forall r, In r records ->
        forall pts e,
          daily_body cfg metric (Py.replace_char "/" "_" metric) r pts <> (inl e, pts)) ->
     existsb raises records = false /\ Forall2 emitted (filter selected records) points).
Proof.
  intros Ht Hh Hl Hr Hit.
  pose proof (@normalize_daily_loop cfg metric date t d records s Ht Hh Hl) as Hrun.
  cbv zeta in Hrun.
  rewrite (before_first_ext _ _ records Hr), (existsb_ext _ _ records Hr) in Hrun.
  pose proof (reached_emitted Hit records) as Hreach.
  rewrite (before_first_ext _ _ records Hr) in Hreach.
  eexists. split; [exact Hrun|]. split; [exact Hreach|].
  intros Hok.
  assert (Hnone : existsb raises records = false).
  { apply existsb_none. intros r Hin. rewrite <- Hr.
    exact (never_raises Hit r (Hok r Hin)). }
  split; [exact Hnone|].
  rewrite (before_first_all _ _ Hnone) in *. exact Hreach.
Qed.

(* an object, as opposed to any other JSON value *)
Definition is_object (v : Py.value) : bool :=
  match v with Py.PDict _ => true | _ => false end.

Section Heart.

Variable cfg : Config.

Import Py.

(** The heart-rate rule looks at the first record only: when its value block
    holds a resting heart rate, the result is one Point with that single
    field, the request date as its time and the enabled health tags; when the
    key is missing the result is empty.  Later records are never read. *)
Theorem heart_rule_reads_the_first_record date t d items rest block s :
  Datetime.strptime_ymd date = inr t ->
  lookup "activities-heart" d = Some (PList (PDict items :: rest)) ->
  lookup "value" items = Some (PDict block) ->
  FitbitDataProcessor.normalize_daily cfg "activities/heart" date (PDict d) s
  = (inr match lookup "restingHeartRate" block with
         | Some v =>
             [ FitbitDataProcessor.health_tags cfg
                 (mk_Point "activities_heart" [("resting_heart_rate", v)] [] (Some t)) ]
         | None => []
         end, s).
Proof.
  intros Ht Hl Hv.
  rewrite (normalize_daily_run cfg "activities/heart" date (PDict d) s Ht).
  rewrite (lookup_truthy _ _ Hl). cbn [negb].
  change (FitbitDataProcessor.daily_rules cfg "activities/heart"
            (replace_char "/" "_" "activities/heart") t (PDict d) [])
    with (FitbitDataProcessor.heart_rule cfg "activities_heart" t (PDict d) []).
  unfold FitbitDataProcessor.heart_rule, bind, lift, ret, append.
  rewrite (has_list _ _ Hl). cbn [getitem]. rewrite Hl. cbn [ok getitem0 getitem].
  rewrite Hv. cbn [ok contains].
  destruct (lookup "restingHeartRate" block) eqn:Hr; cbn [getitem]; rewrite ?Hr;
    reflexivity.
Qed.

End Heart.

Lemma heart_rule_reads_the_first_record_witness :
  Datetime.strptime_ymd "2024-01-15" = inr (Datetime.mk_datetime 2024 1 15 0 0 0) /\
  FitbitDataProcessor.normalize_daily sample_cfg "activities/heart" "2024-01-15"
    (heart_payload 62) sample_state
  = (inr [ FitbitDataProcessor.health_tags sample_cfg
             (mk_Point "activities_heart" [("resting_heart_rate", Py.PInt 62)] []
                       (Some (Datetime.mk_datetime 2024 1 15 0 0 0))) ],
     sample_state).
Proof.
  split; [reflexivity|].
  exact (@heart_rule_reads_the_first_record sample_cfg "2024-01-15" _
           [("activities-heart",
             Py.PList [Py.PDict [("dateTime", Py.PStr "2024-01-15");
                                 ("value", Py.PDict [("restingHeartRate", Py.PInt 62)])]])]
           _ [] [("restingHeartRate", Py.PInt 62)] sample_state eq_refl eq_refl eq_refl).
Defined.

Section Spo2.

Variable measurement : string.

Import Py.

(* the record holds a value key *)
Definition valued (r : value) : bool :=
  match r with
  | PDict items => has_key "value" items
  | _ => false
  end.

(* the Point of an SpO2 record: avg, min and max of its value block, 0 for a
   missing one, at the record's date, without tags *)
Definition spo2_emitted (r : value) (p : Point) : Prop :=
  exists items block t,
    r = PDict items /\ lookup "value" items = Some (PDict block) /\
    date_at "dateTime" items = inr t /\
    p = mk_Point measurement
          [ ("value", or_zero "avg" block); ("min", or_zero "min" block);
            ("max", or_zero "max" block) ]
          [] (Some t).

Lemma spo2_iteration :
  iteration (FitbitDataProcessor.spo2_body measurement) valued spo2_emitted.
Proof.
  intros r points.
  destruct r as [| |z|q|s|l|items].
  1-4: left; exists TypeError; reflexivity.
  - unfold FitbitDataProcessor.spo2_body, bind, lift, ret. simpl.
    destruct (substr_in "value" s); simpl.
    + left. exists TypeError. reflexivity.
    + right. left. auto.
  - unfold FitbitDataProcessor.spo2_body, bind, lift, ret. simpl.
    destruct (existsb (is_str "value") l); simpl.
    + left. exists TypeError. reflexivity.
    + right. left. auto.
  - unfold FitbitDataProcessor.spo2_body, bind, lift, ret, append, valued, has_key. simpl.
    destruct (lookup "value" items) as [v|] eqn:Hv; simpl; [|right; left; auto].
    destruct (lookup "dateTime" items) as [d|] eqn:Hd; simpl;
      [|left; eexists; reflexivity].
    destruct (Datetime.strptime_date d) as [e|t] eqn:Ht; simpl;
      [left; eexists; reflexivity|].
    destruct v as [| | | | | |block]; simpl; try (left; eexists; reflexivity).
    right. right. split; [reflexivity|]. eexists. split; [|reflexivity].
    exists items, block, t. unfold date_at. rewrite Hd. auto.
Qed.

(* a record that stops the SpO2 rule: an object with a value key whose
   dateTime is missing or does not parse, or whose value is not an object; a
   string or a list in which the name value is found; any other value *)
Definition spo2_raises (r : value) : bool :=
  match r with
  | PDict items =>
      match lookup "value" items with
      | Some v => (failed (date_at "dateTime" items) || negb (is_object v))%bool
      | None => false
      end
  | PStr s => substr_in "value" s
  | PList l => existsb (is_str "value") l
  | _ => true
  end.

Lemma spo2_raises_on r :
  raises_on (FitbitDataProcessor.spo2_body measurement) r = spo2_raises r.
Proof.
  unfold raises_on. destruct r as [| |z|q|s|l|items]; try reflexivity.
  - unfold FitbitDataProcessor.spo2_body, bind, lift, ret. simpl.
    now destruct (substr_in "value" s).
  - unfold FitbitDataProcessor.spo2_body, bind, lift, ret. simpl.
    now destruct (existsb (is_str "value") l).
  - unfold FitbitDataProcessor.spo2_body, bind, lift, ret, append, spo2_raises, date_at.
    simpl.
    destruct (lookup "value" items) as [v|] eqn:Hv; simpl; [|reflexivity].
    destruct (lookup "dateTime" items) as [d|] eqn:Hd; simpl; [|reflexivity].
    destruct (Datetime.strptime_date d) as [e|t] eqn:Ht; simpl; [reflexivity|].
    destruct v; reflexivity.
Qed.

End Spo2.

(** For an SpO2 payload and a request date that parses, the result holds, in
    order, one Point for each record that has a value key, among the records
    before the first one that makes the rule raise: fields value (the avg),
    min and max, 0 for a missing one, the record's own date, and no tag even
    when health conditions are enabled.  The rule raises on an object with a
    value key whose dateTime is missing or does not parse or whose value is
    not an object, on a string or a list in which the name value is found,
    and on any other value; the records from that one on get no Point, and
    the error is logged exactly when there is such a record.  When no record
    raises, every record with a value key has its Point. *)
Theorem spo2_points_are_valued_records cfg date t d records s :
  Datetime.strptime_ymd date = inr t ->
  Py.lookup "spo2" d = Some (Py.PList records) ->
  exists points,
    FitbitDataProcessor.normalize_daily cfg "spo2" date (Py.PDict d) s
    = (inr points,
       if existsb spo2_raises records
       then add s [ELog ERROR "Error processing spo2"] else s) /\
    Forall2 (spo2_emitted "spo2") (filter valued (before_first spo2_raises records)) points /\
    ((forall r, In r records ->
        forall pts e, FitbitDataProcessor.spo2_body "spo2" r pts <> (inl e, pts)) ->
     existsb spo2_raises records = false /\
     Forall2 (spo2_emitted "spo2") (filter valued records) points).
Proof.
  intros Ht Hl.
  assert (Hh : "spo2"%string <> "activities/heart"%string) by discriminate.
  exact (@daily_loop_points cfg "spo2" date t d records s spo2_raises valued
           (spo2_emitted "spo2") Ht Hh Hl (spo2_raises_on "spo2") (spo2_iteration "spo2")).
Qed.

(* a record with its value block, a record without a value, a record whose
   value is a number, a last record with its value block *)
Definition spo2_records : list Py.value :=
  [ Py.PDict [("dateTime", Py.PStr "2024-01-15");
              ("value", Py.PDict [("avg", Py.PFloat (965 # 10)); ("min", Py.PInt 93)])];
    Py.PDict [("dateTime", Py.PStr "2024-01-14")];
    Py.PDict [("dateTime", Py.PStr "2024-01-13"); ("value", Py.PInt 97)];
    Py.PDict [("dateTime", Py.PStr "2024-01-12"); ("value", Py.PDict [("avg", Py.PInt 96)])] ].

Lemma spo2_points_are_valued_records_witness :
  Datetime.strptime_ymd "2024-01-15" = inr (Datetime.mk_datetime 2024 1 15 0 0 0) /\
  filter valued (before_first spo2_raises spo2_records)
  = [ Py.PDict [("dateTime", Py.PStr "2024-01-15");
                ("value", Py.PDict [("avg", Py.PFloat (965 # 10)); ("min", Py.PInt 93)])] ] /\
  exists points,
    FitbitDataProcessor.normalize_daily sample_cfg "spo2" "2024-01-15"
      (Py.PDict [("spo2", Py.PList spo2_records)]) sample_state
    = (inr points, add sample_state [ELog ERROR "Error processing spo2"]) /\
    Forall2 (spo2_emitted "spo2")
      [ Py.PDict [("dateTime", Py.PStr "2024-01-15");
                  ("value", Py.PDict [("avg", Py.PFloat (965 # 10)); ("min", Py.PInt 93)])] ]
      points.
Proof.
  split; [reflexivity|]. split; [reflexivity|].
  destruct (@spo2_points_are_valued_records sample_cfg "2024-01-15" _
              [("spo2", Py.PList spo2_records)] _ sample_state eq_refl eq_refl)
    as (points & Hrun & Hpre & _).
  exists points. split; [exact Hrun|exact Hpre].
Defined.

Section HrvLoop.

Variable cfg : Config.
Variable measurement : string.

Import Py.

(* the record holds a value block that is not empty *)
Definition with_value_block (r : value) : bool :=
  match r with
  | PDict items =>
      match lookup "value" items with
      | Some v => truthy v
      | None => false
      end
  | _ => false
  end.

(* the ratio the rule stores: lf / hf, and 0 when hf is 0 *)
Definition ratio_of (block : list (string * value)) : result value :=
  if ne0 (hf_of block) then truediv (or_zero "lf" block) (hf_of block) else ok (PInt 0).

Definition hrv_emitted (r : value) (p : Point) : Prop :=
  exists items block t ratio,
    r = PDict items /\ lookup "value" items = Some (PDict block) /\
    date_at "dateTime" items = inr t /\
    ratio_of block = inr ratio /\
    p = hrv_point cfg measurement block ratio t.

Opaque Datetime.strptime_date.

Lemma hrv_iteration :
  iteration (FitbitDataProcessor.hrv_body cfg measurement) with_value_block hrv_emitted.
Proof.
  intros r points.
  destruct r as [| |z|q|s|l|items].
  1-4: left; exists TypeError; reflexivity.
  - unfold FitbitDataProcessor.hrv_body, FitbitDataProcessor.has, bind, lift, ret. simpl.
    destruct (substr_in "value" s); simpl.
    + left. exists TypeError. reflexivity.
    + right. left. auto.
  - unfold FitbitDataProcessor.hrv_body, FitbitDataProcessor.has, bind, lift, ret. simpl.
    destruct (existsb (is_str "value") l); simpl.
    + left. exists TypeError. reflexivity.
    + right. left. auto.
  - unfold with_value_block.
    destruct (lookup "value" items) as [v|] eqn:Hv.
    2:{ right. left. split; [reflexivity|].
        unfold FitbitDataProcessor.hrv_body, FitbitDataProcessor.has, bind, lift, ret.
        simpl. rewrite Hv. reflexivity. }
    destruct (truthy v) eqn:Htr.
    2:{ right. left. split; [reflexivity|].
        unfold FitbitDataProcessor.hrv_body, FitbitDataProcessor.has, bind, lift, ret.
        simpl. rewrite Hv. simpl. rewrite ?Hv. simpl. rewrite Htr. reflexivity. }
    destruct (date_at "dateTime" items) as [e|t] eqn:Hd.
    { left. exists e.
      unfold FitbitDataProcessor.hrv_body, FitbitDataProcessor.has, bind, lift, ret.
      simpl. rewrite Hv. simpl. rewrite ?Hv. simpl. rewrite Htr. simpl.
      unfold date_at in Hd. destruct (lookup "dateTime" items); simpl.
      - rewrite Hd. reflexivity.
      - inversion Hd. reflexivity. }
    destruct v as [| | | | | |block].
    1: discriminate.
    1-5: left; exists AttributeError;
      unfold FitbitDataProcessor.hrv_body, FitbitDataProcessor.has, bind, lift, ret;
      simpl; rewrite Hv; simpl; rewrite ?Hv; simpl; simpl in Htr; rewrite ?Htr; simpl;
      unfold date_at in Hd; destruct (lookup "dateTime" items); try discriminate;
      simpl; rewrite Hd; simpl; rewrite ?Hv; reflexivity.
    assert (Hne : block <> []) by (intros ->; discriminate).
    rewrite (hrv_body_record cfg measurement items points Hv Hne Hd).
    destruct (ne0 (hf_of block)) eqn:Hn.
    + destruct (truediv (or_zero "lf" block) (hf_of block)) as [e|ratio] eqn:Hdiv.
      * left. now exists e.
      * right. right. split; [reflexivity|]. eexists. split; [|reflexivity].
        exists items, block, t, ratio. unfold ratio_of. rewrite Hn. auto.
    + right. right. split; [reflexivity|]. eexists. split; [|reflexivity].
      exists items, block, t, (PInt 0). unfold ratio_of. rewrite Hn. auto.
Qed.

(* a record that stops the HRV rule: an object with a value that is not
   empty whose dateTime is missing or does not parse, whose value is not an
   object, or whose ratio cannot be computed; a string or a list in which the
   name value is found; any other value *)
Definition hrv_raises (r : value) : bool :=
  match r with
  | PDict items =>
      match lookup "value" items with
      | Some v =>
          (truthy v &&
           (failed (date_at "dateTime" items) ||
            match v with
            | PDict block => failed (ratio_of block)
            | _ => true
            end))%bool
      | None => false
      end
  | PStr s => substr_in "value" s
  | PList l => existsb (is_str "value") l
  | _ => true
  end.

Lemma hrv_raises_on r :
  raises_on (FitbitDataProcessor.hrv_body cfg measurement) r = hrv_raises r.
Proof.
  unfold raises_on. destruct r as [| |z|q|s|l|items]; try reflexivity.
  - unfold FitbitDataProcessor.hrv_body, FitbitDataProcessor.has, bind, lift, ret. simpl.
    now destruct (substr_in "value" s).
  - unfold FitbitDataProcessor.hrv_body, FitbitDataProcessor.has, bind, lift, ret. simpl.
    now destruct (existsb (is_str "value") l).
  - unfold hrv_raises.
    destruct (lookup "value" items) as [v|] eqn:Hv.
    2:{ unfold FitbitDataProcessor.hrv_body, FitbitDataProcessor.has, bind, lift, ret.
        simpl. rewrite Hv. reflexivity. }
    destruct (truthy v) eqn:Htr.
    2:{ unfold FitbitDataProcessor.hrv_body, FitbitDataProcessor.has, bind, lift, ret.
        simpl. rewrite Hv. simpl. rewrite ?Hv. simpl. rewrite Htr. reflexivity. }
    destruct (date_at "dateTime" items) as [e|t] eqn:Hd.
    { unfold FitbitDataProcessor.hrv_body, FitbitDataProcessor.has, bind, lift, ret.
      simpl. rewrite Hv. simpl. rewrite ?Hv. simpl. rewrite Htr. simpl.
      unfold date_at in Hd. destruct (lookup "dateTime" items); simpl.
      - rewrite Hd. reflexivity.
      - reflexivity. }
    destruct v as [| | | | | |block].
    1: discriminate.
    1-5: unfold FitbitDataProcessor.hrv_body, FitbitDataProcessor.has, bind, lift, ret;
      simpl; rewrite Hv; simpl; rewrite ?Hv; simpl; simpl in Htr; rewrite ?Htr; simpl;
      unfold date_at in Hd; destruct (lookup "dateTime" items); try discriminate;
      simpl; rewrite Hd; simpl; rewrite ?Hv; reflexivity.
    assert (Hne : block <> []) by (intros ->; discriminate).
    rewrite (hrv_body_record cfg measurement items [] Hv Hne Hd).
    unfold ratio_of. cbn [andb orb failed].
    destruct (ne0 (hf_of block)); [|reflexivity].
    now destruct (truediv (or_zero "lf" block) (hf_of block)).
Qed.

Transparent Datetime.strptime_date.

(* the ratio of a block whose hf is the number 0 *)
Lemma ratio_of_zero block y :
  as_num (hf_of block) = Some y -> (y == 0)%Q -> ratio_of block = inr (PInt 0).
Proof.
  intros Hy H0. unfold ratio_of, ne0. rewrite Hy.
  apply Qeq_bool_iff in H0. now rewrite H0.
Qed.

(* the ratio of two numbers, hf not 0 *)
Lemma ratio_of_numbers block x y :
  as_num (or_zero "lf" block) = Some x -> as_num (hf_of block) = Some y ->
  ~ (y == 0)%Q ->
  ratio_of block
  = if (is_float (or_zero "lf" block) || is_float (hf_of block))%bool
    then
      if ((negb (is_float (or_zero "lf" block)) && too_large x) ||
          (negb (is_float (hf_of block)) && too_large y))%bool
      then inl OverflowError else inr (PFloat (x / y))
    else
      if too_large (x / y) then inl OverflowError else inr (PFloat (x / y)).
Proof.
  intros Hx Hy H0. unfold ratio_of, ne0, truediv. rewrite Hx, Hy.
  assert (Hq : Qeq_bool y 0 = false).
  { destruct (Qeq_bool y 0) eqn:E; [|reflexivity]. apply Qeq_bool_iff in E. contradiction. }
  rewrite Hq. cbn [negb]. reflexivity.
Qed.

(* an operand that is not a number *)
Lemma ratio_of_other block :
  ne0 (hf_of block) = true ->
  as_num (or_zero "lf" block) = None \/ as_num (hf_of block) = None ->
  ratio_of block = inl TypeError.
Proof.
  intros Hn [H|H]; unfold ratio_of, truediv; rewrite Hn, H; [reflexivity|].
  now destruct (as_num (or_zero "lf" block)).
Qed.

End HrvLoop.

(** For an HRV payload and a request date that parses, the result holds, in
    order, one Point for each record that has a non-empty value block, among
    the records before the first one that makes the rule raise: the five
    fields daily_rmssd, deep_rmssd, lf, hf and lf_hf_ratio, the record's own
    date and the enabled health tags.  The rule raises on an object with a
    value that is not empty whose dateTime is missing or does not parse,
    whose value is not an object or whose ratio cannot be computed, on a
    string or a list in which the name value is found, and on any other
    value; the records from that one on get no Point, and the error is logged
    exactly when there is such a record.  The ratio is 0 when hf is the
    number 0; for two numbers it is the quotient lf / hf, an OverflowError
    when the quotient of two ints does not round to a float or when an int
    divided by or dividing a float does not; an operand that is not a number
    next to an hf other than 0 gives a TypeError.  When no record raises,
    every record with a value block has its Point and no error is logged. *)
Theorem hrv_points_are_records_with_a_value_block cfg date t d records s :
  Datetime.strptime_ymd date = inr t ->
  Py.lookup "hrv" d = Some (Py.PList records) ->
  (exists points,
     FitbitDataProcessor.normalize_daily cfg "hrv" date (Py.PDict d) s
     = (inr points,
        if existsb hrv_raises records
        then add s [ELog ERROR "Error processing hrv"] else s) /\
     Forall2 (hrv_emitted cfg "hrv")
             (filter with_value_block (before_first hrv_raises records)) points /\
     ((forall r, In r records ->
         forall pts e, FitbitDataProcessor.hrv_body cfg "hrv" r pts <> (inl e, pts)) ->
      existsb hrv_raises records = false /\
      Forall2 (hrv_emitted cfg "hrv") (filter with_value_block records) points)) /\
  (forall block y,
     Py.as_num (hf_of block) = Some y -> (y == 0)%Q ->
     ratio_of block = inr (Py.PInt 0)) /\
  (forall block x y,
     Py.as_num (or_zero "lf" block) = Some x -> Py.as_num (hf_of block) = Some y ->
     ~ (y == 0)%Q ->
     ratio_of block
     = if (Py.is_float (or_zero "lf" block) || Py.is_float (hf_of block))%bool
       then
         if ((negb (Py.is_float (or_zero "lf" block)) && Py.too_large x) ||
             (negb (Py.is_float (hf_of block)) && Py.too_large y))%bool
         then inl Py.OverflowError else inr (Py.PFloat (x / y))
       else
         if Py.too_large (x / y) then inl Py.OverflowError else inr (Py.PFloat (x / y))) /\
  (forall block,
     Py.ne0 (hf_of block) = true ->
     Py.as_num (or_zero "lf" block) = None \/ Py.as_num (hf_of block) = None ->
     ratio_of block = inl Py.TypeError) /\
  (forall q, Py.too_large q = true <-> (inject_Z (2 ^ 1024 - 2 ^ 970) <= Qabs q)%Q).
Proof.
  intros Ht Hl.
  assert (Hh : "hrv"%string <> "activities/heart"%string) by discriminate.
  split; [|split; [|split; [|split]]].
  - exact (@daily_loop_points cfg "hrv" date t d records s hrv_raises with_value_block
             (hrv_emitted cfg "hrv") Ht Hh Hl (hrv_raises_on cfg "hrv")
             (hrv_iteration cfg "hrv")).
  - exact ratio_of_zero.
  - exact ratio_of_numbers.
  - exact ratio_of_other.
  - intros q. unfold Py.too_large. apply Qle_bool_iff.
Qed.

(* a record with its value block, a record whose block is empty, a record
   whose lf is a text, a last record with its value block *)
Definition hrv_records : list Py.value :=
  [ Py.PDict [("dateTime", Py.PStr "2024-01-15");
              ("value", Py.PDict [("dailyRmssd", Py.PFloat (349 # 10));
                                  ("lf", Py.PInt 300); ("hf", Py.PInt 150)])];
    Py.PDict [("dateTime", Py.PStr "2024-01-14"); ("value", Py.PDict [])];
    Py.PDict [("dateTime", Py.PStr "2024-01-13");
              ("value", Py.PDict [("lf", Py.PStr "high")])];
    Py.PDict [("dateTime", Py.PStr "2024-01-12");
              ("value", Py.PDict [("lf", Py.PInt 280); ("hf", Py.PInt 140)])] ].

Lemma hrv_points_are_records_with_a_value_block_witness :
  Datetime.strptime_ymd "2024-01-15" = inr (Datetime.mk_datetime 2024 1 15 0 0 0) /\
  filter with_value_block (before_first hrv_raises hrv_records)
  = [ Py.PDict [("dateTime", Py.PStr "2024-01-15");
                ("value", Py.PDict [("dailyRmssd", Py.PFloat (349 # 10));
                                    ("lf", Py.PInt 300); ("hf", Py.PInt 150)])] ] /\
  exists points,
    FitbitDataProcessor.normalize_daily sample_cfg "hrv" "2024-01-15"
      (Py.PDict [("hrv", Py.PList hrv_records)]) sample_state
    = (inr points, add sample_state [ELog ERROR "Error processing hrv"]) /\
    Forall2 (hrv_emitted sample_cfg "hrv")
      [ Py.PDict [("dateTime", Py.PStr "2024-01-15");
                  ("value", Py.PDict [("dailyRmssd", Py.PFloat (349 # 10));
                                      ("lf", Py.PInt 300); ("hf", Py.PInt 150)])] ]
      points.
Proof.
  split; [reflexivity|]. split; [reflexivity|].
  destruct (proj1 (@hrv_points_are_records_with_a_value_block sample_cfg "2024-01-15" _
                     [("hrv", Py.PList hrv_records)] _ sample_state eq_refl eq_refl))
    as (points & Hrun & Hpre & _).
  exists points. split; [exact Hrun|exact Hpre].
Defined.

(** ** Intraday data *)

Section Intraday.

Variable cfg : Config.
Variable metric : string.
Variable date : string.

Import Py.

Definition intraday_measurement : string := (replace_char "/" "_" metric ++ "_intraday")%string.

(* the health tags go to the heart-rate and HRV metrics only *)
Definition intraday_tagged (p : Point) : Point :=
  if (String.eqb metric "activities/heart" || String.eqb metric "hrv")%bool
  then FitbitDataProcessor.health_tags cfg p else p.

(* the entry holds both a time and a value *)
Definition timed_value (r : value) : bool :=
  match r with
  | PDict items => (has_key "time" items && has_key "value" items)%bool
  | _ => false
  end.

Definition intraday_emitted (r : value) (p : Point) : Prop :=
  exists items clock_time t v,
    r = PDict items /\ lookup "time" items = Some (PStr clock_time) /\
    Datetime.strptime_ymd_hms (date ++ " " ++ clock_time) = inr t /\
    lookup "value" items = Some v /\
    p = intraday_tagged (mk_Point intraday_measurement [("value", v)] [] (Some t)).

Opaque Datetime.strptime_ymd_hms.

Lemma intraday_iteration :
  iteration (FitbitDataProcessor.intraday_body cfg metric intraday_measurement date)
            timed_value intraday_emitted.
Proof.
  intros r points.
  destruct r as [| |z|q|s|l|items].
  1-4: left; exists TypeError; reflexivity.
  - unfold FitbitDataProcessor.intraday_body, bind, lift, ret. simpl.
    destruct (substr_in "time" s); simpl.
    + destruct (substr_in "value" s); simpl.
      * left. exists TypeError. reflexivity.
      * right. left. auto.
    + right. left. auto.
  - unfold FitbitDataProcessor.intraday_body, bind, lift, ret. simpl.
    destruct (existsb (is_str "time") l); simpl.
    + destruct (existsb (is_str "value") l); simpl.
      * left. exists TypeError. reflexivity.
      * right. left. auto.
    + right. left. auto.
  - unfold FitbitDataProcessor.intraday_body, bind, lift, ret, append, timed_value,
      has_key, FitbitDataProcessor.intraday_timestamp. simpl.
    destruct (lookup "time" items) as [tv|] eqn:Htv; simpl; [|right; left; auto].
    destruct (lookup "value" items) as [v|] eqn:Hv; simpl; [|right; left; auto].
    destruct tv as [| | | |clock_time| |]; simpl;
      try (left; exists ValueError; reflexivity).
    match goal with |- context [Datetime.strptime_ymd_hms ?x] =>
      destruct (Datetime.strptime_ymd_hms x) as [e|t] eqn:Ht end; simpl.
    + left. exists e. reflexivity.
    + right. right. split; [reflexivity|]. eexists. split; [|reflexivity].
      exists items, clock_time, t, v. unfold intraday_tagged.
      split; [reflexivity|]. split; [exact Htv|]. split; [exact Ht|].
      split; [exact Hv|reflexivity].
Qed.

(* an entry that stops the intraday rule: an object with both keys whose
   time is not a text or does not make a time of the request date; a string
   or a list in which both names are found; any other value *)
Definition intraday_raises (r : value) : bool :=
  match r with
  | PDict items =>
      (timed_value r &&
       match lookup "time" items with
       | Some (PStr clock_time) =>
           failed (Datetime.strptime_ymd_hms (date ++ " " ++ clock_time))
       | _ => true
       end)%bool
  | PStr s => (substr_in "time" s && substr_in "value" s)%bool
  | PList l => (existsb (is_str "time") l && existsb (is_str "value") l)%bool
  | _ => true
  end.

Lemma intraday_raises_on r :
  raises_on (FitbitDataProcessor.intraday_body cfg metric intraday_measurement date) r
  = intraday_raises r.
Proof.
  unfold raises_on. destruct r as [| |z|q|s|l|items]; try reflexivity.
  - unfold FitbitDataProcessor.intraday_body, bind, lift, ret. simpl.
    destruct (substr_in "time" s); simpl; [|reflexivity].
    now destruct (substr_in "value" s).
  - unfold FitbitDataProcessor.intraday_body, bind, lift, ret. simpl.
    destruct (existsb (is_str "time") l); simpl; [|reflexivity].
    now destruct (existsb (is_str "value") l).
  - unfold FitbitDataProcessor.intraday_body, bind, lift, ret, append, intraday_raises,
      timed_value, has_key, FitbitDataProcessor.intraday_timestamp. simpl.
    destruct (lookup "time" items) as [tv|] eqn:Htv; simpl; [|reflexivity].
    destruct (lookup "value" items) as [v|] eqn:Hv; simpl; [|reflexivity].
    destruct tv as [| | | |clock_time| |]; simpl; try reflexivity.
    match goal with |- context [Datetime.strptime_ymd_hms ?x] =>
      destruct (Datetime.strptime_ymd_hms x) as [e|t] eqn:Ht end; reflexivity.
Qed.

Transparent Datetime.strptime_ymd_hms.

End Intraday.

(** For a payload whose first key containing "intraday" (in any case) leads
    to an object with a dataset list, the intraday result holds, in order,
    one Point for each entry that has both a time and a value, among the
    entries before the first one that makes the rule raise: the single field
    value, the time of day joined to the request date, the measurement named
    after the metric with the suffix _intraday, and the health tags for the
    heart-rate and HRV metrics only.  The rule raises on an object with both
    keys whose time is not a text or does not make a time of the request
    date, on a string or a list in which both names are found, and on any
    other value; the entries from that one on get no Point, and the error is
    logged, after the line that announces the processing, exactly when there
    is such an entry.  When no entry raises, every such entry has its
    Point. *)
Theorem intraday_points_are_timed_values cfg metric date d k inner entries s :
  FitbitDataProcessor.find_intraday_key (map fst d) = Some k ->
  Py.lookup k d = Some (Py.PDict inner) ->
  Py.lookup "dataset" inner = Some (Py.PList entries) ->
  exists points,
    FitbitDataProcessor.normalize_intraday cfg metric date (Py.PDict d) s
    = (inr points,
       add s (ELog INFO ("Processing intraday points for " ++ metric)
              :: if existsb (intraday_raises date) entries
                 then [ELog ERROR ("Error processing intraday " ++ metric)]
                 else [])) /\
    Forall2 (intraday_emitted cfg metric date)
            (filter timed_value (before_first (intraday_raises date) entries)) points /\
    ((forall r, In r entries ->
        forall pts e,
          FitbitDataProcessor.intraday_body cfg metric (intraday_measurement metric) date r pts
          <> (inl e, pts)) ->
     existsb (intraday_raises date) entries = false /\
     Forall2 (intraday_emitted cfg metric date) (filter timed_value entries) points).
Proof.
  intros Hk Hl Hd.
  pose proof (@normalize_intraday_loop cfg metric date d k inner entries s Hk Hl Hd) as Hrun.
  cbv zeta in Hrun. fold (intraday_measurement metric) in Hrun.
  pose proof (intraday_raises_on cfg metric date) as Hr.
  rewrite (before_first_ext _ _ entries Hr), (existsb_ext _ _ entries Hr) in Hrun.
  pose proof (reached_emitted (intraday_iteration cfg metric date) entries) as Hreach.
  rewrite (before_first_ext _ _ entries Hr) in Hreach.
  eexists. split; [exact Hrun|]. split; [exact Hreach|].
  intros Hok.
  assert (Hnone : existsb (intraday_raises date) entries = false).
  { apply existsb_none. intros r Hin. rewrite <- Hr.
    exact (never_raises (intraday_iteration cfg metric date) r (Hok r Hin)). }
  split; [exact Hnone|].
  rewrite (before_first_all _ _ Hnone) in *. exact Hreach.
Qed.

Definition intraday_payload : Py.value :=
  Py.PDict [ ("activities-heart", Py.PList []);
             ("activities-heart-intraday",
              Py.PDict [("dataset",
                         Py.PList [ Py.PDict [("time", Py.PStr "00:01:00"); ("value", Py.PInt 61)];
                                    Py.PDict [("time", Py.PStr "00:02:00")];
                                    Py.PDict [("time", Py.PStr "24:03:00"); ("value", Py.PInt 63)];
                                    Py.PDict [("time", Py.PStr "00:04:00"); ("value", Py.PInt 64)] ])]) ].

(* the entries of the payload *)
Definition intraday_entries : list Py.value :=
  [ Py.PDict [("time", Py.PStr "00:01:00"); ("value", Py.PInt 61)];
    Py.PDict [("time", Py.PStr "00:02:00")];
    Py.PDict [("time", Py.PStr "24:03:00"); ("value", Py.PInt 63)];
    Py.PDict [("time", Py.PStr "00:04:00"); ("value", Py.PInt 64)] ].

Lemma intraday_points_are_timed_values_witness :
  filter timed_value (before_first (intraday_raises "2024-01-15") intraday_entries)
  = [Py.PDict [("time", Py.PStr "00:01:00"); ("value", Py.PInt 61)]] /\
  exists points,
    FitbitDataProcessor.normalize_intraday sample_cfg "activities/heart" "2024-01-15"
      intraday_payload sample_state
    = (inr points,
       add sample_state
           [ ELog INFO "Processing intraday points for activities/heart";
             ELog ERROR "Error processing intraday activities/heart" ]) /\
    Forall2 (intraday_emitted sample_cfg "activities/heart" "2024-01-15")
            [Py.PDict [("time", Py.PStr "00:01:00"); ("value", Py.PInt 61)]] points.
Proof.
  split; [reflexivity|].
  destruct (@intraday_points_are_timed_values sample_cfg "activities/heart" "2024-01-15"
              [ ("activities-heart", Py.PList []);
                ("activities-heart-intraday",
                 Py.PDict [("dataset", Py.PList intraday_entries)]) ]
              "activities-heart-intraday" _ _ sample_state eq_refl eq_refl eq_refl)
    as (points & Hrun & Hpre & _).
  exists points. split; [exact Hrun|exact Hpre].
Defined.

(** A payload that is an object with no key containing "intraday" gives an
    empty result and a warning, not an error. *)
Theorem intraday_without_dataset_is_empty cfg metric date d s :
  d <> [] ->
  FitbitDataProcessor.find_intraday_key (map fst d) = None ->
  FitbitDataProcessor.normalize_intraday cfg metric date (Py.PDict d) s
  = (inr [], add s [ELog WARNING ("No intraday dataset found for " ++ metric)]).
Proof.
  intros Hne Hk. unfold FitbitDataProcessor.normalize_intraday.
  assert (Ht : Py.truthy (Py.PDict d) = true) by (destruct d; [congruence|reflexivity]).
  rewrite Ht. cbn [negb]. unfold FitbitDataProcessor.find_dataset. simpl.
  rewrite Hk. reflexivity.
Qed.

Lemma intraday_without_dataset_is_empty_witness :
  [("activities-steps", Py.PList [])] <> [] /\
  FitbitDataProcessor.normalize_intraday sample_cfg "activities/steps" "2024-01-15"
    (Py.PDict [("activities-steps", Py.PList [])]) sample_state
  = (inr [], add sample_state
               [ELog WARNING "No intraday dataset found for activities/steps"]).
Proof.
  assert (H : [("activities-steps", Py.PList (@nil Py.value))] <> []) by discriminate.
  split; [exact H|].
  exact (@intraday_without_dataset_is_empty sample_cfg "activities/steps" "2024-01-15"
           [("activities-steps", Py.PList [])] sample_state H eq_refl).
Defined.

(** ** The shape of every Point *)

(** Tagging a Point with the health conditions adds one tag "true" per
    enabled condition, in the order of the configuration, after the tags the
    Point already has, and none for a disabled condition; the measurement, the
    fields and the time are unchanged. *)
Theorem health_tags_are_the_enabled_conditions cfg p :
  tags (FitbitDataProcessor.health_tags cfg p)
  = tags p ++ map (fun ce => (fst ce, "true")) (filter snd (HEALTH_CONDITIONS cfg)) /\
  measurement (FitbitDataProcessor.health_tags cfg p) = measurement p /\
  fields (FitbitDataProcessor.health_tags cfg p) = fields p /\
  time (FitbitDataProcessor.health_tags cfg p) = time p.
Proof.
  destruct (health_tags_fold (HEALTH_CONDITIONS cfg) p) as (Hm & Hf & Ht & Hg).
  unfold FitbitDataProcessor.health_tags. auto.
Qed.

(* a Point of measurement [m] with at least one field and a time *)
Definition well_formed (m : string) (p : Point) : Prop :=
  measurement p = m /\ fields p <> [] /\ time p <> None.

Lemma health_tags_keep cfg p :
  measurement (FitbitDataProcessor.health_tags cfg p) = measurement p /\
  fields (FitbitDataProcessor.health_tags cfg p) = fields p /\
  time (FitbitDataProcessor.health_tags cfg p) = time p.
Proof.
  destruct (health_tags_fold (HEALTH_CONDITIONS cfg) p) as (Hm & Hf & Ht & _).
  unfold FitbitDataProcessor.health_tags. auto.
Qed.

Lemma well_formed_tagged cfg m p :
  well_formed m p -> well_formed m (FitbitDataProcessor.health_tags cfg p).
Proof.
  intros (Hm & Hf & Ht).
  destruct (health_tags_keep cfg p) as (Hm' & Hf' & Ht').
  unfold well_formed. rewrite Hm', Hf', Ht'. auto.
Qed.

Lemma well_formed_built m fs t :
  fs <> [] -> well_formed m (mk_Point m fs [] (Some t)).
Proof. intros H. unfold well_formed. simpl. repeat split; auto. discriminate. Qed.

Lemma loop_points_satisfy body selected emitted_for (P : Point -> Prop) :
  iteration body selected emitted_for ->
  (forall r p, emitted_for r p -> P p) ->
  forall records, Forall P (snd (for_each records body [])).
Proof.
  intros Hit HP records.
  destruct (loop_prefix Hit records []) as (res & new & k & Hrun & Hpre).
  simpl in Hrun. rewrite Hrun. simpl.
  clear Hrun. induction Hpre as [|r p l l' Hrp _ IH]; constructor; eauto.
Qed.

(* a rule that loops over the list kept under a key of the payload *)
Lemma keyed_rule_points_satisfy (body : Py.value -> M (list Point) unit)
      (k : string) (data : Py.value) (P : Point -> Prop) :
  (forall records, Forall P (snd (for_each records body []))) ->
  Forall P (snd ((c <- lift (FitbitDataProcessor.has data k) ;;
                  if c then
                    l <- lift (Py.getitem data k) ;;
                    records <- lift (Py.iter l) ;;
                    for_each records body
                  else ret tt) [])).
Proof.
  intros H. unfold bind, lift, ret.
  destruct (FitbitDataProcessor.has data k) as [e|[|]]; simpl; try constructor.
  destruct (Py.getitem data k) as [e|l]; simpl; try constructor.
  destruct (Py.iter l) as [e|records]; simpl; try constructor.
  apply H.
Qed.

Lemma daily_rules_points_are_well_formed cfg metric m t data :
  Forall (well_formed m) (snd (FitbitDataProcessor.daily_rules cfg metric m t data [])).
Proof.
  unfold FitbitDataProcessor.daily_rules.
  destruct (String.eqb metric "activities/heart").
  { unfold FitbitDataProcessor.heart_rule, bind, lift, ret, append.
    destruct (FitbitDataProcessor.has data "activities-heart") as [e|[|]]; simpl;
      try constructor.
    destruct (Py.getitem data "activities-heart") as [e|l]; simpl; try constructor.
    destruct (Py.getitem0 l) as [e|first]; simpl; try constructor.
    destruct (Py.getitem first "value") as [e|hd]; simpl; try constructor.
    destruct (Py.contains hd "restingHeartRate") as [e|[|]]; simpl; try constructor.
    destruct (Py.getitem hd "restingHeartRate") as [e|rhr]; simpl; constructor;
      [|constructor].
    apply well_formed_tagged. apply well_formed_built. discriminate. }
  destruct (String.eqb metric "sleep").
  { apply keyed_rule_points_satisfy.
    eapply loop_points_satisfy; [apply (sleep_iteration cfg m)|].
    intros r p (items & t' & _ & _ & ->). unfold sleep_point.
    apply well_formed_tagged. apply well_formed_built. discriminate. }
  destruct (String.eqb metric "hrv").
  { apply keyed_rule_points_satisfy.
    eapply loop_points_satisfy; [apply (hrv_iteration cfg m)|].
    intros r p (items & block & t' & ratio & _ & _ & _ & _ & ->). unfold hrv_point.
    apply well_formed_tagged. apply well_formed_built. discriminate. }
  destruct (String.eqb metric "spo2").
  { apply keyed_rule_points_satisfy.
    eapply loop_points_satisfy; [apply (spo2_iteration m)|].
    intros r p (items & block & t' & _ & _ & _ & ->).
    apply well_formed_built. discriminate. }
  apply keyed_rule_points_satisfy.
  eapply loop_points_satisfy; [apply (generic_iteration m)|].
  intros r p (items & t' & v & _ & _ & _ & ->).
  apply well_formed_built. discriminate.
Qed.

Lemma normalize_daily_well_formed cfg metric date data s points s' :
  FitbitDataProcessor.normalize_daily cfg metric date data s = (inr points, s') ->
  Forall (well_formed (Py.replace_char "/" "_" metric)) points.
Proof.
  unfold FitbitDataProcessor.normalize_daily.
  destruct (negb (Py.truthy data)).
  { intros H. inversion H. constructor. }
  unfold bind, lift. destruct (Datetime.strptime_ymd date) as [e|t]; [discriminate|].
  pose proof (daily_rules_points_are_well_formed cfg metric
                (Py.replace_char "/" "_" metric) t data) as Hw.
  destruct (FitbitDataProcessor.daily_rules cfg metric _ t data []) as [[e|u] pts];
    simpl in Hw; unfold log, emit, ret; intros H; inversion H; subst; exact Hw.
Qed.

(** Every Point the daily normalization returns, for any metric and any
    payload, also after an error inside a rule, carries the metric's name
    with its slashes replaced by underscores as measurement, at least one
    field, and a time. *)
Theorem daily_points_are_well_formed cfg metric date data s points s' :
  FitbitDataProcessor.normalize_daily cfg metric date data s = (inr points, s') ->
  Forall (well_formed (Py.replace_char "/" "_" metric)) points.
Proof. apply normalize_daily_well_formed. Qed.

Lemma daily_points_are_well_formed_witness :
  FitbitDataProcessor.normalize_daily sample_cfg "sleep" "2024-01-15" C8_payload sample_state
  = (inr [ sleep_point sample_cfg "sleep" [("dateOfSleep", Py.PStr "2024-01-15")]
                       (Datetime.mk_datetime 2024 1 15 0 0 0) ],
     add sample_state [ELog ERROR "Error processing sleep"]) /\
  Forall (well_formed "sleep")
         [ sleep_point sample_cfg "sleep" [("dateOfSleep", Py.PStr "2024-01-15")]
                       (Datetime.mk_datetime 2024 1 15 0 0 0) ].
Proof.
  split; [reflexivity|].
  exact (@daily_points_are_well_formed sample_cfg "sleep" "2024-01-15" C8_payload
           sample_state _ _ eq_refl).
Defined.

(* an intraday Point: the single field value, a time, and tags only for the
   heart-rate and HRV metrics *)
Definition intraday_shaped (metric : string) (p : Point) : Prop :=
  measurement p = intraday_measurement metric /\
  (exists v, fields p = [("value", v)]) /\
  time p <> None /\
  (tags p <> [] -> metric = "activities/heart" \/ metric = "hrv").

Lemma normalize_intraday_well_formed cfg metric date data s points s' :
  FitbitDataProcessor.normalize_intraday cfg metric date data s = (inr points, s') ->
  Forall (intraday_shaped metric) points.
Proof.
  assert (Hloop : forall entries,
    Forall (intraday_shaped metric)
      (snd (for_each entries
              (FitbitDataProcessor.intraday_body cfg metric (intraday_measurement metric) date)
              []))).
  { eapply loop_points_satisfy; [apply (intraday_iteration cfg metric date)|].
    intros r p (items & ct & t & v & _ & _ & _ & _ & ->).
    unfold intraday_tagged, intraday_shaped.
    destruct (String.eqb metric "activities/heart" || String.eqb metric "hrv")%bool eqn:Hm.
    - destruct (health_tags_keep cfg
                  (mk_Point (intraday_measurement metric) [("value", v)] [] (Some t)))
        as (Hm' & Hf' & Ht').
      rewrite Hm', Hf', Ht'. simpl. repeat split; eauto; try discriminate.
      intros _. apply orb_true_iff in Hm.
      destruct Hm as [H|H]; apply String.eqb_eq in H; auto.
    - simpl. repeat split; eauto; try discriminate. intros H. now destruct H. }
  unfold FitbitDataProcessor.normalize_intraday.
  destruct (negb (Py.truthy data)).
  { intros H. inversion H. constructor. }
  destruct (FitbitDataProcessor.find_dataset data) as [e|[dataset|]].
  - intros H. inversion H. constructor.
  - destruct (Py.len dataset) as [e|n].
    + intros H. inversion H. constructor.
    + unfold bind at 1. unfold log at 1, emit at 1. cbn beta iota.
      fold (intraday_measurement metric).
      unfold bind at 1. unfold lift at 1.
      destruct (Py.iter dataset) as [e|entries].
      * unfold bind, log, emit, ret. intros H. inversion H. constructor.
      * specialize (Hloop entries).
        destruct (for_each entries _ []) as [[e|u] pts]; simpl in Hloop;
          unfold bind, log, emit, ret; intros H; inversion H; subst; exact Hloop.
  - intros H. inversion H. constructor.
Qed.

(** Every Point the intraday normalization returns, for any metric and any
    payload, is named after the metric with the suffix _intraday, holds the
    single field value and a time, and has tags only when the metric is the
    heart rate or HRV. *)
Theorem intraday_points_are_well_formed cfg metric date data s points s' :
  FitbitDataProcessor.normalize_intraday cfg metric date data s = (inr points, s') ->
  Forall (intraday_shaped metric) points.
Proof. apply normalize_intraday_well_formed. Qed.

Lemma intraday_points_are_well_formed_witness :
  exists points s',
    FitbitDataProcessor.normalize_intraday sample_cfg "activities/heart" "2024-01-15"
      intraday_payload sample_state = (inr points, s') /\
    Forall (intraday_shaped "activities/heart") points.
Proof.
  remember (FitbitDataProcessor.normalize_intraday sample_cfg "activities/heart"
              "2024-01-15" intraday_payload sample_state) as run eqn:Hrun.
  destruct run as [[e|points] s'].
  - exfalso. vm_compute in Hrun. discriminate.
  - exists points, s'. split; [reflexivity|].
    exact (@intraday_points_are_well_formed sample_cfg "activities/heart" "2024-01-15"
             intraday_payload sample_state points s' (eq_sym Hrun)).
Defined.

(** ** The bounds of the risk score *)

Ltac split_result H :=
  repeat match type of H with
         | context [match ?x with inl _ => _ | inr _ => _ end] =>
             destruct x; try discriminate
         | context [if ?b then _ else _] => destruct b
         end.

Lemma heart_block_adds hr_data risk risk' :
  FitbitDataProcessor.heart_block hr_data risk = inr risk' ->
  risk' = risk \/ risk' = (risk + 30)%Q.
Proof.
  unfold FitbitDataProcessor.heart_block, Py.rbind, Py.ok. intros H.
  split_result H; inversion H; auto.
Qed.

Lemma steps_block_adds steps_data risk risk' :
  FitbitDataProcessor.steps_block steps_data risk = inr risk' ->
  risk' = risk \/ risk' = (risk + 25)%Q.
Proof.
  unfold FitbitDataProcessor.steps_block, Py.rbind, Py.ok. intros H.
  split_result H; inversion H; auto.
Qed.

Lemma hrv_scan_adds records : forall risk risk',
  FitbitDataProcessor.hrv_scan records risk = inr risk' ->
  risk' = risk \/ risk' = (risk + 45)%Q.
Proof.
  induction records as [|r records IH]; intros risk risk' H.
  - inversion H. auto.
  - cbn [FitbitDataProcessor.hrv_scan] in H. unfold Py.rbind in H.
    destruct (FitbitDataProcessor.has r "value") as [e|[|]]; try discriminate.
    + unfold Py.ok in H. split_result H; inversion H; auto.
    + now apply IH.
Qed.

Lemma hrv_block_adds hrv_data risk risk' :
  FitbitDataProcessor.hrv_block hrv_data risk = inr risk' ->
  risk' = risk \/ risk' = (risk + 45)%Q.
Proof.
  unfold FitbitDataProcessor.hrv_block, Py.rbind. intros H.
  destruct (FitbitDataProcessor.present hrv_data "hrv") as [e|[|]]; try discriminate.
  - destruct (Py.getitem hrv_data "hrv") as [e|l]; try discriminate.
    destruct (Py.iter l) as [e|records]; try discriminate.
    now apply hrv_scan_adds in H.
  - inversion H. auto.
Qed.

Lemma calculate_pem_risk_bounded w fuel date s :
  exists q s',
    FitbitDataProcessor.calculate_pem_risk w fuel date s = (inr (Py.PFloat q), s') /\
    (0 <= q)%Q /\ (q <= 100)%Q.
Proof.
  rewrite calculate_pem_risk_run.
  destruct (FitbitDataProcessor.pem_risk_try w fuel date s) as [[e|v] s'] eqn:Htry.
  { exists 0%Q. eexists. split; [reflexivity|]. split; unfold Qle; simpl; lia. }
  unfold FitbitDataProcessor.pem_risk_try, bind, lift, ret in Htry.
  destruct (FitbitAPI.make_request w fuel "activities/heart" (Some date) None s)
    as [[e|hr] s1]; try discriminate.
  destruct (FitbitDataProcessor.heart_block hr 0) as [e|r1] eqn:H1; try discriminate.
  destruct (FitbitAPI.make_request w fuel "activities/steps" (Some date) None s1)
    as [[e|st] s2]; try discriminate.
  destruct (FitbitDataProcessor.steps_block st r1) as [e|r2] eqn:H2; try discriminate.
  destruct (FitbitAPI.make_request w fuel "hrv" (Some date) None s2)
    as [[e|hv] s3]; try discriminate.
  destruct (FitbitDataProcessor.hrv_block hv r2) as [e|r3] eqn:H3; try discriminate.
  inversion Htry. subst v s3. clear Htry.
  apply heart_block_adds in H1. apply steps_block_adds in H2. apply hrv_block_adds in H3.
  exists r3, s'.
  destruct H1 as [-> | ->]; destruct H2 as [-> | ->]; destruct H3 as [-> | ->];
    (split; [reflexivity|]); split; unfold Qle; simpl; lia.
Qed.

(** calculate_pem_risk never raises, whatever the three fetches return or
    raise, and its result is a float between 0 and 100. *)
Theorem pem_risk_is_between_0_and_100 w fuel date s :
  exists q s',
    FitbitDataProcessor.calculate_pem_risk w fuel date s = (inr (Py.PFloat q), s') /\
    (0 <= q)%Q /\ (q <= 100)%Q.
Proof. apply calculate_pem_risk_bounded. Qed.



(** ** The date main hands to the processors *)

Section DateRoundTrip.

Import Datetime.

Lemma digit_of_digit_char x : 0 <= x <= 9 -> Py.digit (digit_char x) = Some x.
Proof.
  intros H.
  assert (Hx : x = 0 \/ x = 1 \/ x = 2 \/ x = 3 \/ x = 4 \/ x = 5 \/ x = 6 \/ x = 7 \/
               x = 8 \/ x = 9) by lia.
  repeat (destruct Hx as [-> | Hx]; [reflexivity|]). subst. reflexivity.
Qed.

Lemma re_Y_pad4 y rest :
  0 <= y <= 9999 -> re_Y (pad4 y ++ rest) = Some (y, rest).
Proof.
  intros H. unfold pad4, pad2. cbn [String.append]. unfold re_Y, digit.
  rewrite !digit_of_digit_char
    by (match goal with |- _ <= ?a mod 10 <= _ =>
          pose proof (Z.mod_pos_bound a 10); lia end).
  f_equal. f_equal. Z.div_mod_to_equations. lia.
Qed.

Lemma re_m_pad2 m rest :
  1 <= m <= 12 -> re_m (pad2 m ++ rest) = Some (m, rest).
Proof.
  intros H.
  assert (Hm : m = 1 \/ m = 2 \/ m = 3 \/ m = 4 \/ m = 5 \/ m = 6 \/ m = 7 \/ m = 8 \/
               m = 9 \/ m = 10 \/ m = 11 \/ m = 12) by lia.
  repeat (destruct Hm as [-> | Hm]; [reflexivity|]). subst. reflexivity.
Qed.

Lemma re_d_pad2 d :
  1 <= d <= 31 -> re_d (pad2 d) = Some (d, EmptyString).
Proof.
  intros H.
  assert (Hd : d = 1 \/ d = 2 \/ d = 3 \/ d = 4 \/ d = 5 \/ d = 6 \/ d = 7 \/ d = 8 \/
               d = 9 \/ d = 10 \/ d = 11 \/ d = 12 \/ d = 13 \/ d = 14 \/ d = 15 \/
               d = 16 \/ d = 17 \/ d = 18 \/ d = 19 \/ d = 20 \/ d = 21 \/ d = 22 \/
               d = 23 \/ d = 24 \/ d = 25 \/ d = 26 \/ d = 27 \/ d = 28 \/ d = 29 \/
               d = 30 \/ d = 31) by lia.
  repeat (destruct Hd as [-> | Hd]; [reflexivity|]). subst. reflexivity.
Qed.

Lemma days_in_month_bound y m : days_in_month y m <= 31.
Proof.
  unfold days_in_month.
  destruct (m =? 2); [destruct (is_leap y); lia|].
  destruct ((m =? 4) || (m =? 6) || (m =? 9) || (m =? 11))%bool; lia.
Qed.

(* the date of a datetime, at midnight *)
Definition midnight (t : datetime) : datetime :=
  mk_datetime (year t) (month t) (day t) 0 0 0.

(* what strftime('%Y-%m-%d') prints, strptime reads back *)
Lemma strptime_strftime t :
  valid t = true -> strptime_ymd (strftime_ymd t) = inr (midnight t).
Proof.
  intros Hv. unfold valid in Hv.
  repeat (apply andb_true_iff in Hv; destruct Hv as [Hv ?]).
  repeat match goal with
         | H : (_ <=? _) = true |- _ => apply Z.leb_le in H
         end.
  pose proof (days_in_month_bound (year t) (month t)) as Hb.
  unfold strptime_ymd, match_ymd, strftime_ymd, obind.
  rewrite re_Y_pad4 by lia. cbn [String.append lit]. cbn [Ascii.eqb Bool.eqb].
  cbn beta iota.
  change (String "-" (pad2 (day t))) with ("-" ++ pad2 (day t))%string.
  rewrite re_m_pad2 by lia. cbn [String.append lit Ascii.eqb Bool.eqb]. cbn beta iota.
  rewrite re_d_pad2 by lia.
  unfold checked, valid, midnight. cbn [year month day hour minute second].
  assert (Hok : ((1 <=? year t) && (year t <=? 9999) && (1 <=? month t) &&
                 (month t <=? 12) && (1 <=? day t) &&
                 (day t <=? days_in_month (year t) (month t)))%bool = true).
  { repeat (apply andb_true_iff; split); apply Z.leb_le; lia. }
  rewrite Hok. reflexivity.
Qed.

End DateRoundTrip.

(** The date main computes with strftime always parses back: with a clock
    that gives a real date, the daily normalization main calls returns for
    every metric and every payload, and never raises because of the date. *)
Theorem today_always_parses w s :
  Datetime.valid (clock w (List.length (trace s))) = true ->
  exists today,
    today_is w s = (inr today, s) /\
    Datetime.strptime_ymd today = inr (midnight (clock w (List.length (trace s)))) /\
    forall cfg metric data s0,
    exists points logged,
      FitbitDataProcessor.normalize_daily cfg metric today data s0
      = (inr points, add s0 logged).
Proof.
  intros Hv. exists (Datetime.strftime_ymd (clock w (List.length (trace s)))).
  split; [reflexivity|]. split; [now apply strptime_strftime|].
  intros cfg metric data s0.
  rewrite (normalize_daily_run cfg metric _ data s0 (strptime_strftime _ Hv)).
  destruct (negb (Py.truthy data)).
  - exists [], []. now rewrite add_nil.
  - destruct (FitbitDataProcessor.daily_rules cfg metric _ _ data []) as [[e|u] points].
    + eexists. eexists. reflexivity.
    + exists points, []. now rewrite add_nil.
Qed.

Lemma today_always_parses_witness :
  Datetime.valid (clock C1_world 0) = true /\
  exists today,
    today_is C1_world sample_state = (inr today, sample_state) /\
    Datetime.strptime_ymd today = inr (Datetime.mk_datetime 2024 1 15 0 0 0).
Proof.
  split; [reflexivity|].
  destruct (@today_always_parses C1_world sample_state eq_refl) as (today & H1 & H2 & _).
  exists today. split; [exact H1|exact H2].
Defined.

(** ** The batch of a run *)

Section Batch.

Variable w : World.
Variable cfg : Config.
Variable fuel : nat.

(* the Point main builds from the risk score *)
Definition risk_point (score : Py.value) (t : Datetime.datetime) : Point :=
  mk_Point "pem_risk" [("risk_score", score)]
           [ ("long_covid", str_bool (condition "long_covid" (HEALTH_CONDITIONS cfg)));
             ("pots", str_bool (condition "pots" (HEALTH_CONDITIONS cfg))) ]
           (Some t).

Definition is_risk_point (p : Point) : bool := String.eqb (measurement p) "pem_risk".

Definition not_risk (p : Point) : Prop := measurement p <> "pem_risk".

Lemma extend_each_satisfy (P : Point -> Prop) process metrics :
  (forall metric, In metric metrics ->
     forall s pts s', process metric s = (inr pts, s') -> Forall P pts) ->
  forall acc s pts s',
    Forall P acc ->
    extend_each process metrics acc s = (inr pts, s') -> Forall P pts.
Proof.
  induction metrics as [|m metrics IH]; intros Hp acc s pts s' Hacc H.
  - inversion H. now subst.
  - cbn [extend_each] in H. unfold bind at 1 in H.
    destruct (process m s) as [[e|points] s1] eqn:Hm; [discriminate|].
    unfold bind at 1 in H.
    destruct (sleep (1 # 2) s1) as [[e|u] s2]; [discriminate|].
    apply (IH (fun metric Hin => Hp metric (or_intror Hin)) _ _ _ _) in H; auto.
    apply Forall_app. split; [exact Hacc|].
    exact (Hp m (or_introl eq_refl) _ _ _ Hm).
Qed.

Lemma daily_points_not_risk metric today s pts s' :
  In metric DAILY_METRICS ->
  FitbitDataProcessor.process_daily_summary w cfg fuel metric today s = (inr pts, s') ->
  Forall not_risk pts.
Proof.
  intros Hin H. unfold FitbitDataProcessor.process_daily_summary, bind in H.
  destruct (FitbitAPI.make_request w fuel metric (Some today) None s) as [[e|data] s1];
    [discriminate|].
  apply normalize_daily_well_formed in H.
  eapply Forall_impl; [|exact H].
  intros p (Hm & _) Hr. rewrite Hr in Hm. clear - Hin Hm.
  simpl in Hin. repeat (destruct Hin as [<- | Hin]; [discriminate|]). destruct Hin.
Qed.

Lemma intraday_points_not_risk metric today s pts s' :
  In metric INTRADAY_METRICS ->
  FitbitDataProcessor.process_intraday_data w cfg fuel metric today "1min" s = (inr pts, s') ->
  Forall not_risk pts.
Proof.
  intros Hin H. unfold FitbitDataProcessor.process_intraday_data, bind in H.
  destruct (FitbitAPI.make_request w fuel _ (Some today) (Some "1min") s) as [[e|data] s1];
    [discriminate|].
  apply normalize_intraday_well_formed in H.
  eapply Forall_impl; [|exact H].
  intros p (Hm & _) Hr. rewrite Hr in Hm. clear - Hin Hm.
  simpl in Hin. repeat (destruct Hin as [<- | Hin]; [discriminate|]). destruct Hin.
Qed.

Lemma filter_not_risk pts : Forall not_risk pts -> filter is_risk_point pts = [].
Proof.
  induction 1 as [|p pts Hp _ IH]; [reflexivity|].
  simpl. unfold is_risk_point. apply String.eqb_neq in Hp. now rewrite Hp.
Qed.

(* the batch: the Points of the metrics, then the risk Point when asked for *)
Lemma collect_batch today s pts s' :
  collect w cfg fuel today s = (inr pts, s') ->
  exists metric_points,
    Forall not_risk metric_points /\
    if pem_enabled cfg
    then exists q t, (0 <= q)%Q /\ (q <= 100)%Q /\
                     pts = metric_points ++ [risk_point (Py.PFloat q) t]
    else pts = metric_points.
Proof.
  unfold collect. intros H.
  unfold bind at 1 in H. unfold log at 1, emit at 1 in H. cbn beta iota in H.
  unfold bind at 1 in H.
  match type of H with context [extend_each ?p DAILY_METRICS [] ?st] =>
    destruct (extend_each p DAILY_METRICS [] st) as [[e|p1] s1] eqn:H1 end;
    [discriminate|].
  apply extend_each_satisfy with (P := not_risk) in H1;
    [|intros metric Hin s0 pts0 s0'; apply daily_points_not_risk; exact Hin|constructor].
  unfold bind at 1 in H. unfold log at 1, emit at 1 in H. cbn beta iota in H.
  unfold bind at 1 in H.
  match type of H with context [extend_each ?p INTRADAY_METRICS p1 ?st] =>
    destruct (extend_each p INTRADAY_METRICS p1 st) as [[e|p2] s2] eqn:H2 end;
    [discriminate|].
  apply extend_each_satisfy with (P := not_risk) in H2;
    [|intros metric Hin s0 pts0 s0'; apply intraday_points_not_risk; exact Hin|exact H1].
  exists p2. split; [exact H2|].
  destruct (pem_enabled cfg).
  - unfold bind at 1 in H. unfold log at 1, emit at 1 in H. cbn beta iota in H.
    unfold bind at 1 in H.
    match type of H with
      context [FitbitDataProcessor.calculate_pem_risk w fuel today ?st] =>
        destruct (calculate_pem_risk_bounded w fuel today st) as (q & s3 & Hq & Hlo & Hhi)
    end.
    rewrite Hq in H. unfold bind, now, log, emit, ret in H. simpl in H.
    inversion H. exists q. eexists. repeat split; auto.
  - inversion H. reflexivity.
Qed.

End Batch.

(** The batch of a run holds exactly one risk-score Point when long_covid or
    pem is enabled, and none otherwise.  The risk Point is the last Point of
    the batch; its measurement is pem_risk, its only field is the score, a
    float between 0 and 100, and its two tags are the long_covid and pots
    flags printed as True or False. *)
Theorem batch_has_one_risk_point_when_enabled w cfg fuel today s pts s' :
  collect w cfg fuel today s = (inr pts, s') ->
  List.length (filter is_risk_point pts) = (if pem_enabled cfg then 1 else 0)%nat /\
  (pem_enabled cfg = true ->
   exists metric_points q t,
     pts = metric_points ++ [risk_point cfg (Py.PFloat q) t] /\
     (0 <= q)%Q /\ (q <= 100)%Q).
Proof.
  intros H. destruct (collect_batch _ _ _ _ _ H) as (mp & Hmp & Hpts).
  destruct (pem_enabled cfg).
  - destruct Hpts as (q & t & Hlo & Hhi & ->). split.
    + rewrite filter_app, (filter_not_risk Hmp). reflexivity.
    + intros _. exists mp, q, t. auto.
  - subst pts. split; [|discriminate]. now rewrite (filter_not_risk Hmp).
Qed.

Lemma batch_has_one_risk_point_when_enabled_witness :
  exists pts s',
    collect C1_world sample_cfg 1 "2024-01-15" sample_state = (inr pts, s') /\
    List.length (filter is_risk_point pts) = 1%nat.
Proof.
  remember (collect C1_world sample_cfg 1 "2024-01-15" sample_state) as run eqn:Hrun.
  destruct run as [[e|pts] s'].
  - exfalso. vm_compute in Hrun. discriminate.
  - exists pts, s'. split; [reflexivity|].
    exact (proj1 (@batch_has_one_risk_point_when_enabled C1_world sample_cfg 1
                    "2024-01-15" sample_state pts s' (eq_sym Hrun))).
Defined.

(** ** The ways a run ends *)

Section Endings.

Variable w : World.
Variable cfg : Config.
Variable env : environ.
Variable fuel : nat.

(* a log line or a line printed to the console *)
Definition is_message (e : event) : bool :=
  match e with ELog _ _ | EPrint _ => true | _ => false end.

Definition completion : event := ELog INFO "Fitbit data sync completed".

(* what the except clause of main logs and prints *)
Definition reported : list event :=
  [ ELog ERROR "Error in main execution"; EPrint "Error";
    EPrint "Check the fitbit_sync.log file for detailed error information." ].

(* the variable is absent from the environment, or empty *)
Definition unset (var : string) : Prop :=
  env_lookup var env = None \/ env_lookup var env = Some "".

Lemma missing_vars_unset var :
  In var required_vars -> unset var -> In var (missing_vars env).
Proof.
  intros Hin Hu. unfold missing_vars. apply filter_In. split; [exact Hin|].
  destruct Hu as [-> | ->]; reflexivity.
Qed.

(* the run of main that refuses its configuration *)
Lemma main_refuses var s :
  In var required_vars -> unset var ->
  main w cfg env fuel s
  = (inr tt,
     add s [ ELog INFO "Starting Enhanced Fitbit data sync...";
             ELog ERROR "Missing required environment variables";
             ELog ERROR "Please check your .env file or environment variable configuration" ]).
Proof.
  intros Hin Hu. pose proof (missing_vars_unset Hin Hu) as Hm.
  unfold main. destruct (missing_vars env) as [|v vs]; [destruct Hm|].
  unfold bind, log, emit, add. simpl. rewrite <- !app_assoc. reflexivity.
Qed.

(* one of the constants the two constructors need is empty, or the sink
   cannot be reached *)
Definition unusable : Prop :=
  FITBIT_CLIENT_ID cfg = "" \/ FITBIT_CLIENT_SECRET cfg = "" \/
  FITBIT_ACCESS_TOKEN cfg = "" \/ FITBIT_REFRESH_TOKEN cfg = "" \/
  INFLUX_TOKEN cfg = "" \/ exists e, influx_connect w = Some e.

(* a constructor raises after one error line, and nothing else *)
Lemma startup_fails s :
  self s = FitbitAPI.new cfg -> unusable ->
  exists e reason,
    startup w cfg (started_run s)
    = (inl e, add s [ ELog INFO "Starting Enhanced Fitbit data sync...";
                      ELog ERROR reason ]).
Proof.
  intros Hs Hu.
  unfold startup, FitbitAPI.init, InfluxDBWriter.init, started_run, bind, get_self,
    log, emit, throw, ret, add.
  cbn [self trace]. rewrite Hs. cbn [FitbitAPI.new client_id client_secret access_token
                                     refresh_token Py.truthy].
  destruct (String.eqb (FITBIT_CLIENT_ID cfg) "") eqn:E1; cbn [negb andb].
  { do 2 eexists. cbn [self trace]. rewrite <- ?app_assoc. reflexivity. }
  destruct (String.eqb (FITBIT_CLIENT_SECRET cfg) "") eqn:E2; cbn [negb andb].
  { do 2 eexists. cbn [self trace]. rewrite <- ?app_assoc. reflexivity. }
  destruct (String.eqb (FITBIT_ACCESS_TOKEN cfg) "") eqn:E3; cbn [negb andb].
  { do 2 eexists. cbn [self trace]. rewrite <- ?app_assoc. reflexivity. }
  destruct (String.eqb (FITBIT_REFRESH_TOKEN cfg) "") eqn:E4; cbn [negb andb].
  { do 2 eexists. cbn [self trace]. rewrite <- ?app_assoc. reflexivity. }
  cbn [self trace].
  destruct (String.eqb (INFLUX_TOKEN cfg) "") eqn:E5; cbn [negb].
  { do 2 eexists. cbn [self trace]. rewrite <- ?app_assoc. reflexivity. }
  destruct (influx_connect w) as [e|] eqn:E6.
  { do 2 eexists. cbn [self trace]. rewrite <- ?app_assoc. reflexivity. }
  exfalso. apply String.eqb_neq in E1, E2, E3, E4, E5.
  destruct Hu as [H|[H|[H|[H|[H|(e & H)]]]]]; congruence.
Qed.

(* the run of main after a constructor has raised *)
Lemma main_after_failed_startup s e s1 :
  missing_vars env = [] ->
  startup w cfg (started_run s) = (inl e, s1) ->
  main w cfg env fuel s = (inr tt, add s1 (reported ++ [completion])).
Proof.
  intros Hm Hs. rewrite (@main_unfold w cfg env fuel s Hm), Hs.
  unfold on_error, completed, bind, log, emit, add, reported, completion. simpl.
  rewrite <- !app_assoc. reflexivity.
Qed.

(* the date the run works on, read from the clock once the sink is connected *)
Definition today_of (s : state) : string :=
  Datetime.strftime_ymd (clock w (List.length (trace s))).





(** *** a run without network *)

Hypothesis offline : forall n, api_get w n = Fails.

Lemma fetch_offline n ep date dl s :
  FitbitAPI.make_request w (S n) ep date dl s
  = (inr Py.PNone,
     add s (started w ep date dl s ++ [ELog ERROR ("Error fetching " ++ ep)])).
Proof.
  rewrite fetch_plain by (unfold next_answer; now rewrite offline).
  unfold next_answer. rewrite offline. unfold ended, answer_value, add. simpl.
  rewrite <- app_assoc. reflexivity.
Qed.

Lemma daily_offline n metric date s :
  exists s', FitbitDataProcessor.process_daily_summary w cfg (S n) metric date s
             = (inr [], s').
Proof.
  unfold FitbitDataProcessor.process_daily_summary, bind. rewrite fetch_offline.
  eexists. reflexivity.
Qed.

Lemma intraday_offline n metric date dl s :
  exists s', FitbitDataProcessor.process_intraday_data w cfg (S n) metric date dl s
             = (inr [], s').
Proof.
  unfold FitbitDataProcessor.process_intraday_data, bind. rewrite fetch_offline.
  eexists. reflexivity.
Qed.

Lemma extend_each_nothing process metrics :
  (forall metric s, exists s', process metric s = (inr [], s')) ->
  forall acc s, exists s', extend_each process metrics acc s = (inr acc, s').
Proof.
  intros Hp. induction metrics as [|m metrics IH]; intros acc s.
  - eexists. reflexivity.
  - cbn [extend_each]. unfold bind at 1. destruct (Hp m s) as (s1 & ->).
    unfold bind at 1.
    change (sleep (1 # 2) s1) with (@inr Py.exn unit tt, add s1 [ESleep (1 # 2)]).
    cbn beta iota. rewrite app_nil_r. apply IH.
Qed.

Lemma pem_risk_offline n date s :
  exists s', FitbitDataProcessor.calculate_pem_risk w (S n) date s
             = (inr (Py.PFloat 0), s').
Proof.
  rewrite calculate_pem_risk_run.
  unfold FitbitDataProcessor.pem_risk_try, bind, lift, ret.
  assert (H1 : FitbitDataProcessor.heart_block Py.PNone 0 = inr 0%Q) by reflexivity.
  assert (H2 : FitbitDataProcessor.steps_block Py.PNone 0 = inr 0%Q) by reflexivity.
  assert (H3 : FitbitDataProcessor.hrv_block Py.PNone 0 = inr 0%Q) by reflexivity.
  rewrite fetch_offline, H1. cbn beta iota.
  rewrite fetch_offline, H2. cbn beta iota.
  rewrite fetch_offline, H3. cbn beta iota.
  eexists. reflexivity.
Qed.

(* the batch of a run without network *)
Lemma collect_offline n today s :
  exists t s',
    collect w cfg (S n) today s
    = (inr (if pem_enabled cfg then [risk_point cfg (Py.PFloat 0) t] else []), s').
Proof.
  unfold collect. unfold bind at 1. unfold log at 1, emit at 1. cbn beta iota.
  unfold bind at 1.
  match goal with |- context [extend_each ?p DAILY_METRICS [] ?st] =>
    destruct (@extend_each_nothing p DAILY_METRICS
                (fun metric s0 => daily_offline n metric today s0) [] st) as (s1 & ->)
  end.
  unfold bind at 1. unfold log at 1, emit at 1. cbn beta iota.
  unfold bind at 1.
  match goal with |- context [extend_each ?p INTRADAY_METRICS [] ?st] =>
    destruct (@extend_each_nothing p INTRADAY_METRICS
                (fun metric s0 => intraday_offline n metric today "1min" s0) [] st)
      as (s2 & ->)
  end.
  destruct (pem_enabled cfg).
  - unfold bind at 1. unfold log at 1, emit at 1. cbn beta iota.
    unfold bind at 1.
    match goal with |- context [FitbitDataProcessor.calculate_pem_risk w (S n) today ?st] =>
      destruct (pem_risk_offline n today st) as (s3 & ->)
    end.
    unfold bind, now, log, emit, ret. simpl. do 2 eexists. reflexivity.
  - exists (clock w 0). eexists. reflexivity.
Qed.

End Endings.

(** A run that finds one of the four Fitbit variables absent from the
    environment, or empty, stops after the validation.  It returns normally
    and adds only log lines to the trace, the error about the missing
    variables among them: no client and no sink is created, no request is
    sent, nothing is written or closed, and the completion line is not
    logged. *)
Theorem missing_credential_stops_the_run w cfg env fuel s var :
  In var required_vars ->
  env_lookup var env = None \/ env_lookup var env = Some "" ->
  exists msgs,
    main w cfg env fuel s = (inr tt, add s msgs) /\
    forallb is_message msgs = true /\
    In (ELog ERROR "Missing required environment variables") msgs /\
    ~ In completion msgs.
Proof.
  intros Hin Hu. eexists. split; [exact (@main_refuses w cfg env fuel var s Hin Hu)|].
  split; [reflexivity|]. split.
  - right. left. reflexivity.
  - unfold completion. intros [H|[H|[H|[]]]]; discriminate.
Qed.

Lemma missing_credential_stops_the_run_witness :
  In "FITBIT_REFRESH_TOKEN" required_vars /\
  exists msgs,
    main (scripted [] []) sample_cfg [("FITBIT_CLIENT_ID", "id")] 1 sample_state
    = (inr tt, add sample_state msgs) /\
    forallb is_message msgs = true.
Proof.
  assert (Hin : In "FITBIT_REFRESH_TOKEN" required_vars) by (simpl; tauto).
  split; [exact Hin|].
  destruct (@missing_credential_stops_the_run (scripted [] []) sample_cfg
              [("FITBIT_CLIENT_ID", "id")] 1 sample_state "FITBIT_REFRESH_TOKEN"
              Hin (or_introl eq_refl)) as (msgs & H1 & H2 & _).
  exists msgs. split; [exact H1|exact H2].
Defined.

(** The constants of the module are read when it is imported, the
    environment is validated when main runs.  Whatever the validated
    environment holds, when one of the four Fitbit constants or the InfluxDB
    token is empty, or the sink cannot be reached, a constructor raises: the
    run adds only messages to the trace, the last ones being the error that
    main logs and prints and the completion line; it sends no request, writes
    nothing and closes nothing. *)
Theorem constructor_failure_ends_the_run w cfg env fuel s :
  missing_vars env = [] ->
  self s = FitbitAPI.new cfg ->
  (FITBIT_CLIENT_ID cfg = "" \/ FITBIT_CLIENT_SECRET cfg = "" \/
   FITBIT_ACCESS_TOKEN cfg = "" \/ FITBIT_REFRESH_TOKEN cfg = "" \/
   INFLUX_TOKEN cfg = "" \/ exists e, influx_connect w = Some e) ->
  exists msgs,
    main w cfg env fuel s = (inr tt, add s (msgs ++ reported ++ [completion])) /\
    forallb is_message msgs = true.
Proof.
  intros Hm Hs Hu. destruct (@startup_fails w cfg s Hs Hu) as (e & reason & Hf).
  exists [ ELog INFO "Starting Enhanced Fitbit data sync..."; ELog ERROR reason ].
  split; [|reflexivity].
  rewrite (@main_after_failed_startup w cfg env fuel s e _ Hm Hf).
  unfold add. simpl. rewrite <- app_assoc. reflexivity.
Qed.

(* the variables are in the environment main validates, and were not in the
   one the module was imported with *)
Lemma constructor_failure_ends_the_run_witness :
  missing_vars sample_env = [] /\
  exists msgs,
    main (scripted [] []) (load_config []) sample_env 1 (initial (load_config []))
    = (inr tt, add (initial (load_config [])) (msgs ++ reported ++ [completion])) /\
    forallb is_message msgs = true.
Proof.
  split; [reflexivity|].
  exact (@constructor_failure_ends_the_run (scripted [] []) (load_config []) sample_env 1
           (initial (load_config [])) eq_refl eq_refl (or_introl eq_refl)).
Defined.




(** A run without network still writes when long_covid or pem is enabled.
    Every fetch returns None, so no metric gives a Point, and the risk score
    of no data is 0.0: the batch is that one pem_risk Point, and the run writes
    it.  With both conditions disabled the batch is empty and the run writes
    nothing. *)
Theorem offline_run_writes_a_zero_risk w cfg env fuel s s1 :
  missing_vars env = [] ->
  startup w cfg (started_run s) = (inr tt, s1) ->
  (forall n, api_get w n = Fails) ->
  (0 < fuel)%nat ->
  exists t,
    writes (snd (main w cfg env fuel s))
    = writes s ++
      (if pem_enabled cfg
       then [EWrite (INFLUX_BUCKET cfg) [risk_point cfg (Py.PFloat 0) t]]
       else []).
Proof.
  intros Hm Hs Hoff Hfuel. destruct fuel as [|n]; [lia|].
  destruct (@collect_offline w cfg Hoff n (today_of w s1) s1) as (t & s2 & Hc).
  destruct (main_writes w cfg env (S n) s) as (ws & Hw & _ & Hws).
  exists t. rewrite Hw. f_equal.
  rewrite (Hws s1 (today_of w s1) _ s2 Hm Hs eq_refl Hc).
  destruct (pem_enabled cfg); reflexivity.
Qed.

Lemma offline_run_writes_a_zero_risk_witness :
  missing_vars sample_env = [] /\
  exists t,
    writes (snd (main (scripted [] []) sample_cfg sample_env 1 sample_state))
    = [EWrite "fitbit" [risk_point sample_cfg (Py.PFloat 0) t]].
Proof.
  split; [reflexivity|].
  exact (@offline_run_writes_a_zero_risk (scripted [] []) sample_cfg sample_env 1 sample_state
           _ eq_refl eq_refl (fun n => match n with O => eq_refl | S _ => eq_refl end)
           (Nat.lt_0_succ 0)).
Defined.

(** * The environment file *)

(** The texts of this part are ASCII texts, as the strings of the embedding
    are: the blanks that strip() removes are those of [Py.is_space]. *)

(** ** Blanks at the ends of a string *)

Fixpoint all_space (s : string) : bool :=
  match s with
  | EmptyString => true
  | String c r => (Py.is_space c && all_space r)%bool
  end.

Lemma string_app_assoc (a b c : string) : ((a ++ b) ++ c = a ++ (b ++ c))%string.
Proof. induction a as [|x a IH]; simpl; [reflexivity|now rewrite IH]. Qed.

Lemma lstrip_blank ws s :
  all_space ws = true -> Py.lstrip (ws ++ s)%string = Py.lstrip s.
Proof.
  induction ws as [|c ws IH]; simpl; intros H; [reflexivity|].
  apply andb_true_iff in H. destruct H as [Hc Hw]. rewrite Hc. now apply IH.
Qed.

Lemma lstrip_all_space ws : all_space ws = true -> Py.lstrip ws = ""%string.
Proof.
  induction ws as [|c ws IH]; simpl; intros H; [reflexivity|].
  apply andb_true_iff in H. destruct H as [Hc Hw]. rewrite Hc. now apply IH.
Qed.

Lemma rstrip_all_space ws : all_space ws = true -> Py.rstrip ws = ""%string.
Proof.
  induction ws as [|c ws IH]; simpl; intros H; [reflexivity|].
  apply andb_true_iff in H. destruct H as [Hc Hw]. rewrite (IH Hw), Hc. reflexivity.
Qed.

Lemma rstrip_empty s : Py.rstrip s = ""%string -> all_space s = true.
Proof.
  induction s as [|c s IH]; simpl; intros H; [reflexivity|].
  destruct (Py.rstrip s) as [|d r]; [|discriminate].
  destruct (Py.is_space c); [now rewrite IH|discriminate].
Qed.

Lemma rstrip_blank s ws :
  all_space ws = true -> Py.rstrip (s ++ ws)%string = Py.rstrip s.
Proof.
  intros H. induction s as [|c s IH]; simpl.
  - now apply rstrip_all_space.
  - now rewrite IH.
Qed.

Lemma rstrip_cons c s :
  Py.rstrip s <> ""%string -> Py.rstrip (String c s) = String c (Py.rstrip s).
Proof. simpl. destruct (Py.rstrip s); [congruence|reflexivity]. Qed.

Lemma rstrip_head c s : Py.is_space c = false -> Py.rstrip (String c s) <> ""%string.
Proof. intros H. simpl. destruct (Py.rstrip s); [rewrite H|]; discriminate. Qed.

Lemma rstrip_from c s :
  Py.is_space c = false -> Py.rstrip (String c s) = String c (Py.rstrip s).
Proof. intros H. simpl. destruct (Py.rstrip s); [now rewrite H|reflexivity]. Qed.

Lemma rstrip_keep p c q :
  Py.is_space c = false ->
  Py.rstrip (p ++ String c q)%string = (p ++ Py.rstrip (String c q))%string.
Proof.
  intros H. induction p as [|a p IH]; [reflexivity|].
  change ((String a p ++ String c q)%string) with (String a (p ++ String c q)%string).
  rewrite rstrip_cons; rewrite IH; [reflexivity|].
  destruct p as [|b p]; [now apply rstrip_head|discriminate].
Qed.

Lemma rstrip_idem s : Py.rstrip (Py.rstrip s) = Py.rstrip s.
Proof.
  induction s as [|c s IH]; [reflexivity|].
  destruct (Py.rstrip s) as [|d r] eqn:E.
  - simpl. rewrite E. destruct (Py.is_space c) eqn:Hc; [reflexivity|].
    simpl. now rewrite Hc.
  - rewrite (@rstrip_cons c s) by (rewrite E; discriminate). rewrite E.
    rewrite rstrip_cons; rewrite IH; [reflexivity|discriminate].
Qed.

Lemma lstrip_rstrip s : Py.lstrip (Py.rstrip s) = Py.rstrip (Py.lstrip s).
Proof.
  induction s as [|c s IH]; [reflexivity|].
  destruct (Py.is_space c) eqn:Hc.
  - change (Py.lstrip (String c s)) with (if Py.is_space c then Py.lstrip s else String c s).
    rewrite Hc. destruct (Py.rstrip s) as [|d r] eqn:E.
    + simpl. rewrite E, Hc. simpl.
      apply rstrip_empty in E. now rewrite (@lstrip_all_space s E).
    + rewrite (@rstrip_cons c s) by (rewrite E; discriminate).
      change (Py.lstrip (String c (Py.rstrip s)))
        with (if Py.is_space c then Py.lstrip (Py.rstrip s) else String c (Py.rstrip s)).
      rewrite Hc, E. exact IH.
  - change (Py.lstrip (String c s)) with (if Py.is_space c then Py.lstrip s else String c s).
    rewrite Hc, (@rstrip_from c s Hc). simpl. now rewrite Hc.
Qed.

Lemma strip_rstrip s : Py.strip (Py.rstrip s) = Py.strip s.
Proof. unfold Py.strip. now rewrite lstrip_rstrip, rstrip_idem. Qed.

Lemma strip_blank_right s ws : all_space ws = true -> Py.strip (s ++ ws)%string = Py.strip s.
Proof.
  intros H. unfold Py.strip. induction s as [|c s IH].
  - simpl. now rewrite (@lstrip_all_space ws H).
  - change ((String c s ++ ws)%string) with (String c (s ++ ws)%string).
    simpl. destruct (Py.is_space c); [exact IH|].
    change (String c (s ++ ws)%string) with ((String c s ++ ws)%string).
    now apply rstrip_blank.
Qed.

Lemma lstrip_length s : (String.length (Py.lstrip s) <= String.length s)%nat.
Proof.
  induction s as [|c s IH]; simpl; [lia|]. destruct (Py.is_space c); simpl; lia.
Qed.

Lemma rstrip_length s : (String.length (Py.rstrip s) <= String.length s)%nat.
Proof.
  induction s as [|c s IH]; simpl; [lia|].
  destruct (Py.rstrip s); [destruct (Py.is_space c)|]; simpl in *; lia.
Qed.

(* a string that strip() leaves as it is starts with a character that is
   not a blank, and has no blank at its end *)
Lemma trimmed_head key :
  key <> ""%string -> Py.strip key = key ->
  exists c k, key = String c k /\ Py.is_space c = false /\ Py.rstrip key = key.
Proof.
  destruct key as [|c k]; [congruence|]. intros _ H. exists c, k.
  assert (Hc : Py.is_space c = false).
  { destruct (Py.is_space c) eqn:Hc; [|reflexivity]. exfalso.
    assert (L : (String.length (Py.strip (String c k)) <= String.length k)%nat).
    { unfold Py.strip. simpl Py.lstrip. rewrite Hc.
      etransitivity; [apply rstrip_length|apply lstrip_length]. }
    rewrite H in L. simpl in L. lia. }
  repeat split; [exact Hc|].
  unfold Py.strip in H. simpl Py.lstrip in H. rewrite Hc in H. exact H.
Qed.

(** ** load_environment_from_file *)

(* line.split('=', 1) on a line that holds the separator: the text before
   the first separator, and the text after it *)
Fixpoint before (sep : ascii) (s : string) : string :=
  match s with
  | EmptyString => EmptyString
  | String c r => if Ascii.eqb sep c then EmptyString else String c (before sep r)
  end.

Fixpoint after (sep : ascii) (s : string) : string :=
  match s with
  | EmptyString => EmptyString
  | String c r => if Ascii.eqb sep c then r else after sep r
  end.

Definition has_nul (s : string) : bool := Py.substr_in (String "000" EmptyString) s.

(* what os.environ accepts: putenv refuses an empty name, a name that holds
   '=' and a NUL in the name or in the value *)
Definition legal (kv : string * string) : bool :=
  (negb (String.eqb (fst kv) "") && negb (Py.substr_in "=" (fst kv)) &&
   negb (has_nul (fst kv)) && negb (has_nul (snd kv)))%bool.

(* os.environ[key] = value; the names are those of a POSIX environment, which
   tells upper case from lower case *)
Definition setenv (key value : string) (env : environ) : Py.result environ :=
  if legal (key, value) then inr ((key, value) :: env) else inl Py.ValueError.

(* the assignment a line of the file makes, when it makes one:
     line = line.strip()
     if line and not line.startswith('#') and '=' in line:
         key, value = line.split('=', 1)
         os.environ[key.strip()] = value.strip() *)
Definition assignment (line : string) : option (string * string) :=
  let line := Py.strip line in
  if (Py.truthy (Py.PStr line) && negb (Py.startswith "#" line) &&
      Py.substr_in "=" line)%bool
  then Some (Py.strip (before "=" line), Py.strip (after "=" line))
  else None.

(* for line in f: ... *)
Fixpoint load_lines (lines : list string) (env : environ) : Py.result environ :=
  match lines with
  | [] => inr env
  | line :: rest =>
      match assignment line with
      | None => load_lines rest env
      | Some (key, value) =>
          match setenv key value env with
          | inl e => inl e
          | inr env' => load_lines rest env'
          end
      end
  end.

(* [file] is None when there is no .env in the working directory, and the
   lines of the file, as the iteration over it gives them, when there is one;
   a file that cannot be opened or decoded is outside the model.  The
   function is called by main outside its try statement, after the first log
   line: what it raises ends the program. *)
Definition load_environment_from_file (file : option (list string)) (env : environ)
  : M state environ :=
  match file with
  | None => ret env
  | Some lines =>
      log INFO "Loading environment variables from .env file" ;;
      lift (load_lines lines env)
  end.

(* the assignments of a file, in the order of its lines *)
Definition assignments (lines : list string) : list (string * string) :=
  flat_map (fun line => match assignment line with Some kv => [kv] | None => [] end) lines.

Definition named (name : string) (kv : string * string) : bool := String.eqb (fst kv) name.

(* the value the file gives a name: that of its last assignment *)
Definition assigned (name : string) (lines : list string) : option string :=
  option_map snd (find (named name) (rev (assignments lines))).

Lemma env_lookup_app name (a b : environ) :
  env_lookup name (a ++ b)
  = match find (named name) a with
    | Some kv => Some (snd kv)
    | None => env_lookup name b
    end.
Proof.
  induction a as [|[k v] a IH]; [reflexivity|].
  simpl. unfold named at 1. simpl. destruct (String.eqb k name); [reflexivity|exact IH].
Qed.

(* a file of legal assignments is loaded to the end: each assignment is put
   in front of the environment *)
Lemma load_lines_run lines : forall env,
  forallb legal (assignments lines) = true ->
  load_lines lines env = inr (rev (assignments lines) ++ env).
Proof.
  induction lines as [|line lines IH]; intros env H; [reflexivity|].
  unfold assignments in H. cbn [flat_map] in H. fold (assignments lines) in H.
  unfold assignments. cbn [flat_map load_lines]. fold (assignments lines).
  destruct (assignment line) as [[key value]|].
  - rewrite forallb_app in H. apply andb_true_iff in H. destruct H as [Hk Hl].
    cbn [forallb] in Hk. rewrite andb_true_r in Hk.
    unfold setenv. rewrite Hk. rewrite (IH _ Hl).
    cbn [app rev]. rewrite <- app_assoc. reflexivity.
  - exact (IH env H).
Qed.

(** ** The lines of the file *)

Lemma no_sep_cons sep c k :
  Py.substr_in (String sep EmptyString) (String c k) = false ->
  Ascii.eqb sep c = false /\ Py.substr_in (String sep EmptyString) k = false.
Proof.
  intros H. cbn [Py.substr_in Py.startswith] in H.
  apply orb_false_iff in H. destruct H as [H1 H2].
  destruct k; rewrite andb_true_r in H1; split; assumption.
Qed.

Lemma before_app sep a b :
  Py.substr_in (String sep EmptyString) a = false ->
  before sep (a ++ String sep b)%string = a.
Proof.
  induction a as [|c a IH]; intros H.
  - simpl. now rewrite Ascii.eqb_refl.
  - apply no_sep_cons in H. destruct H as [Hc Ha].
    simpl. rewrite Hc, (IH Ha). reflexivity.
Qed.

Lemma after_app sep a b :
  Py.substr_in (String sep EmptyString) a = false ->
  after sep (a ++ String sep b)%string = b.
Proof.
  induction a as [|c a IH]; intros H.
  - simpl. now rewrite Ascii.eqb_refl.
  - apply no_sep_cons in H. destruct H as [Hc Ha].
    simpl. rewrite Hc. exact (IH Ha).
Qed.

Lemma substr_in_sep sep a b :
  Py.substr_in (String sep EmptyString) (a ++ String sep b)%string = true.
Proof.
  induction a as [|c a IH].
  - change (("" ++ String sep b)%string) with (String sep b).
    cbn [Py.substr_in Py.startswith]. rewrite Ascii.eqb_refl. now destruct b.
  - change ((String c a ++ String sep b)%string) with (String c (a ++ String sep b)%string).
    cbn [Py.substr_in]. rewrite IH. apply orb_true_r.
Qed.

Lemma no_sep_app sep a b :
  Py.substr_in (String sep EmptyString) a = false ->
  Py.substr_in (String sep EmptyString) b = false ->
  Py.substr_in (String sep EmptyString) (a ++ b)%string = false.
Proof.
  induction a as [|c a IH]; intros Ha Hb; [exact Hb|].
  apply no_sep_cons in Ha. destruct Ha as [Hc Ha].
  change ((String c a ++ b)%string) with (String c (a ++ b)%string).
  cbn [Py.substr_in Py.startswith]. rewrite Hc, (IH Ha Hb). reflexivity.
Qed.

Lemma no_equals_in_blanks ws : all_space ws = true -> Py.substr_in "=" ws = false.
Proof.
  induction ws as [|c ws IH]; intros H; [reflexivity|].
  simpl in H. apply andb_true_iff in H. destruct H as [Hc Hw].
  cbn [Py.substr_in Py.startswith]. rewrite (IH Hw).
  destruct (Ascii.eqb "=" c) eqn:E; [|reflexivity].
  apply Ascii.eqb_eq in E. subst c. discriminate.
Qed.

Lemma startswith_char a c s : Py.startswith (String a EmptyString) (String c s) = Ascii.eqb a c.
Proof. cbn [Py.startswith]. destruct s; apply andb_true_r. Qed.

(* a line NAME=VALUE, with blanks before the name and around the '=' *)
Lemma assignment_of_line ws1 key ws2 rest :
  all_space ws1 = true -> all_space ws2 = true ->
  key <> ""%string -> Py.strip key = key ->
  Py.substr_in "=" key = false -> Py.startswith "#" key = false ->
  assignment (ws1 ++ key ++ ws2 ++ String "=" rest)%string = Some (key, Py.strip rest).
Proof.
  intros H1 H2 Hne Ht Heq Hhash.
  destruct (trimmed_head Hne Ht) as (c & k & Hk & Hc & Hr).
  assert (Hs : Py.strip (ws1 ++ key ++ ws2 ++ String "=" rest)%string
               = ((key ++ ws2) ++ String "=" (Py.rstrip rest))%string).
  { unfold Py.strip. rewrite (@lstrip_blank ws1 _ H1).
    assert (Hl : Py.lstrip (key ++ ws2 ++ String "=" rest)%string
                 = (key ++ ws2 ++ String "=" rest)%string).
    { rewrite Hk. simpl. now rewrite Hc. }
    rewrite Hl, <- string_app_assoc, rstrip_keep by reflexivity.
    now rewrite rstrip_from by reflexivity. }
  unfold assignment. rewrite Hs.
  assert (Hnk : Py.substr_in "=" (key ++ ws2)%string = false)
    by (apply no_sep_app; [exact Heq|now apply no_equals_in_blanks]).
  rewrite (@before_app _ _ _ Hnk), (@after_app _ _ _ Hnk), substr_in_sep.
  assert (Hkey : Py.strip (key ++ ws2)%string = key)
    by (rewrite (@strip_blank_right key ws2 H2); exact Ht).
  rewrite Hkey, strip_rstrip.
  assert (Hline : Py.truthy (Py.PStr ((key ++ ws2) ++ String "=" (Py.rstrip rest))%string) = true)
    by (rewrite Hk; reflexivity).
  assert (Hnote : Py.startswith "#" ((key ++ ws2) ++ String "=" (Py.rstrip rest))%string = false).
  { rewrite Hk in Hhash |- *.
    change (((String c k ++ ws2) ++ String "=" (Py.rstrip rest))%string)
      with (String c ((k ++ ws2) ++ String "=" (Py.rstrip rest))%string).
    rewrite startswith_char in Hhash |- *. exact Hhash. }
  rewrite Hline, Hnote. reflexivity.
Qed.

(** The loader reads a file of legal assignments to the end and logs one
    line.  Afterwards a name has the value of the last line of the file that
    assigns it, also when the process environment already had a value for
    it; a name the file does not assign keeps the value it had. *)
Theorem environment_file_overrides_the_environment lines env s :
  forallb legal (assignments lines) = true ->
  exists env',
    load_environment_from_file (Some lines) env s
    = (inr env', add s [ELog INFO "Loading environment variables from .env file"]) /\
    forall name,
      env_lookup name env'
      = match assigned name lines with
        | Some v => Some v
        | None => env_lookup name env
        end.
Proof.
  intros H. exists (rev (assignments lines) ++ env). split.
  - unfold load_environment_from_file, bind, log, emit, lift, add. cbn beta iota.
    now rewrite (@load_lines_run lines _ H).
  - intros name. rewrite env_lookup_app. unfold assigned.
    destruct (find (named name) (rev (assignments lines))); reflexivity.
Qed.

Definition sample_file : list string :=
  [ "# Fitbit credentials" ++ String "010" "";
    String "010" "";
    "FITBIT_ACCESS_TOKEN=old" ++ String "010" "";
    "  FITBIT_ACCESS_TOKEN = A2  " ++ String "010" "";
    "not an assignment" ++ String "010" "";
    "INFLUX_URL=http://influx:8086/?a=b # local" ]%string.

Lemma environment_file_overrides_the_environment_witness :
  forallb legal (assignments sample_file) = true /\
  exists env',
    fst (load_environment_from_file (Some sample_file) sample_env sample_state) = inr env' /\
    env_lookup "FITBIT_ACCESS_TOKEN" env' = Some "A2"%string /\
    env_lookup "INFLUX_URL" env' = Some "http://influx:8086/?a=b # local"%string /\
    env_lookup "FITBIT_REFRESH_TOKEN" env' = Some "R1"%string.
Proof.
  split; [reflexivity|].
  destruct (@environment_file_overrides_the_environment sample_file sample_env sample_state
              eq_refl) as (env' & Hrun & Hlook).
  exists env'. split; [now rewrite Hrun|].
  rewrite !Hlook. repeat split.
Defined.

(** A line is split at its first '='.  The name is the text before it and the
    value all the text after it, each with the blanks at its two ends removed:
    blanks before the name and around the '=' do not count, and the value
    keeps further '=' signs, a '#' and quotes. *)
Theorem line_is_split_at_the_first_equals ws1 key ws2 rest :
  all_space ws1 = true -> all_space ws2 = true ->
  key <> ""%string -> Py.strip key = key ->
  Py.substr_in "=" key = false -> Py.startswith "#" key = false ->
  assignment (ws1 ++ key ++ ws2 ++ "=" ++ rest)%string = Some (key, Py.strip rest).
Proof. exact (@assignment_of_line ws1 key ws2 rest). Qed.

Lemma line_is_split_at_the_first_equals_witness :
  Py.strip "INFLUX_URL" = "INFLUX_URL"%string /\
  assignment ("  " ++ "INFLUX_URL" ++ " " ++ "=" ++ " 'http://influx:8086/?a=b'  # local ")%string
  = Some ("INFLUX_URL", "'http://influx:8086/?a=b'  # local")%string.
Proof.
  split; [reflexivity|].
  rewrite (@line_is_split_at_the_first_equals "  " "INFLUX_URL" " "
             " 'http://influx:8086/?a=b'  # local " eq_refl eq_refl);
    [reflexivity|discriminate|reflexivity|reflexivity|reflexivity].
Defined.

(** ** The file and the constants of the module *)

Section FileAndConstants.

Variable w : World.
Variable cfg : Config.

(* the client refuses an empty credential before the sink is looked at *)
Lemma client_fails s :
  self s = FitbitAPI.new cfg ->
  FITBIT_CLIENT_ID cfg = ""%string \/ FITBIT_CLIENT_SECRET cfg = ""%string \/
  FITBIT_ACCESS_TOKEN cfg = ""%string \/ FITBIT_REFRESH_TOKEN cfg = ""%string ->
  startup w cfg (started_run s)
  = (inl Py.ValueError,
     add s [ ELog INFO "Starting Enhanced Fitbit data sync...";
             ELog ERROR "Missing required Fitbit credentials in environment variables" ]).
Proof.
  intros Hs Hu.
  unfold startup, FitbitAPI.init, started_run, bind, get_self, log, emit, throw, ret, add.
  cbn [self trace]. rewrite Hs.
  cbn [FitbitAPI.new client_id client_secret access_token refresh_token Py.truthy].
  assert (Hc : (negb (String.eqb (FITBIT_CLIENT_ID cfg) "") &&
                negb (String.eqb (FITBIT_CLIENT_SECRET cfg) "") &&
                negb (String.eqb (FITBIT_ACCESS_TOKEN cfg) "") &&
                negb (String.eqb (FITBIT_REFRESH_TOKEN cfg) ""))%bool = false).
  { destruct Hu as [H|[H|[H|H]]]; rewrite H; cbn [String.eqb negb andb];
      rewrite ?andb_false_r; reflexivity. }
  rewrite Hc. cbn [self trace]. rewrite <- app_assoc. reflexivity.
Qed.

End FileAndConstants.

Lemma filter_nothing A (f : A -> bool) l :
  (forall x, In x l -> f x = false) -> filter f l = [].
Proof.
  induction l as [|x l IH]; intros H; [reflexivity|].
  simpl. rewrite (H x (or_introl eq_refl)). apply IH. intros y Hy. apply H. now right.
Qed.

Lemma unset_constant os_env var :
  In var required_vars ->
  env_lookup var os_env = None \/ env_lookup var os_env = Some ""%string ->
  let cfg := load_config os_env in
  FITBIT_CLIENT_ID cfg = ""%string \/ FITBIT_CLIENT_SECRET cfg = ""%string \/
  FITBIT_ACCESS_TOKEN cfg = ""%string \/ FITBIT_REFRESH_TOKEN cfg = ""%string.
Proof.
  intros Hin Hu. cbv zeta. unfold load_config. cbn [FITBIT_CLIENT_ID FITBIT_CLIENT_SECRET
    FITBIT_ACCESS_TOKEN FITBIT_REFRESH_TOKEN]. unfold getenv.
  simpl in Hin. destruct Hin as [<-|[<-|[<-|[<-|[]]]]]; destruct Hu as [-> | ->]; tauto.
Qed.

(** The constants of the module are set when it is imported, the file is
    loaded when main runs.  When the file gives each of the four Fitbit
    variables a value that is not empty, the loaded environment passes the
    validation of main; but when one of them was absent or empty in the
    environment of the process, the client still refuses its credentials: the
    run sends no request, writes nothing, and ends with the error of main
    and the completion line. *)
Theorem credentials_of_the_file_are_not_used w os_env lines fuel var :
  forallb legal (assignments lines) = true ->
  (forall name, In name required_vars ->
     exists v, assigned name lines = Some v /\ v <> ""%string) ->
  In var required_vars ->
  env_lookup var os_env = None \/ env_lookup var os_env = Some ""%string ->
  exists env msgs,
    load_lines lines os_env = inr env /\
    missing_vars env = [] /\
    main w (load_config os_env) env fuel (initial (load_config os_env))
    = (inr tt, add (initial (load_config os_env)) (msgs ++ reported ++ [completion])) /\
    forallb is_message msgs = true /\
    In (ELog ERROR "Missing required Fitbit credentials in environment variables") msgs.
Proof.
  intros Hl Hfile Hin Hu.
  exists (rev (assignments lines) ++ os_env).
  exists [ ELog INFO "Starting Enhanced Fitbit data sync...";
           ELog ERROR "Missing required Fitbit credentials in environment variables" ].
  assert (Hm : missing_vars (rev (assignments lines) ++ os_env) = []).
  { unfold missing_vars. apply filter_nothing. intros name Hname.
    destruct (Hfile name Hname) as (v & Hv & Hne).
    rewrite env_lookup_app. unfold assigned in Hv.
    destruct (find (named name) (rev (assignments lines))) as [kv|]; [|discriminate].
    simpl in Hv. inversion Hv. subst v. cbn [Py.truthy].
    apply String.eqb_neq in Hne. now rewrite Hne. }
  split; [now apply load_lines_run|]. split; [exact Hm|]. split; [|split].
  - rewrite (@main_after_failed_startup w (load_config os_env) _ fuel
               (initial (load_config os_env)) Py.ValueError _ Hm
               (@client_fails w (load_config os_env) (initial (load_config os_env)) eq_refl
                  (@unset_constant os_env var Hin Hu))).
    unfold add. simpl. rewrite <- ?app_assoc. reflexivity.
  - reflexivity.
  - right. left. reflexivity.
Qed.

(* the four credentials are in the file only *)
Definition credentials_file : list string :=
  [ "FITBIT_CLIENT_ID=id" ++ String "010" "";
    "FITBIT_CLIENT_SECRET=secret" ++ String "010" "";
    "FITBIT_ACCESS_TOKEN=A1" ++ String "010" "";
    "FITBIT_REFRESH_TOKEN=R1" ++ String "010" "" ]%string.

Lemma credentials_of_the_file_are_not_used_witness :
  forallb legal (assignments credentials_file) = true /\
  In "FITBIT_ACCESS_TOKEN"%string required_vars /\
  exists env msgs,
    load_lines credentials_file [("INFLUX_TOKEN", "token")%string] = inr env /\
    missing_vars env = [] /\
    main (scripted [] []) (load_config [("INFLUX_TOKEN", "token")%string]) env 1
         (initial (load_config [("INFLUX_TOKEN", "token")%string]))
    = (inr tt, add (initial (load_config [("INFLUX_TOKEN", "token")%string]))
                   (msgs ++ reported ++ [completion])) /\
    forallb is_message msgs = true.
Proof.
  assert (Hin : In "FITBIT_ACCESS_TOKEN"%string required_vars) by (simpl; tauto).
  assert (Hfile : forall name, In name required_vars ->
            exists v, assigned name credentials_file = Some v /\ v <> ""%string).
  { intros name Hname. simpl in Hname.
    destruct Hname as [<-|[<-|[<-|[<-|[]]]]]; eexists; (split; [reflexivity|discriminate]). }
  split; [reflexivity|]. split; [exact Hin|].
  destruct (@credentials_of_the_file_are_not_used (scripted [] []) [("INFLUX_TOKEN", "token")%string]
              credentials_file 1 "FITBIT_ACCESS_TOKEN" eq_refl Hfile Hin (or_introl eq_refl))
    as (env & msgs & H1 & H2 & H3 & H4 & _).
  exists env, msgs. repeat split; assumption.
Defined.

(** * manage.py: the tokens in the environment file *)

Module FitbitPipelineManager.

Definition newline : ascii := "010".

(* the text holds no line break *)
Definition no_break (s : string) : Prop :=
  Py.substr_in (String newline EmptyString) s = false.

(* a token that stays on one line when it is written and read again: it
   holds no line feed, and no carriage return, which reading in text mode
   turns into a line feed *)
Definition one_line (s : string) : Prop :=
  no_break s /\ Py.substr_in (String "013" EmptyString) s = false.

(* f.readlines(), and the iteration over f: the lines of a text, each with
   its line break; the last one has none when the text does not end with
   one.  The text is the one a file opened in text mode gives, where every
   line break is a single character. *)
Fixpoint readlines (text : string) : list string :=
  match text with
  | EmptyString => []
  | String c r =>
      if Ascii.eqb newline c then String c EmptyString :: readlines r
      else match readlines r with
           | [] => [String c EmptyString]
           | line :: lines => String c line :: lines
           end
  end.

(* the text that f.write leaves, one call per line *)
Fixpoint join_lines (lines : list string) : string :=
  match lines with
  | [] => EmptyString
  | line :: rest => (line ++ join_lines rest)%string
  end.

(* what the loop of update_tokens writes for a line it has read *)
Definition updated_line (access_token refresh_token line : string) : string :=
  if Py.startswith "FITBIT_ACCESS_TOKEN=" line
  then ("FITBIT_ACCESS_TOKEN=" ++ access_token ++ String newline EmptyString)%string
  else if Py.startswith "FITBIT_REFRESH_TOKEN=" line
  then ("FITBIT_REFRESH_TOKEN=" ++ refresh_token ++ String newline EmptyString)%string
  else line.

(* the content of the environment file after update_tokens; [env_file] is
   None when the file does not exist, and the method does not create it.  The
   restart of the collector that follows is outside the model. *)
Definition update_tokens (access_token refresh_token : string) (env_file : option string)
  : option string :=
  match env_file with
  | Some text =>
      let lines := readlines text in
      Some (join_lines (map (updated_line access_token refresh_token) lines))
  | None => None
  end.

(** ** Lines and texts *)

Lemma append_empty (s : string) : (s ++ "")%string = s.
Proof. induction s as [|c s IH]; simpl; [reflexivity|now rewrite IH]. Qed.

Lemma join_readlines text : join_lines (readlines text) = text.
Proof.
  induction text as [|c r IH]; [reflexivity|].
  cbn [readlines]. destruct (Ascii.eqb newline c).
  - cbn [join_lines]. rewrite IH. reflexivity.
  - destruct (readlines r) as [|line lines].
    + cbn [join_lines] in *. rewrite <- IH. reflexivity.
    + cbn [join_lines] in *. rewrite <- IH. reflexivity.
Qed.

(* the lines of a text: every line ends with its only line break, but the
   last one, which may have none *)
Inductive proper : list string -> Prop :=
| proper_nil : proper []
| proper_last line : line <> ""%string -> no_break line -> proper [line]
| proper_cons body lines :
    no_break body -> proper lines ->
    proper ((body ++ String newline EmptyString)%string :: lines).

Lemma no_break_cons c s :
  Ascii.eqb newline c = false -> no_break s -> no_break (String c s).
Proof.
  unfold no_break. intros Hc Hs. cbn [Py.substr_in]. rewrite Hs, startswith_char, Hc.
  reflexivity.
Qed.

Lemma readlines_proper text : proper (readlines text).
Proof.
  induction text as [|c r IH]; [constructor|].
  cbn [readlines]. destruct (Ascii.eqb newline c) eqn:Hc.
  - apply Ascii.eqb_eq in Hc. subst c.
    exact (@proper_cons ""%string (readlines r) eq_refl IH).
  - destruct (readlines r) as [|line lines].
    + apply proper_last; [discriminate|]. now apply no_break_cons.
    + inversion IH as [|l Hne Hnb|body ls Hnb Hls]; subst.
      * apply proper_last; [discriminate|]. now apply no_break_cons.
      * exact (@proper_cons (String c body) lines (no_break_cons _ Hc Hnb) Hls).
Qed.

Lemma readlines_no_break line :
  line <> ""%string -> no_break line -> readlines line = [line].
Proof.
  induction line as [|c l IH]; [congruence|]. intros _ H.
  apply no_sep_cons in H. destruct H as [Hc Hl].
  cbn [readlines]. rewrite Hc. destruct l as [|d l]; [reflexivity|].
  rewrite IH; [reflexivity|discriminate|exact Hl].
Qed.

Lemma readlines_line body rest :
  no_break body ->
  readlines ((body ++ String newline EmptyString) ++ rest)%string
  = (body ++ String newline EmptyString)%string :: readlines rest.
Proof.
  induction body as [|c b IH]; intros H.
  - reflexivity.
  - apply no_sep_cons in H. destruct H as [Hc Hb].
    change (((String c b ++ String newline "") ++ rest)%string)
      with (String c ((b ++ String newline "") ++ rest)%string).
    cbn [readlines]. rewrite Hc, (IH Hb). reflexivity.
Qed.

(* written line by line and read again, the lines are the same *)
Lemma readlines_join lines : proper lines -> readlines (join_lines lines) = lines.
Proof.
  induction 1 as [|line Hne Hnb|body lines Hnb Hls IH].
  - reflexivity.
  - cbn [join_lines]. rewrite append_empty. now apply readlines_no_break.
  - cbn [join_lines]. rewrite (readlines_line _ Hnb), IH. reflexivity.
Qed.

Section Tokens.

Variables access_token refresh_token : string.

Hypothesis access_one_line : no_break access_token.
Hypothesis refresh_one_line : no_break refresh_token.

Let updated := updated_line access_token refresh_token.

Lemma token_line_proper name token lines :
  no_break name -> no_break token -> proper lines ->
  proper ((name ++ token ++ String newline EmptyString)%string :: lines).
Proof.
  intros Hn Ht Hl. rewrite <- string_app_assoc.
  apply proper_cons; [|exact Hl]. now apply no_sep_app.
Qed.

Lemma updated_proper lines : proper lines -> proper (map updated lines).
Proof.
  induction 1 as [|line Hne Hnb|body lines Hnb Hls IH]; cbn [map].
  - constructor.
  - unfold updated, updated_line.
    destruct (Py.startswith "FITBIT_ACCESS_TOKEN=" line);
      [apply token_line_proper; [reflexivity|assumption|constructor]|].
    destruct (Py.startswith "FITBIT_REFRESH_TOKEN=" line);
      [apply token_line_proper; [reflexivity|assumption|constructor]|].
    now apply proper_last.
  - unfold updated at 1, updated_line.
    destruct (Py.startswith "FITBIT_ACCESS_TOKEN=" _);
      [apply token_line_proper; [reflexivity|assumption|exact IH]|].
    destruct (Py.startswith "FITBIT_REFRESH_TOKEN=" _);
      [apply token_line_proper; [reflexivity|assumption|exact IH]|].
    now apply proper_cons.
Qed.

(* the lines of the file after the update are the updated lines *)
Lemma updated_lines text text' :
  update_tokens access_token refresh_token (Some text) = Some text' ->
  readlines text' = map updated (readlines text).
Proof.
  unfold update_tokens. intros H. inversion H. subst text'.
  apply readlines_join, updated_proper, readlines_proper.
Qed.

End Tokens.

(** ** What the loader reads from the updated file *)

Lemma startswith_app p : forall s,
  Py.startswith p s = true -> exists rest, s = (p ++ rest)%string.
Proof.
  induction p as [|a p IH]; intros s H.
  - exists s. reflexivity.
  - destruct s as [|c s]; [discriminate|]. cbn [Py.startswith] in H.
    apply andb_true_iff in H. destruct H as [Ha Hp].
    apply Ascii.eqb_eq in Ha. subst c. destruct (IH s Hp) as (rest & ->).
    exists rest. reflexivity.
Qed.

Lemma no_sep_lstrip sep s :
  Py.substr_in (String sep EmptyString) s = false ->
  Py.substr_in (String sep EmptyString) (Py.lstrip s) = false.
Proof.
  induction s as [|c s IH]; intros H; [exact H|].
  cbn [Py.lstrip]. destruct (Py.is_space c); [|exact H].
  apply no_sep_cons in H. now apply IH.
Qed.

Lemma no_sep_rstrip sep s :
  Py.substr_in (String sep EmptyString) s = false ->
  Py.substr_in (String sep EmptyString) (Py.rstrip s) = false.
Proof.
  induction s as [|c s IH]; intros H; [exact H|].
  apply no_sep_cons in H. destruct H as [Hc Hs]. specialize (IH Hs).
  cbn [Py.rstrip]. destruct (Py.rstrip s) as [|d r].
  - destruct (Py.is_space c); [reflexivity|].
    cbn [Py.substr_in]. now rewrite startswith_char, Hc.
  - cbn [Py.substr_in] in *. now rewrite startswith_char, Hc, IH.
Qed.

Lemma has_nul_strip s : has_nul s = false -> has_nul (Py.strip s) = false.
Proof. unfold has_nul, Py.strip. intros H. now apply no_sep_rstrip, no_sep_lstrip. Qed.

(* the line written for a token is read as the assignment of that token *)
Lemma token_line_read name token :
  name <> ""%string -> Py.strip name = name ->
  Py.substr_in "=" name = false -> Py.startswith "#" name = false ->
  assignment (name ++ String "=" (token ++ String newline EmptyString))%string
  = Some (name, Py.strip token).
Proof.
  intros H1 H2 H3 H4.
  rewrite <- (@strip_blank_right token (String newline EmptyString) eq_refl).
  exact (@assignment_of_line ""%string name ""%string _ eq_refl eq_refl H1 H2 H3 H4).
Qed.

(* a file of legal assignments in which a name is assigned, and by every
   line that assigns it the same value: the loader gives the name that value *)
Lemma loaded_value lines name v env :
  forallb legal (assignments lines) = true ->
  (exists line, In line lines /\ assignment line = Some (name, v)) ->
  (forall line v', In line lines -> assignment line = Some (name, v') -> v' = v) ->
  exists env', load_lines lines env = inr env' /\ env_lookup name env' = Some v.
Proof.
  intros Hl (line & Hin & Ha) Hall.
  exists (rev (assignments lines) ++ env). split; [now apply load_lines_run|].
  rewrite env_lookup_app.
  destruct (find (named name) (rev (assignments lines))) as [[k v']|] eqn:Hf.
  - apply find_some in Hf. destruct Hf as [Hk Hn].
    unfold named in Hn. cbn [fst] in Hn. apply String.eqb_eq in Hn. subst k.
    apply in_rev in Hk. unfold assignments in Hk. apply in_flat_map in Hk.
    destruct Hk as (l & Hl1 & Hl2).
    destruct (assignment l) as [kv|] eqn:E; [|destruct Hl2].
    destruct Hl2 as [->|[]]. cbn [snd]. f_equal. exact (Hall l v' Hl1 E).
  - exfalso. assert (Hn : named name (name, v) = false).
    { apply (find_none _ _ Hf). rewrite <- in_rev. unfold assignments. apply in_flat_map.
      exists line. split; [exact Hin|]. rewrite Ha. now left. }
    unfold named in Hn. cbn [fst] in Hn. rewrite String.eqb_refl in Hn. discriminate.
Qed.

Section Loaded.

Variables access_token refresh_token : string.

Let updated := updated_line access_token refresh_token.

(* what a line of the updated file assigns *)
Lemma updated_assignment line :
  (Py.startswith "FITBIT_ACCESS_TOKEN=" line = true /\
   assignment (updated line) = Some ("FITBIT_ACCESS_TOKEN"%string, Py.strip access_token)) \/
  (Py.startswith "FITBIT_ACCESS_TOKEN=" line = false /\
   Py.startswith "FITBIT_REFRESH_TOKEN=" line = true /\
   assignment (updated line) = Some ("FITBIT_REFRESH_TOKEN"%string, Py.strip refresh_token)) \/
  (Py.startswith "FITBIT_ACCESS_TOKEN=" line = false /\
   Py.startswith "FITBIT_REFRESH_TOKEN=" line = false /\
   updated line = line).
Proof.
  unfold updated, updated_line.
  destruct (Py.startswith "FITBIT_ACCESS_TOKEN=" line).
  { left. split; [reflexivity|].
    apply (@token_line_read "FITBIT_ACCESS_TOKEN" access_token);
      [discriminate|reflexivity|reflexivity|reflexivity]. }
  destruct (Py.startswith "FITBIT_REFRESH_TOKEN=" line).
  { right. left. repeat split.
    apply (@token_line_read "FITBIT_REFRESH_TOKEN" refresh_token);
      [discriminate|reflexivity|reflexivity|reflexivity]. }
  right. right. repeat split.
Qed.

Hypothesis access_no_nul : has_nul access_token = false.
Hypothesis refresh_no_nul : has_nul refresh_token = false.

Lemma updated_legal lines :
  forallb legal (assignments lines) = true ->
  forallb legal (assignments (map updated lines)) = true.
Proof.
  intros H. rewrite forallb_forall in H |- *. intros kv Hkv.
  unfold assignments in Hkv. apply in_flat_map in Hkv. destruct Hkv as (l' & Hl' & Hkv).
  apply in_map_iff in Hl'. destruct Hl' as (l & <- & Hl).
  destruct (updated_assignment l) as [(_ & E)|[(_ & _ & E)|(_ & _ & E)]];
    rewrite E in Hkv.
  - destruct Hkv as [<-|[]]. unfold legal. cbn [fst snd].
    rewrite (has_nul_strip _ access_no_nul). reflexivity.
  - destruct Hkv as [<-|[]]. unfold legal. cbn [fst snd].
    rewrite (has_nul_strip _ refresh_no_nul). reflexivity.
  - apply H. unfold assignments. apply in_flat_map. exists l. split; assumption.
Qed.

(* the file has a line for the token, and every line that assigns the token
   is such a line *)
Definition kept_in_lines (name : string) (lines : list string) : Prop :=
  (exists line, In line lines /\ Py.startswith (name ++ "=") line = true) /\
  (forall line v, In line lines -> assignment line = Some (name, v) ->
                  Py.startswith (name ++ "=") line = true).

Lemma access_token_loaded lines env :
  forallb legal (assignments lines) = true ->
  kept_in_lines "FITBIT_ACCESS_TOKEN" lines ->
  exists env', load_lines (map updated lines) env = inr env' /\
               env_lookup "FITBIT_ACCESS_TOKEN" env' = Some (Py.strip access_token).
Proof.
  intros Hl ((line & Hin & Hp) & Hall).
  apply loaded_value; [now apply updated_legal| |].
  - exists (updated line). split; [now apply in_map|].
    destruct (updated_assignment line) as [(_ & E)|[(E & _)|(E & _)]];
      [exact E| |];
      change (Py.startswith "FITBIT_ACCESS_TOKEN=" line = true) in Hp; congruence.
  - intros l' v' Hl' E'. apply in_map_iff in Hl'. destruct Hl' as (l & <- & Hin').
    destruct (updated_assignment l) as [(_ & E)|[(_ & _ & E)|(F & _ & E)]].
    + rewrite E in E'. now inversion E'.
    + rewrite E in E'. discriminate.
    + rewrite E in E'. pose proof (Hall l v' Hin' E') as Hs.
      change (Py.startswith "FITBIT_ACCESS_TOKEN=" l = true) in Hs. congruence.
Qed.

Lemma refresh_token_loaded lines env :
  forallb legal (assignments lines) = true ->
  kept_in_lines "FITBIT_REFRESH_TOKEN" lines ->
  exists env', load_lines (map updated lines) env = inr env' /\
               env_lookup "FITBIT_REFRESH_TOKEN" env' = Some (Py.strip refresh_token).
Proof.
  intros Hl ((line & Hin & Hp) & Hall).
  apply loaded_value; [now apply updated_legal| |].
  - exists (updated line). split; [now apply in_map|].
    destruct (updated_assignment line) as [(F & _)|[(_ & _ & E)|(_ & E & _)]];
      [|exact E|change (Py.startswith "FITBIT_REFRESH_TOKEN=" line = true) in Hp; congruence].
    exfalso. change (Py.startswith "FITBIT_REFRESH_TOKEN=" line = true) in Hp.
    apply startswith_app in F. destruct F as (rest & ->). discriminate.
  - intros l' v' Hl' E'. apply in_map_iff in Hl'. destruct Hl' as (l & <- & Hin').
    destruct (updated_assignment l) as [(_ & E)|[(_ & _ & E)|(_ & F & E)]].
    + rewrite E in E'. discriminate.
    + rewrite E in E'. now inversion E'.
    + rewrite E in E'. pose proof (Hall l v' Hin' E') as Hs.
      change (Py.startswith "FITBIT_REFRESH_TOKEN=" l = true) in Hs. congruence.
Qed.

End Loaded.

End FitbitPipelineManager.

(** update_tokens and the loader of the pipeline agree on a token: when the
    file has a line that starts with the name of the token and '=', and no
    other kind of line assigns the token (an indented line, or one with a
    blank before the '=', is read by the loader but not rewritten), then the
    loader reads from the rewritten file the new token, without the blanks at
    its ends.  The tokens hold no line break and no NUL. *)
Theorem updated_tokens_are_loaded access_token refresh_token text text' env :
  FitbitPipelineManager.one_line access_token ->
  FitbitPipelineManager.one_line refresh_token ->
  has_nul access_token = false -> has_nul refresh_token = false ->
  forallb legal (assignments (FitbitPipelineManager.readlines text)) = true ->
  FitbitPipelineManager.update_tokens access_token refresh_token (Some text) = Some text' ->
  (FitbitPipelineManager.kept_in_lines "FITBIT_ACCESS_TOKEN"
     (FitbitPipelineManager.readlines text) ->
   exists env', load_lines (FitbitPipelineManager.readlines text') env = inr env' /\
                env_lookup "FITBIT_ACCESS_TOKEN" env' = Some (Py.strip access_token)) /\
  (FitbitPipelineManager.kept_in_lines "FITBIT_REFRESH_TOKEN"
     (FitbitPipelineManager.readlines text) ->
   exists env', load_lines (FitbitPipelineManager.readlines text') env = inr env' /\
                env_lookup "FITBIT_REFRESH_TOKEN" env' = Some (Py.strip refresh_token)).
Proof.
  intros [Ha _] [Hr _] Na Nr Hl Hu.
  rewrite (@FitbitPipelineManager.updated_lines access_token refresh_token Ha Hr text text' Hu).
  split; intros Hk.
  - now apply FitbitPipelineManager.access_token_loaded.
  - now apply FitbitPipelineManager.refresh_token_loaded.
Qed.

Definition tokens_text : string :=
  ("# tokens" ++ String "010" "" ++
   "FITBIT_ACCESS_TOKEN=A1" ++ String "010" "" ++
   "FITBIT_REFRESH_TOKEN=R1" ++ String "010" "" ++
   "INFLUX_TOKEN=token")%string.

Lemma updated_tokens_are_loaded_witness :
  FitbitPipelineManager.update_tokens "A2" "R2" (Some tokens_text)
  = Some ("# tokens" ++ String "010" "" ++
          "FITBIT_ACCESS_TOKEN=A2" ++ String "010" "" ++
          "FITBIT_REFRESH_TOKEN=R2" ++ String "010" "" ++
          "INFLUX_TOKEN=token")%string /\
  exists env',
    load_lines (FitbitPipelineManager.readlines
                  ("# tokens" ++ String "010" "" ++
                   "FITBIT_ACCESS_TOKEN=A2" ++ String "010" "" ++
                   "FITBIT_REFRESH_TOKEN=R2" ++ String "010" "" ++
                   "INFLUX_TOKEN=token")%string) sample_env = inr env' /\
    env_lookup "FITBIT_ACCESS_TOKEN" env' = Some "A2"%string.
Proof.
  split; [reflexivity|].
  refine (proj1 (@updated_tokens_are_loaded "A2" "R2" tokens_text _ sample_env
                   (conj eq_refl eq_refl) (conj eq_refl eq_refl)
                   eq_refl eq_refl eq_refl eq_refl) _).
  split.
  - eexists. split; [right; left; reflexivity|reflexivity].
  - intros line v Hin. vm_compute in Hin.
    destruct Hin as [<-|[<-|[<-|[<-|[]]]]]; intros E; (reflexivity || discriminate).
Defined.

(** update_tokens never adds a token.  A file in which no line starts with
    FITBIT_ACCESS_TOKEN= or FITBIT_REFRESH_TOKEN= is written back as it was,
    whatever the two tokens are; and no file is created where there was
    none. *)
Theorem update_tokens_adds_nothing access_token refresh_token text :
  (forall line, In line (FitbitPipelineManager.readlines text) ->
     Py.startswith "FITBIT_ACCESS_TOKEN=" line = false /\
     Py.startswith "FITBIT_REFRESH_TOKEN=" line = false) ->
  FitbitPipelineManager.update_tokens access_token refresh_token (Some text) = Some text /\
  FitbitPipelineManager.update_tokens access_token refresh_token None = None.
Proof.
  intros H. split; [|reflexivity]. unfold FitbitPipelineManager.update_tokens. f_equal.
  rewrite <- (FitbitPipelineManager.join_readlines text) at 2. f_equal.
  rewrite <- (map_id (FitbitPipelineManager.readlines text)) at 2.
  apply map_ext_in. intros line Hin. destruct (H line Hin) as [Ha Hr].
  unfold FitbitPipelineManager.updated_line. now rewrite Ha, Hr.
Qed.

Lemma update_tokens_adds_nothing_witness :
  FitbitPipelineManager.update_tokens "A2" "R2"
    (Some ("  FITBIT_ACCESS_TOKEN=A1" ++ String "010" "" ++ "FITBIT_REFRESH_TOKEN =R1")%string)
  = Some ("  FITBIT_ACCESS_TOKEN=A1" ++ String "010" "" ++ "FITBIT_REFRESH_TOKEN =R1")%string.
Proof.
  refine (proj1 (@update_tokens_adds_nothing "A2" "R2"
            ("  FITBIT_ACCESS_TOKEN=A1" ++ String "010" "" ++ "FITBIT_REFRESH_TOKEN =R1")%string
            _)).
  intros line Hin. vm_compute in Hin. destruct Hin as [<-|[<-|[]]]; split; reflexivity.
Defined.

(** * manage.py: the environment of the manager *)

Module Manager.

(* FitbitPipelineManager.load_environment, one line of the file:
     if line.strip() and not line.startswith('#'):
         key, value = line.strip().split('=', 1)
         os.environ[key] = value
   The comment sign is looked for in the line as read, the two parts are not
   stripped again, and a line without '=' cannot be unpacked. *)
Definition assignment (line : string) : Py.result (option (string * string)) :=
  if (Py.truthy (Py.PStr (Py.strip line)) && negb (Py.startswith "#" line))%bool
  then
    if Py.substr_in "=" (Py.strip line)
    then inr (Some (before "=" (Py.strip line), after "=" (Py.strip line)))
    else inl Py.ValueError
  else inr None.

Fixpoint load_lines (lines : list string) (env : environ) : Py.result environ :=
  match lines with
  | [] => inr env
  | line :: rest =>
      match assignment line with
      | inl e => inl e
      | inr None => load_lines rest env
      | inr (Some (key, value)) =>
          match setenv key value env with
          | inl e => inl e
          | inr env' => load_lines rest env'
          end
      end
  end.

(* [env_file] is the text of the file, None when there is none; the
   constructor of the manager calls this, outside any try statement *)
Definition load_environment (env_file : option string) (env : environ)
  : Py.result environ :=
  match env_file with
  | None => inr env
  | Some text => load_lines (FitbitPipelineManager.readlines text) env
  end.

(* _check_fitbit_credentials *)
Definition required_vars : list string :=
  [ "FITBIT_CLIENT_ID"; "FITBIT_CLIENT_SECRET"; "FITBIT_ACCESS_TOKEN";
    "FITBIT_REFRESH_TOKEN" ].

(* os.getenv(var), None where the variable is not set *)
Definition os_getenv (env : environ) (var : string) : Py.value :=
  match env_lookup var env with
  | Some v => Py.PStr v
  | None => Py.PNone
  end.

(* all(os.getenv(var) for var in required_vars) *)
Definition check_fitbit_credentials (env : environ) : bool :=
  forallb (fun var => Py.truthy (os_getenv env var)) required_vars.

(* a line of text that is neither blank nor an assignment, and does not
   start with the comment sign *)
Definition plain_text (line : string) : Prop :=
  Py.strip line <> ""%string /\
  Py.startswith "#" line = false /\
  Py.substr_in "=" (Py.strip line) = false.

Lemma plain_text_raises line : plain_text line -> assignment line = inl Py.ValueError.
Proof.
  intros (H1 & H2 & H3). unfold assignment. cbn [Py.truthy].
  apply String.eqb_neq in H1. now rewrite H1, H2, H3.
Qed.

Lemma load_lines_raises lines : forall env line,
  In line lines -> plain_text line -> exists e, load_lines lines env = inl e.
Proof.
  induction lines as [|l lines IH]; intros env line Hin Hp; [destruct Hin|].
  cbn [load_lines]. destruct Hin as [->|Hin].
  - rewrite (plain_text_raises Hp). now exists Py.ValueError.
  - destruct (assignment l) as [e|[[key value]|]].
    + now exists e.
    + destruct (setenv key value env) as [e|env']; [now exists e|].
      exact (IH env' line Hin Hp).
    + exact (IH env line Hin Hp).
Qed.

Lemma forallb_filter A (f : A -> bool) l :
  forallb f l = true <-> filter (fun x => negb (f x)) l = [].
Proof.
  induction l as [|x l IH]; simpl; [tauto|].
  destruct (f x); simpl; [exact IH|]. split; discriminate.
Qed.

End Manager.

(** The manager and the pipeline do not read the file alike.  A line of
    plain text (not blank, without '=' and without the comment sign at its
    start) anywhere in the file makes the loader of the manager raise, and
    with it the constructor that every command of manage.py calls first; the
    loader of the pipeline skips such a line, and loads a file whose
    assignments are legal to its end. *)
Theorem manager_rejects_text_the_pipeline_skips text line env :
  In line (FitbitPipelineManager.readlines text) ->
  Manager.plain_text line ->
  forallb legal (assignments (FitbitPipelineManager.readlines text)) = true ->
  (exists e, Manager.load_environment (Some text) env = inl e) /\
  assignment line = None /\
  exists env', load_lines (FitbitPipelineManager.readlines text) env = inr env'.
Proof.
  intros Hin Hp Hl. split; [|split].
  - exact (Manager.load_lines_raises _ env Hin Hp).
  - destruct Hp as (_ & _ & H3). unfold assignment. rewrite H3.
    now rewrite andb_false_r.
  - eexists. now apply load_lines_run.
Qed.

(* an indented comment between two assignments *)
Definition commented_text : string :=
  ("FITBIT_ACCESS_TOKEN=A1" ++ String "010" "" ++
   "  # the refresh token follows" ++ String "010" "" ++
   "FITBIT_REFRESH_TOKEN=R1" ++ String "010" "")%string.

Lemma manager_rejects_text_the_pipeline_skips_witness :
  Manager.plain_text ("  # the refresh token follows" ++ String "010" "")%string /\
  Manager.load_environment (Some commented_text) [] = inl Py.ValueError /\
  exists env', load_lines (FitbitPipelineManager.readlines commented_text) [] = inr env'.
Proof.
  assert (Hp : Manager.plain_text ("  # the refresh token follows" ++ String "010" "")%string)
    by (repeat split; discriminate).
  assert (Hin : In ("  # the refresh token follows" ++ String "010" "")%string
                   (FitbitPipelineManager.readlines commented_text))
    by (right; left; reflexivity).
  split; [exact Hp|]. split; [reflexivity|].
  exact (proj2 (proj2 (@manager_rejects_text_the_pipeline_skips commented_text _ [] Hin Hp
                         eq_refl))).
Defined.

(** The prerequisite check of the manager and the validation of main agree:
    the manager reports the Fitbit credentials as present exactly when main
    finds no required variable missing, that is, when each of the four
    variables is set to a value that is not empty. *)
Theorem credential_checks_agree env :
  (Manager.check_fitbit_credentials env = true <-> missing_vars env = []) /\
  (missing_vars env = [] <->
   forall var, In var required_vars ->
     exists v, env_lookup var env = Some v /\ v <> ""%string).
Proof.
  split.
  - unfold Manager.check_fitbit_credentials, missing_vars.
    change Manager.required_vars with required_vars.
    rewrite Manager.forallb_filter.
    assert (E : forall var,
              negb (Py.truthy (Manager.os_getenv env var))
              = match env_lookup var env with
                | Some v => negb (Py.truthy (Py.PStr v))
                | None => true
                end).
    { intros var. unfold Manager.os_getenv. now destruct (env_lookup var env). }
    rewrite (filter_ext _ _ E). tauto.
  - unfold missing_vars. split.
    + intros H var Hin.
      destruct (env_lookup var env) as [v|] eqn:E.
      * exists v. split; [reflexivity|]. intros ->.
        assert (Hf : In var (filter (fun var => match env_lookup var env with
                                                | Some v => negb (Py.truthy (Py.PStr v))
                                                | None => true
                                                end) required_vars))
          by (apply filter_In; split; [exact Hin|now rewrite E]).
        rewrite H in Hf. destruct Hf.
      * exfalso.
        assert (Hf : In var (filter (fun var => match env_lookup var env with
                                                | Some v => negb (Py.truthy (Py.PStr v))
                                                | None => true
                                                end) required_vars))
          by (apply filter_In; split; [exact Hin|now rewrite E]).
        rewrite H in Hf. destruct Hf.
    + intros H. apply filter_nothing. intros var Hin.
      destruct (H var Hin) as (v & -> & Hne). cbn [Py.truthy].
      apply String.eqb_neq in Hne. now rewrite Hne.
Qed.
